(** * Wind-power bidding under one-price and two-price imbalance settlement

    A shallow embedding of the scenario generator ([scenarios.py]), the
    expected-revenue and CVaR objectives, the solve-and-extract routines and
    the cross-validation driver of the [Assignment_2] scripts, followed by
    the properties established about them.

    Numbers are exact rationals ([Q], compared with [==]); Python exceptions
    are values of [exn]; calls that touch the solver or read a variable of
    the solved model are recorded in a trace.  Console output and plotting
    are not modelled. *)

From Stdlib Require Import String QArith Qminmax ZArith Lia Lqa Bool List.
From Stdlib Require Import Permutation.
Import ListNotations.
Open Scope Q_scope.

(* ================================================================== *)
(** * Python runtime fragments *)
(* ================================================================== *)

Module Py.

(** The exceptions the modelled code can raise. *)
Inductive exn : Type :=
| IndexError
| ZeroDivisionError
| UnboundLocalError
| ValueError.

Inductive result (A : Type) : Type :=
| Ok (a : A)
| Raise (e : exn).
Arguments Ok {A} a.
Arguments Raise {A} e.

Definition bind {A B} (r : result A) (k : A -> result B) : result B :=
  match r with
  | Ok a => k a
  | Raise e => Raise e
  end.

Definition raises {A} (r : result A) : Prop :=
  match r with
  | Ok _ => False
  | Raise _ => True
  end.

(** [l[t]] for a non-negative index. *)
Definition getitem {A} (l : list A) (t : nat) : result A :=
  match nth_error l t with
  | Some x => Ok x
  | None => Raise IndexError
  end.

(** [range(n)]. *)
Definition range (n : nat) : list nat := seq 0 n.

(** The builtin [sum]: starts from 0 and adds from the left. *)
Definition sum (l : list Q) : Q := fold_left Qplus l 0.

(** [x / n] for an integer length [n]. *)
Definition div_len (x : Q) (n : nat) : result Q :=
  match n with
  | O => Raise ZeroDivisionError
  | _ => Ok (x / inject_Z (Z.of_nat n))
  end.

(** A list comprehension whose element expression may raise. *)
Fixpoint comprehension {A B} (f : A -> result B) (l : list A) : result (list B) :=
  match l with
  | [] => Ok []
  | x :: r =>
      bind (f x) (fun y =>
      bind (comprehension f r) (fun ys => Ok (y :: ys)))
  end.

(** A [for] loop threading its local state; an exception leaves the loop. *)
Fixpoint for_in {A S} (l : list A) (body : S -> A -> result S) (s : S) : result S :=
  match l with
  | [] => Ok s
  | x :: r => bind (body s x) (for_in r body)
  end.

End Py.

Declare Scope py_scope.
Delimit Scope py_scope with py.
Notation "x <- c ;; k" := (Py.bind c (fun x => k))
  (at level 61, c at next level, right associativity) : py_scope.
Open Scope py_scope.

(* ================================================================== *)
(** * scenarios.py *)
(* ================================================================== *)

Module Scenarios.
Import Py.

(** The scenario dictionary, with its four keys. *)
Record scenario : Type := mk_scenario {
  wind : list Q;
  price_da : list Q;
  price_bal : list Q;
  system : list Z
}.

Definition default_wind_capacity : Q := 500.

(** [[price_da[t] * 0.85 if power_list[t] == 1 else price_da[t] * 1.25
      for t in range(24)]] *)
Definition balancing_prices (price_da : list Q) (power_list : list Z)
  : result (list Q) :=
  comprehension
    (fun t =>
       flag <- getitem power_list t ;;
       p <- getitem price_da t ;;
       Ok (if (flag =? 1)%Z then p * 0.85 else p * 1.25))
    (range 24).

(** Body of the innermost loop: build one record and append it. *)
Definition append_scenario (wind_capacity : Q) (price_da wind : list Q)
    (scenarios : list scenario) (power_list : list Z) : result (list scenario) :=
  bal <- balancing_prices price_da power_list ;;
  Ok (scenarios ++
      [ {| wind := map (fun w => w * wind_capacity) wind;
           price_da := price_da;
           price_bal := bal;
           system := power_list |} ]).

Definition create_combined_scenarios (price_data_da wind_data : list (list Q))
    (power_scenarios : list (list Z)) (wind_capacity : Q)
  : result (list scenario) :=
  for_in price_data_da
    (fun scenarios price_da =>
       for_in wind_data
         (fun scenarios wind =>
            for_in power_scenarios
              (append_scenario wind_capacity price_da wind)
              scenarios)
         scenarios)
    [].

(** [zip] applied to the unpacked rows, each tuple turned into a list: one
    list per column, as many as the shortest row has entries; none when
    there is no row. *)
Definition shortest (rows : list (list Q)) : nat :=
  match rows with
  | [] => 0%nat
  | r :: rs => fold_left Nat.min (map (@length Q) rs) (length r)
  end.

Definition zip_star (rows : list (list Q)) : list (list Q) :=
  map (fun j => map (fun r => nth j r 0) rows) (range (shortest rows)).

(** [read_data], from the values of the sheet [pd.read_excel] returned:
    drop the first column ([df.iloc[:, 1:]]) and transpose. *)
Definition read_data (sheet : list (list Q)) : list (list Q) :=
  let data_only := map (@tl Q) sheet in
  zip_star data_only.

(** [generate_power_scenarios(num_scenarios, ...)]: the draw
    [np.random.binomial(1, p_deficit, size=(num_scenarios, 24))] is the
    parameter [binomial], given the two dimensions. *)
Definition generate_power_scenarios (binomial : nat -> nat -> list (list Z))
    (num_scenarios : nat) : list (list Z) :=
  binomial num_scenarios 24%nat.

(** [main()], from the values of the two sheets. *)
Definition main (wind_sheet price_sheet : list (list Q))
    (binomial : nat -> nat -> list (list Z)) : result (list scenario) :=
  let wind_data := read_data wind_sheet in
  let price_data := read_data price_sheet in
  let power_scenarios := generate_power_scenarios binomial 4 in
  create_combined_scenarios price_data wind_data power_scenarios
    default_wind_capacity.

End Scenarios.

(* ================================================================== *)
(** * The generator's output as a product *)
(* ================================================================== *)

(** Not part of [scenarios.py]: the list the generator returns on inputs it
    does not raise on, written without the loops, and the shape of a
    series it can index. *)
Module Layout.
Import Py Scenarios.

Definition balancing_price (p : Q) (flag : Z) : Q :=
  if (flag =? 1)%Z then p * 0.85 else p * 1.25.

Definition balancing_row (price_da : list Q) (power_list : list Z) : list Q :=
  map (fun t => balancing_price (nth t price_da 0) (nth t power_list 0%Z))
      (range 24).

Definition combine_one (wind_capacity : Q) (price_da wind : list Q)
    (power_list : list Z) : scenario :=
  {| wind := map (fun w => w * wind_capacity) wind;
     price_da := price_da;
     price_bal := balancing_row price_da power_list;
     system := power_list |}.

Definition product (price_data_da wind_data : list (list Q))
    (power_scenarios : list (list Z)) (wind_capacity : Q) : list scenario :=
  flat_map (fun p =>
    flat_map (fun w =>
      map (combine_one wind_capacity p w) power_scenarios) wind_data)
    price_data_da.

(** A series offers the 24 hourly entries the generator indexes. *)
Definition has_hours {A} (l : list A) : Prop := (24 <= length l)%nat.

End Layout.

(* ================================================================== *)
(** * Pyomo models, the solver and the trace of solver interactions *)
(* ================================================================== *)

Module Pyomo.
Import Py Scenarios.

(** The indexed variables the model templates declare. *)
Inductive var : Type :=
| offer_quantity (t : nat)
| delta (s t : nat)
| delta_exc (s t : nat)
| delta_def (s t : nat)
| VaR
| auxiliary (s : nat).

(** Components [value(...)] is applied to. *)
Inductive component : Type :=
| Var (v : var)
| ExpectedRevenue.

(** Values of the variables; an expression over the variables is read as
    the function giving its value under each valuation. *)
Definition valuation : Type := var -> Q.
Definition expression : Type := valuation -> Q.
Definition constraint : Type := valuation -> Prop.

Record model : Type := mk_model {
  bounds : constraint;
  constraints : list constraint;
  objective : expression
}.

Definition feasible (m : model) (v : valuation) : Prop :=
  bounds m v /\ Forall (fun c => c v) (constraints m).

Inductive SolverStatus : Type :=
| ok | warning | error | aborted | unknown.

Inductive TerminationCondition : Type :=
| optimal | infeasible | unbounded | infeasibleOrUnbounded
| maxTimeLimit | maxIterations | solverFailure | other.

(** What a call of [solver.solve(model)] leaves behind: the reported status
    and, when a solution was loaded into the model, the variables' values. *)
Record solved : Type := mk_solved {
  status : SolverStatus;
  termination_condition : TerminationCondition;
  loaded : option valuation
}.

Definition solver : Type := model -> solved.

(** [(result.solver.status == SolverStatus.ok) and
     (result.solver.termination_condition == TerminationCondition.optimal)] *)
Definition is_optimal (r : solved) : bool :=
  match status r, termination_condition r with
  | ok, optimal => true
  | _, _ => false
  end.

(** Interactions with the solver and the solved model, in program order. *)
Inductive event : Type :=
| Solve (scheme : string) (in_sample : list scenario)
| Read (c : component).

(** Computations that may raise and that extend the trace. *)
Definition M (A : Type) : Type := list event -> list event * result A.

Definition ret {A} (a : A) : M A := fun tr => (tr, Ok a).

Definition bindM {A B} (c : M A) (k : A -> M B) : M B :=
  fun tr =>
    match c tr with
    | (tr', Ok a) => k a tr'
    | (tr', Raise e) => (tr', Raise e)
    end.

Definition lift {A} (r : result A) : M A := fun tr => (tr, r).

Definition emit (ev : event) : M unit := fun tr => (tr ++ [ev], Ok tt).

(** [value(model.x)] for a variable: the read is recorded, and it raises
    when no value was loaded. *)
Definition value (r : solved) (x : var) : M Q :=
  bindM (emit (Read (Var x)))
        (fun _ => lift match loaded r with
                       | Some v => Ok (v x)
                       | None => Raise ValueError
                       end).

(** [value(model.ExpectedRevenue)]. *)
Definition value_objective (m : model) (r : solved) : M Q :=
  bindM (emit (Read ExpectedRevenue))
        (fun _ => lift match loaded r with
                       | Some v => Ok (objective m v)
                       | None => Raise ValueError
                       end).

Fixpoint comprehensionM {A B} (f : A -> M B) (l : list A) : M (list B) :=
  match l with
  | [] => ret []
  | x :: r =>
      bindM (f x) (fun y =>
      bindM (comprehensionM f r) (fun ys => ret (y :: ys)))
  end.

Fixpoint for_inM {A S} (l : list A) (body : S -> A -> M S) (s : S) : M S :=
  match l with
  | [] => ret s
  | x :: r => bindM (body s x) (for_inM r body)
  end.

(** A computation that returns normally, extending the trace. *)
Definition returns {A} (c : M A) : Prop :=
  forall tr, exists tr' a, c tr = (tr ++ tr', Ok a).

(** A computation that only ever extends the trace. *)
Definition extends {A} (c : M A) : Prop :=
  forall tr, exists tr', fst (c tr) = tr ++ tr'.

(** A computation that returns [a], extending the trace. *)
Definition computes {A} (c : M A) (a : A) : Prop :=
  forall tr, exists tr', c tr = (tr ++ tr', Ok a).

End Pyomo.

Notation "x <~ c ;; k" := (Pyomo.bindM c (fun x => k))
  (at level 61, c at next level, right associativity) : py_scope.

(* ================================================================== *)
(** * The settlement expressions shared by the three scripts *)
(* ================================================================== *)

Module Settlement.
Import Py Scenarios Pyomo.

(** The summand of every [revenue] rule (and of [auxiliary_rule]) for
    scenario [s] and hour [t]; [Task_1.py], [Task_1.1_1.2_1.3.py] and
    [Task_1_4.py] repeat it verbatim. *)
Definition settlement_term (scheme : string) (p_da : Q) (system : Z)
    (s t : nat) : expression :=
  fun m =>
    p_da * m (offer_quantity t)
    + (if (scheme =? "one")%string
       then (0.85 * p_da * m (delta_exc s t)
             - 0.85 * p_da * m (delta_def s t)) * inject_Z system
       else (0.85 * p_da * m (delta_exc s t)
             - p_da * m (delta_def s t)) * inject_Z system)
    + (if (scheme =? "one")%string
       then (1.25 * p_da * m (delta_exc s t)
             - 1.25 * p_da * m (delta_def s t)) * (1 - inject_Z system)
       else (p_da * m (delta_exc s t)
             - 1.25 * p_da * m (delta_def s t)) * (1 - inject_Z system)).

(** The summand with its data fetched from [in_sample[s]]. *)
Definition term_at (scheme : string) (in_sample : list scenario)
    (s t : nat) : result expression :=
  sc <- getitem in_sample s ;;
  p_da <- getitem (price_da sc) t ;;
  system <- getitem (system sc) t ;;
  Ok (settlement_term scheme p_da system s t).

(** [sum(e for x in xs)] over expressions. *)
Definition sum_expr (es : list expression) : expression :=
  fun m => Py.sum (map (fun e => e m) es).

(** [1 / n] for an integer length. *)
Definition inv_len (n : nat) : result Q :=
  match n with
  | O => Raise ZeroDivisionError
  | _ => Ok (1 / inject_Z (Z.of_nat n))
  end.

(** [sum(sum(term(s, t) for s in range(len(in_sample))) for t in range(24))] *)
Definition double_sum (scheme : string) (in_sample : list scenario)
  : result expression :=
  rows <- comprehension
            (fun t =>
               row <- comprehension (fun s => term_at scheme in_sample s t)
                        (range (length in_sample)) ;;
               Ok (sum_expr row))
            (range 24) ;;
  Ok (sum_expr rows).

(** The per-hour revenue of the reporting loop (the conditional expression
    covers the whole left operand). *)
Definition reported_revenue (scheme : string) (p_da bid delta_up delta_down : Q)
    (system_flag : Z) : Q :=
  if (scheme =? "one")%string then
    if (system_flag =? 1)%Z
    then p_da * bid + 0.85 * p_da * delta_up - 0.85 * p_da * delta_down
    else 1.25 * p_da * delta_up - 1.25 * p_da * delta_down
  else
    if (system_flag =? 1)%Z
    then p_da * bid + 0.85 * p_da * delta_up - p_da * delta_down
    else p_da * delta_up - 1.25 * p_da * delta_down.

(** A row of the returned table. *)
Record row : Type := mk_row {
  hour : nat;
  bid_MW : Q;
  expected_revenue : Q;
  scheme_label : string
}.

Definition label (scheme : string) : string :=
  if (scheme =? "one")%string then "One-Price"%string else "Two-Price"%string.

(** What [solve_and_extract] returns: the strategy pair or the table. *)
Inductive extracted : Type :=
| Strategy (offer_quantities : list Q) (expected_profit : Q)
| Frame (data : list row).

Definition max_capacity : Q := 500.

(** Variable declarations: domains and bounds. *)
Definition template_bounds (n : nat) : constraint :=
  fun m =>
    (forall t, (t < 24)%nat ->
       0 <= m (offer_quantity t) /\ m (offer_quantity t) <= max_capacity) /\
    (forall s t, (s < n)%nat -> (t < 24)%nat ->
       0 <= m (delta_exc s t) /\ 0 <= m (delta_def s t)).

Definition imbalance_def_rule (in_sample : list scenario) (st : nat * nat)
  : result constraint :=
  let (s, t) := st in
  sc <- getitem in_sample s ;;
  w <- getitem (wind sc) t ;;
  Ok (fun m => m (delta s t) == w - m (offer_quantity t)).

Definition delta_decomp_rule (st : nat * nat) : constraint :=
  let (s, t) := st in
  fun m => m (delta s t) == m (delta_exc s t) - m (delta_def s t).

(** [create_model_template] of [Task_1.py] and [Task_1.1_1.2_1.3.py]:
    the constraints, indexed over [model.S * model.T]. *)
Definition template_constraints (in_sample : list scenario)
  : result (list constraint) :=
  let index := list_prod (range (length in_sample)) (range 24) in
  imb <- comprehension (imbalance_def_rule in_sample) index ;;
  Ok (imb ++ map delta_decomp_rule index).

End Settlement.

(* ================================================================== *)
(** * Task_1.1_1.2_1.3.py *)
(* ================================================================== *)

Module Task13.
Import Py Scenarios Pyomo Settlement.

(** The module-level [T = range(24)]. *)
Definition T : list nat := range 24.

(** The objective rule [revenue(m)]. *)
Definition revenue (scheme : string) (in_sample : list scenario)
  : result expression :=
  c <- inv_len (length in_sample) ;;
  e <- double_sum scheme in_sample ;;
  Ok (fun m => c * e m).

(** [create_model_template] followed by the attachment of the objective. *)
Definition build (scheme : string) (in_sample : list scenario) : result model :=
  cs <- template_constraints in_sample ;;
  obj <- revenue scheme in_sample ;;
  Ok {| bounds := template_bounds (length in_sample);
        constraints := cs;
        objective := obj |}.

(** The local [offer_quantities], bound only in the optimal branch. *)
Definition local (offer_quantities : option (list Q)) : result (list Q) :=
  match offer_quantities with
  | Some l => Ok l
  | None => Raise UnboundLocalError
  end.

(** The loop collecting the hourly bid and revenue rows. *)
Definition collect (scheme : string) (in_sample : list scenario) (r : solved)
    (offer_quantities : option (list Q)) : M (list row) :=
  for_inM (range 24)
    (fun data t =>
       bid <~ lift (l <- local offer_quantities ;; getitem l t) ;;
       total_revenue <~
         for_inM (range (length in_sample))
           (fun total_revenue s =>
              sc <~ lift (getitem in_sample s) ;;
              p_da <~ lift (getitem (price_da sc) t) ;;
              delta_up <~ value r (delta_exc s t) ;;
              delta_down <~ value r (delta_def s t) ;;
              system_flag <~ lift (getitem (system sc) t) ;;
              ret (total_revenue
                   + reported_revenue scheme p_da bid delta_up delta_down
                       system_flag))
           0 ;;
       avg_revenue <~ lift (div_len total_revenue (length in_sample)) ;;
       ret (data ++ [ {| hour := t; bid_MW := bid;
                         expected_revenue := avg_revenue;
                         scheme_label := label scheme |} ]))
    [].

(** [solve_and_extract(scheme, in_sample, solver, return_only)].  The
    [solver] argument is overwritten by [SolverFactory('gurobi')], here
    [gurobi], before it is used. *)
Definition solve_and_extract (gurobi : solver) (scheme : string)
    (in_sample : list scenario) (solver : Pyomo.solver) (return_only : bool)
  : M extracted :=
  model <~ lift (build scheme in_sample) ;;
  _ <~ emit (Solve scheme in_sample) ;;
  let result := gurobi model in
  if is_optimal result then
    offer_quantities <~
      comprehensionM (fun t => value result (offer_quantity t)) (range 24) ;;
    expected_profit <~ value_objective model result ;;
    if return_only then ret (Strategy offer_quantities expected_profit)
    else
      _ <~ for_inM T (fun _ t => _ <~ value result (offer_quantity t) ;; ret tt)
             tt ;;
      data <~ collect scheme in_sample result (Some offer_quantities) ;;
      ret (Frame data)
  else
    data <~ collect scheme in_sample result None ;;
    ret (Frame data).

(** The revenue of one hour inside [evaluate_profit]. *)
Definition hour_revenue (scheme : string) (bid wind p_da : Q)
    (system_flag : Z) : Q :=
  let imbalance := wind - bid in
  if Qle_bool 0 imbalance then
    if (scheme =? "one")%string
    then p_da * bid
         + (if (system_flag =? 1)%Z then 0.85 else 1.25) * p_da * imbalance
    else p_da * bid
         + (if (system_flag =? 1)%Z then 0.85 else 1.00) * p_da * imbalance
  else
    let deficit := - imbalance in
    if (scheme =? "one")%string
    then p_da * bid
         - (if (system_flag =? 1)%Z then 0.85 else 1.25) * p_da * deficit
    else p_da * bid
         - (if (system_flag =? 1)%Z then 1.00 else 1.25) * p_da * deficit.

Definition evaluate_profit (offer_quantities : list Q)
    (scenarios : list scenario) (scheme : string) : result Q :=
  total_profit <-
    for_in scenarios
      (fun total_profit s =>
         scenario_profit <-
           for_in (range 24)
             (fun scenario_profit t =>
                bid <- getitem offer_quantities t ;;
                wind <- getitem (wind s) t ;;
                p_da <- getitem (price_da s) t ;;
                system_flag <- getitem (system s) t ;;
                Ok (scenario_profit
                    + hour_revenue scheme bid wind p_da system_flag))
             0 ;;
         Ok (total_profit + scenario_profit))
      0 ;;
  div_len total_profit (length scenarios).

(** [numpy] floats as far as the driver needs them: a number or [nan]. *)
Inductive npfloat : Type :=
| Num (q : Q)
| NaN.

(** [np.mean]: [nan] on the empty list. *)
Definition np_mean (l : list Q) : npfloat :=
  match l with
  | [] => NaN
  | _ => Num (Py.sum l / inject_Z (Z.of_nat (length l)))
  end.

Definition np_sub (a b : npfloat) : npfloat :=
  match a, b with
  | Num x, Num y => Num (x - y)
  | _, _ => NaN
  end.

(** One summary record of the returned table. *)
Record summary : Type := mk_summary {
  in_sample_size : nat;
  avg_in_sample_profit : npfloat;
  avg_out_sample_profit : npfloat;
  generalization_gap : npfloat
}.

(** [a // b] on non-negative integers. *)
Definition floordiv (a b : nat) : result nat :=
  match b with
  | O => Raise ZeroDivisionError
  | _ => Ok (a / b)%nat
  end.

(** [l[a:b]] for [0 <= a <= b]. *)
Definition slice {A} (l : list A) (a b : nat) : list A :=
  firstn (b - a) (skipn a l).

(** [[s for j, fold in enumerate(folds) if j != i for s in fold]] *)
Definition out_of_fold {A} (folds : list (list A)) (i : nat) : list A :=
  flat_map (fun jf => if (fst jf =? i)%nat then [] else snd jf)
           (combine (seq 0 (length folds)) folds).

(** [offer_quantities, in_profit = solve_and_extract(...)] *)
Definition unpack (e : extracted) : result (list Q * Q) :=
  match e with
  | Strategy offer_quantities expected_profit =>
      Ok (offer_quantities, expected_profit)
  | Frame _ => Raise ValueError
  end.

(** The folds cut out of the shuffled copy. *)
Definition make_folds {A} (scenarios_copy : list A)
    (in_sample_size num_folds : nat) : list (list A) :=
  map (fun i => slice scenarios_copy (i * in_sample_size)
                  ((i + 1) * in_sample_size))
      (range num_folds).

(** The body of the loop over the folds: train on fold [i], score on the
    others, append both profits. *)
Definition fold_step (gurobi : solver) (scheme : string)
    (solver : Pyomo.solver) (folds : list (list scenario))
    (profits : list Q * list Q) (i : nat) : M (list Q * list Q) :=
  in_sample <~ lift (getitem folds i) ;;
  let out_sample := out_of_fold folds i in
  res <~ solve_and_extract gurobi scheme in_sample solver true ;;
  pair <~ lift (unpack res) ;;
  out_profit <~ lift (evaluate_profit (fst pair) out_sample scheme) ;;
  ret (fst profits ++ [snd pair], snd profits ++ [out_profit]).

(** The body of the loop over the requested sizes.  [shuffle] stands for
    [random.seed(42); random.shuffle(...)]. *)
Definition cross_validate (shuffle : list scenario -> list scenario)
    (gurobi : solver) (all_scenarios : list scenario) (scheme : string)
    (solver : Pyomo.solver) (in_sample_size : nat) : M summary :=
  num_folds <~ lift (floordiv (length all_scenarios) in_sample_size) ;;
  let scenarios_copy := shuffle all_scenarios in
  let folds := make_folds scenarios_copy in_sample_size num_folds in
  profits <~
    for_inM (range num_folds) (fold_step gurobi scheme solver folds)
      ([], []) ;;
  let avg_in := np_mean (fst profits) in
  let avg_out := np_mean (snd profits) in
  let gap := np_sub avg_in avg_out in
  ret {| in_sample_size := in_sample_size;
         avg_in_sample_profit := avg_in;
         avg_out_sample_profit := avg_out;
         generalization_gap := gap |}.

Definition run_cross_validation_for_sizes
    (shuffle : list scenario -> list scenario) (gurobi : solver)
    (all_scenarios : list scenario) (in_sample_sizes : list nat)
    (scheme : string) (solver : Pyomo.solver) : M (list summary) :=
  for_inM in_sample_sizes
    (fun results in_sample_size =>
       r <~ cross_validate shuffle gurobi all_scenarios scheme solver
              in_sample_size ;;
       ret (results ++ [r]))
    [].

End Task13.

(* ================================================================== *)
(** * Task_1.py *)
(* ================================================================== *)

Module Task1.
Import Py Scenarios Pyomo Settlement.

Definition T : list nat := range 24.

(** The model and its objective are those of [Task_1.1_1.2_1.3.py]. *)
Definition build := Task13.build.

(** The loop extracting the hourly bid and revenue rows; the bid is read
    from the model. *)
Definition collect (scheme : string) (in_sample : list scenario) (r : solved)
  : M (list row) :=
  for_inM (range 24)
    (fun data t =>
       bid <~ value r (offer_quantity t) ;;
       total_revenue <~
         for_inM (range (length in_sample))
           (fun total_revenue s =>
              sc <~ lift (getitem in_sample s) ;;
              p_da <~ lift (getitem (price_da sc) t) ;;
              delta_up <~ value r (delta_exc s t) ;;
              delta_down <~ value r (delta_def s t) ;;
              system_flag <~ lift (getitem (system sc) t) ;;
              ret (total_revenue
                   + reported_revenue scheme p_da bid delta_up delta_down
                       system_flag))
           0 ;;
       avg_revenue <~ lift (div_len total_revenue (length in_sample)) ;;
       ret (data ++ [ {| hour := t; bid_MW := bid;
                         expected_revenue := avg_revenue;
                         scheme_label := label scheme |} ]))
    [].

(** [solve_and_extract(scheme, in_sample, solver)]: the non-optimal branch
    only prints, and the extraction follows in both cases. *)
Definition solve_and_extract (gurobi : solver) (scheme : string)
    (in_sample : list scenario) (solver : Pyomo.solver) : M (list row) :=
  model <~ lift (build scheme in_sample) ;;
  _ <~ emit (Solve scheme in_sample) ;;
  let result := gurobi model in
  _ <~ (if is_optimal result then
          _ <~ for_inM T
                 (fun _ t => _ <~ value result (offer_quantity t) ;; ret tt)
                 tt ;;
          _ <~ value_objective model result ;;
          ret tt
        else ret tt) ;;
  collect scheme in_sample result.

End Task1.

(* ================================================================== *)
(** * Task_1_4.py *)
(* ================================================================== *)

Module Task14.
Import Py Scenarios Pyomo Settlement.

(** [sum(term(s, t) for t in range(24))]: the 24-hour settlement sum of
    scenario [s]. *)
Definition scenario_sum (scheme : string) (in_sample : list scenario)
    (s : nat) : result expression :=
  row <- comprehension (fun t => term_at scheme in_sample s t) (range 24) ;;
  Ok (sum_expr row).

(** [auxiliary_rule(m, s, t)]: the generator variable of the inner sum
    shadows the index [t] of the rule. *)
Definition auxiliary_rule (scheme : string) (in_sample : list scenario)
    (st : nat * nat) : result constraint :=
  let (s, _) := st in
  profit <- scenario_sum scheme in_sample s ;;
  Ok (fun m => m (auxiliary s) >= m VaR - profit m).

(** [model.Auxiliary = Constraint(model.S, model.T, rule=auxiliary_rule)] *)
Definition Auxiliary (scheme : string) (in_sample : list scenario)
  : result (list constraint) :=
  comprehension (auxiliary_rule scheme in_sample)
    (list_prod (range (length in_sample)) (range 24)).

Definition template_bounds (n : nat) : constraint :=
  fun m =>
    Settlement.template_bounds n m /\
    0 <= m VaR /\
    (forall s, (s < n)%nat -> 0 <= m (auxiliary s)).

(** [1 / (1 - alpha)] *)
Definition tail_weight (alpha : Q) : result Q :=
  if Qeq_bool (1 - alpha) 0 then Raise ZeroDivisionError
  else Ok (1 / (1 - alpha)).

(** The objective rule [revenue(m)] of the risk-adjusted solve. *)
Definition revenue (scheme : string) (beta alpha : Q)
    (in_sample : list scenario) : result expression :=
  c <- inv_len (length in_sample) ;;
  e <- double_sum scheme in_sample ;;
  w <- tail_weight alpha ;;
  Ok (fun m =>
        (1 - beta) * (c * e m)
        + beta * (m VaR
                  - w * Py.sum (map (fun s => c * m (auxiliary s))
                                    (range (length in_sample))))).

(** [create_model_template(scheme, in_sample)] followed by the attachment
    of the objective. *)
Definition build (scheme : string) (beta alpha : Q)
    (in_sample : list scenario) : result model :=
  cs <- template_constraints in_sample ;;
  aux <- Auxiliary scheme in_sample ;;
  obj <- revenue scheme beta alpha in_sample ;;
  Ok {| bounds := template_bounds (length in_sample);
        constraints := cs ++ aux;
        objective := obj |}.

Definition default_alpha : Q := 0.90.

(** The loop collecting the hourly rows has the text of the one in
    [Task_1.1_1.2_1.3.py]. *)
Definition collect := Task13.collect.

(** What the routine returns: the strategy pair, or the table with the
    expected revenue, the CVaR and the profit of every scenario. *)
Inductive extracted : Type :=
| Strategy (offer_quantities : list Q) (expected_profit : Q)
| Report (data : list row) (expected_revenue cvar : Q)
         (profits_per_scenario : list Q).

(** [value(model.VaR) - (1 / (1 - alpha)) * sum((1 / len(in_sample)) *
     value(model.auxiliary[s]) for s in range(len(in_sample)))] *)
Definition cvar_value (alpha : Q) (in_sample : list scenario) (r : solved)
  : M Q :=
  var_ <~ value r VaR ;;
  w <~ lift (tail_weight alpha) ;;
  total <~
    for_inM (range (length in_sample))
      (fun acc s =>
         c <~ lift (inv_len (length in_sample)) ;;
         a <~ value r (auxiliary s) ;;
         ret (acc + c * a))
      0 ;;
  ret (var_ - w * total).

(** One summand of the recomputed expected revenue, every variable read
    through [value]. *)
Definition term_value (scheme : string) (in_sample : list scenario)
    (r : solved) (s t : nat) : M Q :=
  sc <~ lift (getitem in_sample s) ;;
  p_da <~ lift (getitem (price_da sc) t) ;;
  offer <~ value r (offer_quantity t) ;;
  exc1 <~ value r (delta_exc s t) ;;
  def1 <~ value r (delta_def s t) ;;
  system <~ lift (getitem (system sc) t) ;;
  exc2 <~ value r (delta_exc s t) ;;
  def2 <~ value r (delta_def s t) ;;
  ret (p_da * offer
       + (if (scheme =? "one")%string
          then (0.85 * p_da * exc1 - 0.85 * p_da * def1) * inject_Z system
          else (0.85 * p_da * exc1 - p_da * def1) * inject_Z system)
       + (if (scheme =? "one")%string
          then (1.25 * p_da * exc2 - 1.25 * p_da * def2)
               * (1 - inject_Z system)
          else (p_da * exc2 - 1.25 * p_da * def2) * (1 - inject_Z system))).

(** [(1 / len(in_sample)) * sum(sum(term for t in range(24))
     for s in range(len(in_sample)))] *)
Definition expected_revenue_value (scheme : string)
    (in_sample : list scenario) (r : solved) : M Q :=
  c <~ lift (inv_len (length in_sample)) ;;
  total <~
    for_inM (range (length in_sample))
      (fun acc s =>
         inner <~
           for_inM (range 24)
             (fun acc' t =>
                x <~ term_value scheme in_sample r s t ;;
                ret (acc' + x))
             0 ;;
         ret (acc + inner))
      0 ;;
  ret (c * total).

(** The profit one hour adds in the scenario-wise loop: the day-ahead
    income is there in all four branches. *)
Definition scenario_hour (scheme : string) (p_da bid delta_up delta_down : Q)
    (system_flag : Z) : Q :=
  if (scheme =? "one")%string then
    if (system_flag =? 1)%Z
    then p_da * bid + 0.85 * p_da * delta_up - 0.85 * p_da * delta_down
    else p_da * bid + 1.25 * p_da * delta_up - 1.25 * p_da * delta_down
  else
    if (system_flag =? 1)%Z
    then p_da * bid + 0.85 * p_da * delta_up - p_da * delta_down
    else p_da * bid + p_da * delta_up - 1.25 * p_da * delta_down.

(** The scenario-wise profit computation. *)
Definition profits_loop (scheme : string) (in_sample : list scenario)
    (r : solved) : M (list Q) :=
  for_inM (range (length in_sample))
    (fun profits_per_scenario s =>
       profit_s <~
         for_inM (range 24)
           (fun profit_s t =>
              sc <~ lift (getitem in_sample s) ;;
              p_da <~ lift (getitem (price_da sc) t) ;;
              delta_up <~ value r (delta_exc s t) ;;
              delta_down <~ value r (delta_def s t) ;;
              bid <~ value r (offer_quantity t) ;;
              system_flag <~ lift (getitem (system sc) t) ;;
              ret (profit_s
                   + scenario_hour scheme p_da bid delta_up delta_down
                       system_flag))
           0 ;;
       ret (profits_per_scenario ++ [profit_s]))
    [].

(** [solve_and_extract(scheme, beta, in_sample, solver, return_only,
    alpha)]; the [solver] argument is overwritten as in the other
    scripts. *)
Definition solve_and_extract (gurobi : solver) (scheme : string) (beta : Q)
    (in_sample : list scenario) (solver : Pyomo.solver) (return_only : bool)
    (alpha : Q) : M extracted :=
  model <~ lift (build scheme beta alpha in_sample) ;;
  _ <~ emit (Solve scheme in_sample) ;;
  let result := gurobi model in
  offer_quantities <~
    (if is_optimal result then
       offer_quantities <~
         comprehensionM (fun t => value result (offer_quantity t))
           (range 24) ;;
       expected_profit <~ value_objective model result ;;
       ret (Some (offer_quantities, expected_profit))
     else ret None) ;;
  match offer_quantities, return_only with
  | Some (offer, expected_profit), true => ret (Strategy offer expected_profit)
  | _, _ =>
      data <~ collect scheme in_sample result
                (option_map fst offer_quantities) ;;
      cvar <~ cvar_value alpha in_sample result ;;
      expected_revenue <~ expected_revenue_value scheme in_sample result ;;
      profits <~ profits_loop scheme in_sample result ;;
      ret (Report data expected_revenue cvar profits)
  end.

End Task14.

(* ================================================================== *)
(** * Statements taken from the specification *)
(* ================================================================== *)

Module Spec.
Import Py Scenarios Layout Pyomo Settlement.

(** The data model's invariant: 24 hourly entries are there to index. *)
Definition well_formed (sc : scenario) : Prop :=
  has_hours (wind sc) /\ has_hours (price_da sc) /\ has_hours (system sc).

(** The system flag of every hour is 0 or 1. *)
Definition binary (sc : scenario) : Prop :=
  forall t, (t < 24)%nat ->
    nth t (system sc) 0%Z = 0%Z \/ nth t (system sc) 0%Z = 1%Z.

Definition no_scenario : scenario :=
  {| wind := []; price_da := []; price_bal := []; system := [] |}.

Definition wind_at (scs : list scenario) (s t : nat) : Q :=
  nth t (wind (nth s scs no_scenario)) 0.

Definition price_at (scs : list scenario) (s t : nat) : Q :=
  nth t (price_da (nth s scs no_scenario)) 0.

Definition system_at (scs : list scenario) (s t : nat) : Z :=
  nth t (system (nth s scs no_scenario)) 0%Z.

(** [excess = max(wind - bid, 0)] and [deficit = max(bid - wind, 0)]. *)
Definition excess (wind bid : Q) : Q := Qmax (wind - bid) 0.
Definition deficit (wind bid : Q) : Q := Qmax (bid - wind) 0.

(** The variables of the linear program at a fixed bid vector. *)
Definition fixed_bid (bid : list Q) (scs : list scenario) : valuation :=
  fun x =>
    match x with
    | offer_quantity t => nth t bid 0
    | delta s t => wind_at scs s t - nth t bid 0
    | delta_exc s t => excess (wind_at scs s t) (nth t bid 0)
    | delta_def s t => deficit (wind_at scs s t) (nth t bid 0)
    | VaR => 0
    | auxiliary _ => 0
    end.

(** The settlement term of scenario [s] at hour [t]. *)
Definition term (scheme : string) (scs : list scenario) (s t : nat)
  : expression :=
  settlement_term scheme (price_at scs s t) (system_at scs s t) s t.

(** The revenue one scenario realizes over the 24 hours at a fixed bid,
    hour by hour as [evaluate_profit] computes it. *)
Definition realized (scheme : string) (bid : list Q) (sc : scenario) : Q :=
  Py.sum (map (fun t => Task13.hour_revenue scheme (nth t bid 0)
                          (nth t (wind sc) 0) (nth t (price_da sc) 0)
                          (nth t (system sc) 0%Z))
              (range 24)).

(** [profit(s)]: the 24-hour settlement sum of scenario [s]. *)
Definition profit (scheme : string) (scs : list scenario) (s : nat)
  : expression :=
  fun m => Py.sum (map (fun t => term scheme scs s t m) (range 24)).

Definition mean (l : list Q) : Q :=
  Py.sum l / inject_Z (Z.of_nat (length l)).

(** The mean over the scenarios of the settlement sum. *)
Definition expected_revenue (scheme : string) (scs : list scenario)
  : expression :=
  fun m => mean (map (fun s => profit scheme scs s m) (range (length scs))).

(** The risk-adjusted objective as the specification writes it. *)
Definition risk_adjusted (scheme : string) (beta alpha : Q)
    (scs : list scenario) : expression :=
  fun m =>
    (1 - beta) * expected_revenue scheme scs m
    + beta * (m VaR
              - (1 / (1 - alpha))
                * mean (map (fun s => m (auxiliary s)) (range (length scs)))).

(** Input the specification calls malformed: an empty price or wind
    collection, or a price or wind series whose length is not 24. *)
Definition malformed (price_data_da wind_data : list (list Q)) : Prop :=
  price_data_da = [] \/ wind_data = [] \/
  Exists (fun l => length l <> 24%nat) price_data_da \/
  Exists (fun l => length l <> 24%nat) wind_data.

(** A bid of every hour lies within [0, cap]. *)
Definition within (cap : Q) (bid : list Q) : Prop :=
  length bid = 24%nat /\ Forall (fun b => 0 <= b /\ b <= cap) bid.

(** "The bid vector [full] maximizes the one-price expected revenue of the
    population over the bid vectors within the capacity." *)
Definition maximizes_one_price (cap : Q) (population : list scenario)
    (full : list Q) : Prop :=
  forall bid v v_full,
    within cap bid ->
    Task13.evaluate_profit bid population "one" = Ok v ->
    Task13.evaluate_profit full population "one" = Ok v_full ->
    v <= v_full.

(** "After a non-optimal termination the routine fails and no variable
    value has been read": for both [solve_and_extract] routines, started on
    the empty trace. *)
Definition no_read (tr : list event) : Prop :=
  forall c, ~ In (Read c) tr.

Definition non_optimal_fails_unread : Prop :=
  forall gurobi scheme scs solver m,
    Task13.build scheme scs = Ok m ->
    is_optimal (gurobi m) = false ->
    (forall return_only,
       raises (snd (Task13.solve_and_extract gurobi scheme scs solver
                      return_only [])) /\
       no_read (fst (Task13.solve_and_extract gurobi scheme scs solver
                       return_only []))) /\
    raises (snd (Task1.solve_and_extract gurobi scheme scs solver [])) /\
    no_read (fst (Task1.solve_and_extract gurobi scheme scs solver [])).

(** The concatenation of all folds other than fold [i]. *)
Definition others {A} (folds : list (list A)) (i : nat) : list A :=
  concat (firstn i folds ++ skipn (Datatypes.S i) folds).

(** The bid vector extracted from a loaded solution. *)
Definition extracted_bid (v : valuation) : list Q :=
  map (fun t => v (offer_quantity t)) (range 24).

(** What training on one fold leaves in the trace: the solve, the 24 reads
    of the bid and the read of the objective. *)
Definition fold_events (scheme : string) (fold : list scenario)
  : list event :=
  Solve scheme fold
  :: map (fun t => Read (Var (offer_quantity t))) (range 24)
     ++ [Read ExpectedRevenue].

(** Fold [i] was trained on alone, and its bid vector was evaluated on the
    other folds: [p] holds its in-sample and out-of-sample profit. *)
Definition trained (gurobi : solver) (scheme : string)
    (folds : list (list scenario)) (i : nat) (p : Q * Q) : Prop :=
  exists fold m v,
    nth_error folds i = Some fold /\
    Task13.build scheme fold = Ok m /\
    loaded (gurobi m) = Some v /\
    fst p = objective m v /\
    Task13.evaluate_profit (extracted_bid v) (others folds i) scheme
    = Ok (snd p).

(** The solver ends every run optimally with a solution loaded. *)
Definition always_optimal (gurobi : solver) : Prop :=
  forall m, is_optimal (gurobi m) = true /\ loaded (gurobi m) <> None.

(** "A fold size above the population size is rejected." *)
Definition oversize_fold_rejected : Prop :=
  forall shuffle gurobi all sizes scheme solver f,
    In f sizes -> (length all < f)%nat ->
    raises (snd (Task13.run_cross_validation_for_sizes shuffle gurobi all
                   sizes scheme solver [])).

(** "Every fold size between 1 and the population size is reported on." *)
Definition every_fold_size_reported : Prop :=
  forall shuffle gurobi all f scheme solver,
    Permutation (shuffle all) all ->
    (1 <= f)%nat -> (f <= length all)%nat ->
    Forall well_formed all -> always_optimal gurobi ->
    exists tr rows,
      Task13.run_cross_validation_for_sizes shuffle gurobi all [f] scheme
        solver [] = (tr, Ok rows).

(** "Fails on every malformed input." *)
Definition generator_rejects_malformed : Prop :=
  forall ps ws ks cap,
    malformed ps ws -> raises (create_combined_scenarios ps ws ks cap).

(** Day-ahead prices of the 24 hours are not negative. *)
Definition nonneg_prices (sc : scenario) : Prop :=
  forall t, (t < 24)%nat -> 0 <= nth t (price_da sc) 0.

(** The multiplier of the one-price scheme for a system flag. *)
Definition one_price_multiplier (flag : Z) : Q :=
  if (flag =? 1)%Z then 0.85 else 1.25.

(** The one-price revenue of a scenario written without a case on the sign
    of the imbalance. *)
Definition one_price_linear (bid : list Q) (sc : scenario) : Q :=
  Py.sum (map (fun t =>
                 let p := nth t (price_da sc) 0 in
                 let m := one_price_multiplier (nth t (system sc) 0%Z) in
                 p * nth t bid 0 + m * p * (nth t (wind sc) 0 - nth t bid 0))
              (range 24)).

(** What the scenario's wind earns when sold day-ahead hour by hour. *)
Definition forecast_revenue (sc : scenario) : Q :=
  Py.sum (map (fun t => nth t (price_da sc) 0 * nth t (wind sc) 0)
              (range 24)).

(** The day-ahead income of the hours whose system flag is not 1. *)
Definition surplus_income (bid : list Q) (sc : scenario) : Q :=
  Py.sum (map (fun t =>
                 if (nth t (system sc) 0%Z =? 1)%Z then 0
                 else nth t (price_da sc) 0 * nth t bid 0)
              (range 24)).

(** The hourly revenue the reporting loop averages for hour [t]. *)
Definition reported_hour (scheme : string) (scs : list scenario)
    (v : valuation) (t : nat) : Q :=
  Py.sum (map (fun s =>
                 reported_revenue scheme (price_at scs s t)
                   (v (offer_quantity t)) (v (delta_exc s t))
                   (v (delta_def s t)) (system_at scs s t))
              (range (length scs)))
  / inject_Z (Z.of_nat (length scs)).

(** The table of 24 rows built from a loaded solution. *)
Definition table (scheme : string) (scs : list scenario) (v : valuation)
  : list row :=
  map (fun t => mk_row t (v (offer_quantity t))
                  (reported_hour scheme scs v t) (label scheme))
      (range 24).

(** The profit of scenario [s] as the scenario-wise loop of [Task_1_4.py]
    adds it up. *)
Definition scenario_profit (scheme : string) (scs : list scenario)
    (v : valuation) (s : nat) : Q :=
  Py.sum (map (fun t =>
                 Task14.scenario_hour scheme (price_at scs s t)
                   (v (offer_quantity t)) (v (delta_exc s t))
                   (v (delta_def s t)) (system_at scs s t))
              (range 24)).

(** A sheet of [rows] rows with [cols] values each. *)
Definition rectangular (rows cols : nat) (sheet : list (list Q)) : Prop :=
  length sheet = rows /\ Forall (fun r => length r = cols) sheet.

(** What [np.random.binomial(1, p, size=(n, k))] guarantees of its
    result: [n] rows of [k] flags, each 0 or 1. *)
Definition binomial_shape (binomial : nat -> nat -> list (list Z)) : Prop :=
  forall n k,
    length (binomial n k) = n /\
    Forall (fun r => length r = k /\
                     Forall (fun f => f = 0%Z \/ f = 1%Z) r)
           (binomial n k).

(** The variables of the risk-adjusted program at a fixed bid vector and a
    threshold [var]: every shortfall is the positive part of
    [var - profit(s)]. *)
Definition risk_point (scheme : string) (bid : list Q) (scs : list scenario)
    (var : Q) : valuation :=
  fun x =>
    match x with
    | VaR => var
    | auxiliary s => Qmax (var - profit scheme scs s (fixed_bid bid scs)) 0
    | _ => fixed_bid bid scs x
    end.

(** What one more unit of bid in hour [t] adds to the summed one-price
    revenue of the scenarios. *)
Definition hour_slope (scs : list scenario) (t : nat) : Q :=
  Py.sum (map (fun sc => nth t (price_da sc) 0
                         * (1 - one_price_multiplier (nth t (system sc) 0%Z)))
              scs).

(** Bid the whole capacity in the hours where that slope is not negative
    and nothing in the others. *)
Definition all_or_nothing (cap : Q) (scs : list scenario) : list Q :=
  map (fun t => if Qle_bool 0 (hour_slope scs t) then cap else 0) (range 24).

(** The CVaR term of a valuation. *)
Definition cvar (alpha : Q) (scs : list scenario) : expression :=
  fun m =>
    m VaR
    - (1 / (1 - alpha))
      * mean (map (fun s => m (auxiliary s)) (range (length scs))).

End Spec.

(* ================================================================== *)
(** * Sample data *)
(* ================================================================== *)

Module Samples.
Import Scenarios Layout.

(** A 24-hour series holding one value. *)
Definition flat (x : Q) : list Q := repeat x 24.

(** The system-state series [1, 0, 1, 0, ...]. *)
Definition alternating : list Z :=
  map (fun t => if Nat.even t then 1%Z else 0%Z) (seq 0 24).

(** A wind series given as a fraction of the installed capacity. *)
Definition fifth : list Q := repeat 0.2 24.

(** The scenario with certain wind 100 and day-ahead price 50. *)
Definition certain : scenario :=
  {| wind := flat 100;
     price_da := flat 50;
     price_bal := balancing_row (flat 50) alternating;
     system := alternating |}.

(** The population of four such scenarios. *)
Definition population : list scenario := repeat certain 4.

(** Bid everything in the hours with flag 1 and nothing in the others. *)
Definition selective : list Q :=
  map (fun f : Z => if (f =? 1)%Z then 100 else 0) alternating.

(** Scenarios with wind 100 and price 50 whose system flag is constant. *)
Definition steady (flag : Z) : scenario :=
  {| wind := flat 100;
     price_da := flat 50;
     price_bal := balancing_row (flat 50) (repeat flag 24);
     system := repeat flag 24 |}.

(** Two scenarios with the system in deficit, one with it in surplus. *)
Definition mixed : list scenario := [steady 1; steady 1; steady 0].

(** A solver run that ends optimally with the valuation [v] loaded. *)
Definition oracle (v : Pyomo.valuation) : Pyomo.solver :=
  fun _ => {| Pyomo.status := Pyomo.ok;
              Pyomo.termination_condition := Pyomo.optimal;
              Pyomo.loaded := Some v |}.

(** A solver run stopped by its time limit with the incumbent [v] loaded. *)
Definition timed_out (v : Pyomo.valuation) : Pyomo.solver :=
  fun _ => {| Pyomo.status := Pyomo.aborted;
              Pyomo.termination_condition := Pyomo.maxTimeLimit;
              Pyomo.loaded := Some v |}.

(** A solver run that finds the model infeasible and loads nothing. *)
Definition infeasible_run : Pyomo.solver :=
  fun _ => {| Pyomo.status := Pyomo.warning;
              Pyomo.termination_condition := Pyomo.infeasible;
              Pyomo.loaded := None |}.

End Samples.

(* ================================================================== *)
(** * Properties *)
(* ================================================================== *)

Import Py Scenarios Layout.

Section ListFacts.

Lemma comprehension_ok {A B} (f : A -> result B) (g : A -> B) (l : list A) :
  (forall x, In x l -> f x = Ok (g x)) ->
  comprehension f l = Ok (map g l).
Proof.
  induction l as [|x r IH]; intros H; simpl.
  - reflexivity.
  - rewrite (H x (or_introl eq_refl)). simpl.
    rewrite IH by (intros y Hy; apply H; now right). reflexivity.
Qed.

Lemma getitem_nth {A} (l : list A) (t : nat) (d : A) :
  (t < length l)%nat -> getitem l t = Ok (nth t l d).
Proof.
  intros H. unfold getitem.
  rewrite (nth_error_nth' l d H). reflexivity.
Qed.

Lemma for_in_append {A B} (body : list B -> A -> result (list B))
    (g : A -> B) (l : list A) :
  (forall x acc, In x l -> body acc x = Ok (acc ++ [g x])) ->
  forall acc, for_in l body acc = Ok (acc ++ map g l).
Proof.
  induction l as [|x r IH]; intros H acc; simpl.
  - now rewrite app_nil_r.
  - rewrite (H x acc (or_introl eq_refl)). simpl.
    rewrite IH by (intros y a Hy; apply H; now right).
    now rewrite <- app_assoc.
Qed.

Lemma Forall2_In_left {A B} (R : A -> B -> Prop) (l : list A) (l' : list B) x :
  Forall2 R l l' -> In x l -> exists y, In y l' /\ R x y.
Proof.
  induction 1 as [|a b r r' Hab _ IH]; intros Hin.
  - destruct Hin.
  - destruct Hin as [->|Hin].
    + exists b. split; [now left|exact Hab].
    + destruct (IH Hin) as (y & Hy & Hxy). exists y. split; [now right|exact Hxy].
Qed.

Lemma for_in_flat {A B} (body : list B -> A -> result (list B))
    (g : A -> list B) (l : list A) :
  (forall x acc, In x l -> body acc x = Ok (acc ++ g x)) ->
  forall acc, for_in l body acc = Ok (acc ++ flat_map g l).
Proof.
  induction l as [|x r IH]; intros H acc; simpl.
  - now rewrite app_nil_r.
  - rewrite (H x acc (or_introl eq_refl)). simpl.
    rewrite IH by (intros y a Hy; apply H; now right).
    now rewrite <- app_assoc.
Qed.

Lemma flat_map_uniform_length {A B} (f : A -> list B) (n : nat) (l : list A) :
  (forall a, In a l -> length (f a) = n) ->
  length (flat_map f l) = (length l * n)%nat.
Proof.
  induction l as [|x r IH]; intros H; simpl.
  - reflexivity.
  - rewrite length_app, (H x (or_introl eq_refl)), IH; [lia|].
    intros a Ha; apply H; now right.
Qed.

Lemma flat_map_uniform_nth {A B} (f : A -> list B) (n : nat) (l : list A) :
  (forall a, In a l -> length (f a) = n) ->
  forall i j a, nth_error l i = Some a -> (j < n)%nat ->
    nth_error (flat_map f l) (i * n + j) = nth_error (f a) j.
Proof.
  induction l as [|x r IH]; intros H i j a Hi Hj.
  - destruct i; discriminate.
  - destruct i as [|i]; simpl in *.
    + injection Hi as ->. rewrite nth_error_app1; [reflexivity|].
      rewrite (H a (or_introl eq_refl)). exact Hj.
    + rewrite nth_error_app2; rewrite (H x (or_introl eq_refl)); [|lia].
      replace (n + i * n + j - n)%nat with (i * n + j)%nat by lia.
      apply IH; auto.
Qed.

End ListFacts.

(* ------------------------------------------------------------------ *)
(** ** The scenario generator *)
(* ------------------------------------------------------------------ *)

Section Generator.

Lemma comprehension_inv {A B} (f : A -> result B) (l : list A) (ys : list B) :
  comprehension f l = Ok ys -> Forall2 (fun x y => f x = Ok y) l ys.
Proof.
  revert ys. induction l as [|x r IH]; simpl; intros ys H.
  - injection H as <-. constructor.
  - destruct (f x) as [y|e] eqn:Hx; simpl in H; [|discriminate].
    destruct (comprehension f r) as [zs|e] eqn:Hr; simpl in H; [|discriminate].
    injection H as <-. constructor; auto.
Qed.

Lemma for_in_invariant {A S} (P : S -> Prop) (body : S -> A -> result S)
    (l : list A) :
  (forall s x s', P s -> body s x = Ok s' -> P s') ->
  forall s s', P s -> for_in l body s = Ok s' -> P s'.
Proof.
  intros Hstep. induction l as [|x r IH]; simpl; intros s s' Hs H.
  - injection H as <-. exact Hs.
  - destruct (body s x) as [s1|e] eqn:Hb; simpl in H; [|discriminate].
    eapply IH; [|exact H]. eapply Hstep; eauto.
Qed.

Lemma for_in_exn {A S} (P : exn -> Prop) (body : S -> A -> result S)
    (l : list A) :
  (forall s x e, body s x = Raise e -> P e) ->
  forall s e, for_in l body s = Raise e -> P e.
Proof.
  intros Hstep. induction l as [|x r IH]; simpl; intros s e H.
  - discriminate.
  - destruct (body s x) as [s1|e1] eqn:Hb; simpl in H.
    + eapply IH; eauto.
    + injection H as <-. eapply Hstep; eauto.
Qed.

Lemma for_in_raises {A S} (body : S -> A -> result S) (l : list A) (x : A) :
  In x l -> (forall s, raises (body s x)) ->
  forall s, raises (for_in l body s).
Proof.
  intros Hin Hx. induction l as [|y r IH]; simpl; intros s.
  - destruct Hin.
  - destruct (body s y) as [s1|e] eqn:Hb; simpl; [|exact I].
    destruct Hin as [->|Hin].
    + specialize (Hx s). rewrite Hb in Hx. destruct Hx.
    + apply IH; exact Hin.
Qed.

Lemma balancing_prices_ok (p : list Q) (k : list Z) :
  has_hours p -> has_hours k ->
  balancing_prices p k = Ok (balancing_row p k).
Proof.
  unfold has_hours, balancing_prices, balancing_row. intros Hp Hk.
  apply comprehension_ok. intros t Ht.
  apply in_seq in Ht.
  rewrite (getitem_nth k t 0%Z) by lia. simpl.
  rewrite (getitem_nth p t 0) by lia. reflexivity.
Qed.

Lemma balancing_prices_exn (p : list Q) (k : list Z) (e : exn) :
  balancing_prices p k = Raise e -> e = IndexError.
Proof.
  unfold balancing_prices. generalize (range 24) as ts.
  induction ts as [|t r IH]; simpl; intros H.
  - discriminate.
  - unfold getitem in H at 1 2.
    destruct (nth_error k t); simpl in H; [|now injection H].
    destruct (nth_error p t); simpl in H; [|now injection H].
    destruct (comprehension _ r) eqn:Hr; simpl in H; [discriminate|].
    injection H as <-. now apply IH.
Qed.

Lemma balancing_prices_short (p : list Q) (k : list Z) :
  (length p < 24)%nat \/ (length k < 24)%nat ->
  raises (balancing_prices p k).
Proof.
  intros Hshort.
  destruct (balancing_prices p k) as [bal|e] eqn:Hb; simpl; [|exact I].
  apply comprehension_inv in Hb.
  assert (Hall : forall t, (t < 24)%nat ->
            (t < length k)%nat /\ (t < length p)%nat).
  { intros t Ht.
    assert (Hin : In t (range 24)) by (apply in_seq; lia).
    destruct (Forall2_In_left _ _ _ _ Hb Hin) as (b & _ & Hf).
    unfold getitem in Hf.
    destruct (nth_error k t) eqn:Hk; simpl in Hf; [|discriminate].
    destruct (nth_error p t) eqn:Hp; simpl in Hf; [|discriminate].
    split; apply nth_error_Some; congruence. }
  destruct Hshort as [H|H].
  - destruct (Hall (length p)) as [_ ?]; lia.
  - destruct (Hall (length k)) as [? _]; lia.
Qed.

Lemma create_combined_scenarios_ok ps ws ks cap :
  Forall has_hours ps -> Forall has_hours ks ->
  create_combined_scenarios ps ws ks cap = Ok (product ps ws ks cap).
Proof.
  intros Hps Hks. unfold create_combined_scenarios, product.
  rewrite Forall_forall in Hps, Hks.
  rewrite (for_in_flat _
             (fun p => flat_map (fun w => map (combine_one cap p w) ks) ws));
    [reflexivity|].
  intros p acc Hp.
  apply (for_in_flat _ (fun w => map (combine_one cap p w) ks)).
  intros w acc' _.
  apply (for_in_append _ (combine_one cap p w)).
  intros k acc'' Hk. unfold append_scenario.
  rewrite balancing_prices_ok by auto. reflexivity.
Qed.

End Generator.

Section GeneratorClaims.

Lemma Forall2_nth_error_left {A B} (R : A -> B -> Prop) (l : list A)
    (l' : list B) :
  Forall2 R l l' ->
  forall i x, nth_error l i = Some x ->
    exists y, nth_error l' i = Some y /\ R x y.
Proof.
  induction 1 as [|a b r r' Hab _ IH]; intros i x Hi.
  - destruct i; discriminate.
  - destruct i as [|i]; simpl in *.
    + injection Hi as <-. eauto.
    + eauto.
Qed.

Lemma product_length ps ws ks cap :
  length (product ps ws ks cap) = (length ps * (length ws * length ks))%nat.
Proof.
  unfold product. apply flat_map_uniform_length. intros p _.
  apply flat_map_uniform_length. intros w _. apply length_map.
Qed.

Lemma product_nth ps ws ks cap i j k p w s :
  nth_error ps i = Some p -> nth_error ws j = Some w ->
  nth_error ks k = Some s ->
  nth_error (product ps ws ks cap)
            (i * (length ws * length ks) + j * length ks + k)
  = Some (combine_one cap p w s).
Proof.
  intros Hp Hw Hs. unfold product.
  assert (Hj : (j < length ws)%nat) by (apply nth_error_Some; congruence).
  assert (Hk : (k < length ks)%nat) by (apply nth_error_Some; congruence).
  rewrite <- Nat.add_assoc.
  rewrite (flat_map_uniform_nth _ (length ws * length ks) ps) with (a := p);
    [ | | exact Hp | nia ].
  - rewrite (flat_map_uniform_nth _ (length ks) ws) with (a := w);
      [ | | exact Hw | exact Hk ].
    + rewrite nth_error_map, Hs. reflexivity.
    + intros a _. apply length_map.
  - intros a _. apply flat_map_uniform_length. intros b _. apply length_map.
Qed.

(** C5. For [P] price series, [W] wind series and [K] system-state series
    (price and system-state series offering the 24 hourly entries), the
    generator returns exactly [P * W * K] records, one per combination: the
    record of combination [(i, j, k)] sits at position [i*W*K + j*K + k],
    its [price_da] is price series [i], its [system] is system series [k],
    and its [wind] is wind series [j] with every entry multiplied by the
    capacity factor. *)
Theorem create_combined_scenarios_product ps ws ks cap :
  Forall has_hours ps -> Forall has_hours ks ->
  exists scs,
    create_combined_scenarios ps ws ks cap = Ok scs /\
    length scs = (length ps * length ws * length ks)%nat /\
    forall i j k p w s,
      nth_error ps i = Some p -> nth_error ws j = Some w ->
      nth_error ks k = Some s ->
      exists sc,
        nth_error scs (i * (length ws * length ks) + j * length ks + k)
          = Some sc /\
        price_da sc = p /\ system sc = s /\
        length (wind sc) = length w /\
        forall t x, nth_error w t = Some x ->
                    nth_error (wind sc) t = Some (x * cap).
Proof.
  intros Hps Hks. exists (product ps ws ks cap).
  split; [now apply create_combined_scenarios_ok|].
  split; [rewrite product_length; lia|].
  intros i j k p w s Hp Hw Hs.
  exists (combine_one cap p w s).
  split; [now apply product_nth|]. simpl.
  repeat split.
  - apply length_map.
  - intros t x Hx. rewrite nth_error_map, Hx. reflexivity.
Qed.

Lemma create_combined_scenarios_product_witness :
  exists scs,
    create_combined_scenarios [Samples.flat 50; Samples.flat 40]
      [Samples.fifth] [Samples.alternating; Samples.alternating]
      default_wind_capacity = Ok scs /\
    length scs = 4%nat.
Proof.
  destruct (create_combined_scenarios_product
              [Samples.flat 50; Samples.flat 40] [Samples.fifth]
              [Samples.alternating; Samples.alternating]
              default_wind_capacity) as (scs & Hrun & Hlen & _).
  - repeat constructor; unfold has_hours; simpl; lia.
  - repeat constructor; unfold has_hours; simpl; lia.
  - exists scs. split; [exact Hrun|exact Hlen].
Defined.

Lemma append_scenario_inv cap p w acc k acc' :
  append_scenario cap p w acc k = Ok acc' ->
  exists bal,
    balancing_prices p k = Ok bal /\
    acc' = acc ++ [ {| wind := map (fun x => x * cap) w; price_da := p;
                       price_bal := bal; system := k |} ].
Proof.
  unfold append_scenario.
  destruct (balancing_prices p k) as [bal|e]; simpl; intros H;
    [|discriminate].
  injection H as <-. eauto.
Qed.

Lemma balancing_prices_entry p k bal t :
  balancing_prices p k = Ok bal -> (t < 24)%nat ->
  exists x f b,
    nth_error p t = Some x /\ nth_error k t = Some f /\
    nth_error bal t = Some b /\
    b = (if (f =? 1)%Z then x * 0.85 else x * 1.25).
Proof.
  intros Hb Ht. apply comprehension_inv in Hb.
  assert (Hr : nth_error (range 24) t = Some t).
  { unfold range. rewrite nth_error_seq.
    destruct (Nat.ltb_spec t 24); [reflexivity|lia]. }
  destruct (Forall2_nth_error_left _ _ _ Hb t t Hr) as (b & Hbt & Hf).
  unfold getitem in Hf.
  destruct (nth_error k t) as [f|]; simpl in Hf; [|discriminate].
  destruct (nth_error p t) as [x|]; simpl in Hf; [|discriminate].
  injection Hf as <-. exists x, f. eauto.
Qed.

(** C10. Every record the generator produces carries a [price_bal] array
    with, at every hour [t], [0.85 * price_da[t]] when [system[t] = 1] and
    [1.25 * price_da[t]] when [system[t] = 0]. *)
Theorem create_combined_scenarios_price_bal ps ws ks cap scs sc t :
  create_combined_scenarios ps ws ks cap = Ok scs ->
  In sc scs -> (t < 24)%nat ->
  exists p f b,
    nth_error (price_da sc) t = Some p /\
    nth_error (system sc) t = Some f /\
    nth_error (price_bal sc) t = Some b /\
    (f = 1%Z -> b == 0.85 * p) /\
    (f = 0%Z -> b == 1.25 * p).
Proof.
  intros Hrun Hin Ht.
  set (good := fun sc : scenario =>
         exists p f b,
           nth_error (price_da sc) t = Some p /\
           nth_error (system sc) t = Some f /\
           nth_error (price_bal sc) t = Some b /\
           (f = 1%Z -> b == 0.85 * p) /\ (f = 0%Z -> b == 1.25 * p)).
  assert (Hall : Forall good scs).
  { unfold create_combined_scenarios in Hrun.
    refine (for_in_invariant (Forall good) _ _ _ _ _ _ Hrun);
      [|constructor].
    intros acc p acc' Hacc. apply for_in_invariant; [|exact Hacc].
    clear acc acc' Hacc. intros acc w acc' Hacc.
    apply for_in_invariant; [|exact Hacc].
    clear acc acc' Hacc. intros acc k acc' Hacc Happ.
    apply append_scenario_inv in Happ as (bal & Hbal & ->).
    apply Forall_app. split; [exact Hacc|]. constructor; [|constructor].
    destruct (balancing_prices_entry _ _ _ t Hbal Ht)
      as (x & f & b & Hx & Hf & Hb & ->).
    exists x, f, (if (f =? 1)%Z then x * 0.85 else x * 1.25).
    simpl. repeat split; auto.
    - intros ->. simpl. ring.
    - intros ->. simpl. ring. }
  rewrite Forall_forall in Hall. exact (Hall sc Hin).
Qed.

Lemma create_combined_scenarios_price_bal_witness :
  exists p f b,
    nth_error (Samples.flat 50) 1 = Some p /\
    nth_error Samples.alternating 1 = Some f /\
    nth_error (balancing_row (Samples.flat 50) Samples.alternating) 1
      = Some b /\
    (f = 1%Z -> b == 0.85 * p) /\ (f = 0%Z -> b == 1.25 * p).
Proof.
  apply (create_combined_scenarios_price_bal
           [Samples.flat 50] [Samples.fifth] [Samples.alternating]
           default_wind_capacity
           [combine_one default_wind_capacity (Samples.flat 50)
              Samples.fifth Samples.alternating]
           (combine_one default_wind_capacity (Samples.flat 50)
              Samples.fifth Samples.alternating) 1%nat).
  - reflexivity.
  - simpl. left. reflexivity.
  - lia.
Defined.

End GeneratorClaims.

Section GeneratorShape.

Lemma append_scenario_short cap p w acc k :
  (length p < 24)%nat \/ (length k < 24)%nat ->
  raises (append_scenario cap p w acc k).
Proof.
  intros H. unfold append_scenario.
  pose proof (balancing_prices_short p k H) as Hr.
  destruct (balancing_prices p k); [destruct Hr|exact I].
Qed.

Lemma create_combined_scenarios_exn ps ws ks cap e :
  create_combined_scenarios ps ws ks cap = Raise e -> e = IndexError.
Proof.
  unfold create_combined_scenarios.
  apply (for_in_exn (fun e => e = IndexError)). intros acc p e1.
  apply (for_in_exn (fun e => e = IndexError)). intros acc1 w e2.
  apply (for_in_exn (fun e => e = IndexError)). intros acc2 k e3.
  unfold append_scenario.
  destruct (balancing_prices p k) as [bal|e4] eqn:Hb; simpl; [discriminate|].
  intros H. injection H as <-. eapply balancing_prices_exn; eauto.
Qed.

(** C6, as the code has it.  The generator validates nothing up front and
    has no shape error of its own: an empty price or wind collection gives
    the empty list; whatever the wind series' lengths, inputs whose price
    and system-state series offer 24 entries do not fail; the only
    exception is [IndexError], and it is raised once a price or
    system-state series with fewer than 24 entries is reached. *)
Theorem create_combined_scenarios_shape ps ws ks cap :
  (ps = [] \/ ws = [] -> create_combined_scenarios ps ws ks cap = Ok []) /\
  (Forall has_hours ps -> Forall has_hours ks ->
   ~ raises (create_combined_scenarios ps ws ks cap)) /\
  (forall e, create_combined_scenarios ps ws ks cap = Raise e ->
             e = IndexError) /\
  (ws <> [] -> ks <> [] -> Exists (fun p => (length p < 24)%nat) ps ->
   raises (create_combined_scenarios ps ws ks cap)) /\
  (ps <> [] -> ws <> [] -> Exists (fun k => (length k < 24)%nat) ks ->
   raises (create_combined_scenarios ps ws ks cap)).
Proof.
  repeat split.
  - intros [-> | ->]; [reflexivity|].
    unfold create_combined_scenarios. generalize (@nil scenario) as acc.
    induction ps as [|p r IH]; intros acc; simpl; [reflexivity|apply IH].
  - intros Hps Hks. rewrite create_combined_scenarios_ok by assumption.
    simpl. tauto.
  - intros e. apply create_combined_scenarios_exn.
  - intros Hws Hks Hex. apply Exists_exists in Hex as (p & Hin & Hshort).
    unfold create_combined_scenarios.
    apply (for_in_raises _ ps p Hin). intros acc.
    destruct ws as [|w ws']; [congruence|].
    destruct ks as [|k ks']; [congruence|]. simpl.
    pose proof (append_scenario_short cap p w acc k (or_introl Hshort)) as Hr.
    destruct (append_scenario cap p w acc k); [destruct Hr|exact I].
  - intros Hps Hws Hex. apply Exists_exists in Hex as (k & Hin & Hshort).
    unfold create_combined_scenarios.
    destruct ps as [|p ps']; [congruence|].
    destruct ws as [|w ws']; [congruence|]. simpl.
    pose proof (for_in_raises (append_scenario cap p w) ks k Hin
                  (fun acc => append_scenario_short cap p w acc k
                                (or_intror Hshort)) []) as Hr.
    destruct (for_in ks (append_scenario cap p w) []); [destruct Hr|exact I].
Qed.

Lemma create_combined_scenarios_shape_witness :
  create_combined_scenarios [] [Samples.fifth] [Samples.alternating]
    default_wind_capacity = Ok [] /\
  raises (create_combined_scenarios [[50; 50]] [Samples.fifth]
            [Samples.alternating] default_wind_capacity).
Proof.
  split.
  - destruct (create_combined_scenarios_shape [] [Samples.fifth]
                [Samples.alternating] default_wind_capacity) as (He & _).
    apply He. left. reflexivity.
  - destruct (create_combined_scenarios_shape [[50; 50]] [Samples.fifth]
                [Samples.alternating] default_wind_capacity)
      as (_ & _ & _ & Hshort & _).
    apply Hshort.
    + discriminate.
    + discriminate.
    + constructor. simpl. lia.
Defined.

(** C6, as the specification words it, does not hold: an empty price
    collection is malformed, yet the generator returns the empty list. *)
Lemma generator_accepts_empty_prices : ~ Spec.generator_rejects_malformed.
Proof.
  intros H.
  specialize (H [] [Samples.fifth] [Samples.alternating]
                default_wind_capacity).
  apply H. left. reflexivity.
Qed.

End GeneratorShape.

(* ------------------------------------------------------------------ *)
(** ** Sums of rationals *)
(* ------------------------------------------------------------------ *)

Section Sums.

Lemma fold_left_Qplus_acc (l : list Q) (a : Q) :
  fold_left Qplus l a == a + fold_left Qplus l 0.
Proof.
  revert a. induction l as [|x r IH]; intros a; simpl.
  - ring.
  - rewrite (IH (a + x)), (IH (0 + x)). ring.
Qed.

Lemma sum_nil : Py.sum [] == 0.
Proof. reflexivity. Qed.

Lemma sum_cons (x : Q) (l : list Q) : Py.sum (x :: l) == x + Py.sum l.
Proof.
  unfold Py.sum. simpl. rewrite fold_left_Qplus_acc. ring.
Qed.

Lemma sum_map_ext {A} (f g : A -> Q) (l : list A) :
  (forall x, In x l -> f x == g x) ->
  Py.sum (map f l) == Py.sum (map g l).
Proof.
  induction l as [|x r IH]; intros H; simpl.
  - reflexivity.
  - rewrite !sum_cons, IH, (H x (or_introl eq_refl)); [reflexivity|].
    intros y Hy. apply H. now right.
Qed.

Lemma sum_map_le {A} (f g : A -> Q) (l : list A) :
  (forall x, In x l -> f x <= g x) ->
  Py.sum (map f l) <= Py.sum (map g l).
Proof.
  induction l as [|x r IH]; intros H; simpl.
  - apply Qle_refl.
  - rewrite !sum_cons. apply Qplus_le_compat.
    + apply H. now left.
    + apply IH. intros y Hy. apply H. now right.
Qed.

Lemma sum_map_plus {A} (f g : A -> Q) (l : list A) :
  Py.sum (map (fun x => f x + g x) l)
  == Py.sum (map f l) + Py.sum (map g l).
Proof.
  induction l as [|x r IH]; simpl.
  - reflexivity.
  - rewrite !sum_cons, IH. ring.
Qed.

Lemma sum_map_scale {A} (c : Q) (f : A -> Q) (l : list A) :
  Py.sum (map (fun x => c * f x) l) == c * Py.sum (map f l).
Proof.
  induction l as [|x r IH]; simpl.
  - unfold Py.sum. simpl. ring.
  - rewrite !sum_cons, IH. ring.
Qed.

Lemma sum_map_zero {A} (l : list A) : Py.sum (map (fun _ => 0) l) == 0.
Proof.
  induction l as [|x r IH]; simpl; [reflexivity|].
  rewrite sum_cons, IH. ring.
Qed.

Lemma sum_swap {A B} (f : A -> B -> Q) (l : list A) (l' : list B) :
  Py.sum (map (fun x => Py.sum (map (f x) l')) l)
  == Py.sum (map (fun y => Py.sum (map (fun x => f x y) l)) l').
Proof.
  induction l as [|x r IH]; simpl.
  - now rewrite sum_map_zero.
  - rewrite sum_cons, IH.
    rewrite <- sum_map_plus. apply sum_map_ext. intros y _.
    now rewrite sum_cons.
Qed.

Lemma sum_const {A} (c : Q) (l : list A) :
  Py.sum (map (fun _ => c) l) == inject_Z (Z.of_nat (length l)) * c.
Proof.
  induction l as [|x r IH]; simpl length.
  - simpl. unfold Py.sum. simpl. ring.
  - simpl map. rewrite sum_cons, IH, Nat2Z.inj_succ.
    unfold Z.succ. rewrite inject_Z_plus. ring.
Qed.

Lemma map_nth_range {A B} (g : A -> B) (l : list A) (d : A) :
  map (fun s => g (nth s l d)) (range (length l)) = map g l.
Proof.
  unfold range. induction l as [|x r IH]; simpl.
  - reflexivity.
  - f_equal. rewrite <- seq_shift, map_map. exact IH.
Qed.

Lemma for_in_sum {A} (body : Q -> A -> result Q) (h : A -> Q) (l : list A) :
  (forall acc x, In x l -> body acc x = Ok (acc + h x)) ->
  forall acc, for_in l body acc = Ok (fold_left Qplus (map h l) acc).
Proof.
  induction l as [|x r IH]; intros H acc; simpl.
  - reflexivity.
  - rewrite (H acc x (or_introl eq_refl)). simpl.
    apply IH. intros a y Hy. apply H. now right.
Qed.

End Sums.

(* ------------------------------------------------------------------ *)
(** ** The fixed-strategy evaluator and the objective *)
(* ------------------------------------------------------------------ *)

Import Pyomo Settlement.

Section Evaluator.

Lemma excess_deficit_cases (wind bid : Q) :
  (Qle_bool 0 (wind - bid) = true /\
   Spec.excess wind bid == wind - bid /\ Spec.deficit wind bid == 0) \/
  (Qle_bool 0 (wind - bid) = false /\
   Spec.excess wind bid == 0 /\ Spec.deficit wind bid == bid - wind).
Proof.
  unfold Spec.excess, Spec.deficit.
  destruct (Qle_bool 0 (wind - bid)) eqn:Hc.
  - left. apply Qle_bool_iff in Hc. repeat split.
    + apply Q.max_l. exact Hc.
    + apply Q.max_r. lra.
  - right.
    assert (Hlt : wind - bid < 0).
    { apply Qnot_le_lt. intros H. apply Qle_bool_iff in H. congruence. }
    repeat split.
    + apply Q.max_r. lra.
    + apply Q.max_l. lra.
Qed.

(** C2. The revenue [evaluate_profit] adds for one hour is
    [p_da*bid + m_exc*p_da*max(wind-bid,0) - m_def*p_da*max(bid-wind,0)]
    with [(m_exc, m_def)] equal to (0.85, 0.85) for one-price and flag 1,
    (1.25, 1.25) for one-price and flag 0, (0.85, 1.00) for two-price and
    flag 1, (1.00, 1.25) for two-price and flag 0. *)
Theorem hour_revenue_multipliers (bid wind p_da : Q) :
  Task13.hour_revenue "one" bid wind p_da 1
    == p_da * bid + 0.85 * p_da * Qmax (wind - bid) 0
       - 0.85 * p_da * Qmax (bid - wind) 0 /\
  Task13.hour_revenue "one" bid wind p_da 0
    == p_da * bid + 1.25 * p_da * Qmax (wind - bid) 0
       - 1.25 * p_da * Qmax (bid - wind) 0 /\
  Task13.hour_revenue "two" bid wind p_da 1
    == p_da * bid + 0.85 * p_da * Qmax (wind - bid) 0
       - 1.00 * p_da * Qmax (bid - wind) 0 /\
  Task13.hour_revenue "two" bid wind p_da 0
    == p_da * bid + 1.00 * p_da * Qmax (wind - bid) 0
       - 1.25 * p_da * Qmax (bid - wind) 0.
Proof.
  change (Qmax (wind - bid) 0) with (Spec.excess wind bid).
  change (Qmax (bid - wind) 0) with (Spec.deficit wind bid).
  unfold Task13.hour_revenue.
  destruct (excess_deficit_cases wind bid) as [(-> & He & Hd)|(-> & He & Hd)];
    simpl; rewrite He, Hd; repeat split; ring.
Qed.

(** The evaluator's hourly revenue is the settlement term of the objective
    once excess and deficit are the positive and negative parts of the
    imbalance, whatever the scheme string, for a binary system flag. *)
Lemma hour_revenue_settlement (scheme : string) (bid wind p_da : Q)
    (flag : Z) (s t : nat) (m : valuation) :
  flag = 0%Z \/ flag = 1%Z ->
  m (offer_quantity t) == bid ->
  m (delta_exc s t) == Spec.excess wind bid ->
  m (delta_def s t) == Spec.deficit wind bid ->
  Task13.hour_revenue scheme bid wind p_da flag
  == settlement_term scheme p_da flag s t m.
Proof.
  intros Hflag Ho He Hd.
  unfold Task13.hour_revenue, settlement_term.
  destruct (excess_deficit_cases wind bid) as [(-> & He' & Hd')|(-> & He' & Hd')];
    destruct (scheme =? "one")%string;
    destruct Hflag as [-> | ->]; simpl;
    rewrite Ho, He, Hd, He', Hd'; ring.
Qed.

Lemma getitem_scenario (scs : list scenario) (s : nat) :
  (s < length scs)%nat -> getitem scs s = Ok (nth s scs Spec.no_scenario).
Proof. apply getitem_nth. Qed.

Lemma well_formed_nth (scs : list scenario) (s : nat) :
  Forall Spec.well_formed scs -> (s < length scs)%nat ->
  Spec.well_formed (nth s scs Spec.no_scenario).
Proof.
  intros H Hs. rewrite Forall_forall in H. apply H. now apply nth_In.
Qed.

Lemma term_at_ok (scheme : string) (scs : list scenario) (s t : nat) :
  Forall Spec.well_formed scs -> (s < length scs)%nat -> (t < 24)%nat ->
  term_at scheme scs s t = Ok (Spec.term scheme scs s t).
Proof.
  intros Hwf Hs Ht. unfold term_at.
  destruct (well_formed_nth scs s Hwf Hs) as (_ & Hp & Hy).
  unfold has_hours in Hp, Hy.
  rewrite getitem_scenario by exact Hs. simpl.
  rewrite (getitem_nth _ t 0) by lia. simpl.
  rewrite (getitem_nth _ t 0%Z) by lia. reflexivity.
Qed.

Lemma double_sum_ok (scheme : string) (scs : list scenario) :
  Forall Spec.well_formed scs ->
  double_sum scheme scs
  = Ok (sum_expr
          (map (fun t =>
                  sum_expr (map (fun s => Spec.term scheme scs s t)
                                (range (length scs))))
               (range 24))).
Proof.
  intros Hwf. unfold double_sum.
  rewrite (comprehension_ok _
             (fun t => sum_expr (map (fun s => Spec.term scheme scs s t)
                                     (range (length scs))))).
  - reflexivity.
  - intros t Ht. apply in_seq in Ht.
    rewrite (comprehension_ok _ (fun s => Spec.term scheme scs s t)).
    + reflexivity.
    + intros s Hs. apply in_seq in Hs. apply term_at_ok; auto; lia.
Qed.

Lemma double_sum_profit (scheme : string) (scs : list scenario)
    (m : valuation) :
  sum_expr
    (map (fun t => sum_expr (map (fun s => Spec.term scheme scs s t)
                                 (range (length scs))))
         (range 24)) m
  == Py.sum (map (fun s => Spec.profit scheme scs s m) (range (length scs))).
Proof.
  unfold sum_expr, Spec.profit. rewrite map_map.
  rewrite (sum_map_ext _
             (fun t => Py.sum (map (fun s => Spec.term scheme scs s t m)
                                   (range (length scs))))).
  - apply (sum_swap (fun t s => Spec.term scheme scs s t m)).
  - intros t _. now rewrite map_map.
Qed.

Lemma mean_scale (l : list Q) :
  (1 / inject_Z (Z.of_nat (length l))) * Py.sum l == Spec.mean l.
Proof.
  unfold Spec.mean, Qdiv. ring.
Qed.

Lemma inv_len_ok (n : nat) :
  (0 < n)%nat -> inv_len n = Ok (1 / inject_Z (Z.of_nat n)).
Proof. destruct n; [lia|reflexivity]. Qed.

Lemma div_len_ok (x : Q) (n : nat) :
  (0 < n)%nat -> div_len x n = Ok (x / inject_Z (Z.of_nat n)).
Proof. destruct n; [lia|reflexivity]. Qed.

Lemma nonempty_length {A} (l : list A) : l <> [] -> (0 < length l)%nat.
Proof. destruct l; [congruence|simpl; lia]. Qed.

(** The objective of the risk-neutral solve is the mean over the scenarios
    of their 24-hour settlement sums. *)
Lemma revenue_expected (scheme : string) (scs : list scenario) :
  scs <> [] -> Forall Spec.well_formed scs ->
  exists obj,
    Task13.revenue scheme scs = Ok obj /\
    forall m, obj m == Spec.expected_revenue scheme scs m.
Proof.
  intros Hne Hwf. unfold Task13.revenue.
  rewrite inv_len_ok by now apply nonempty_length.
  rewrite double_sum_ok by exact Hwf. cbn [bind].
  eexists. split; [reflexivity|].
  intros m. cbv beta. rewrite double_sum_profit.
  unfold Spec.expected_revenue. rewrite <- mean_scale.
  rewrite length_map. unfold range. rewrite length_seq.
  reflexivity.
Qed.

End Evaluator.

Section EvaluatorClaims.

Lemma evaluate_profit_mean (bid : list Q) (scs : list scenario)
    (scheme : string) :
  (24 <= length bid)%nat -> scs <> [] -> Forall Spec.well_formed scs ->
  Task13.evaluate_profit bid scs scheme
  = Ok (Py.sum (map (Spec.realized scheme bid) scs)
        / inject_Z (Z.of_nat (length scs))).
Proof.
  intros Hbid Hne Hwf. unfold Task13.evaluate_profit.
  rewrite (for_in_sum _ (Spec.realized scheme bid)).
  - cbn [bind]. apply div_len_ok. now apply nonempty_length.
  - intros acc sc Hsc. rewrite Forall_forall in Hwf.
    destruct (Hwf sc Hsc) as (Hw & Hp & Hy). unfold has_hours in *.
    rewrite (for_in_sum _
               (fun t => Task13.hour_revenue scheme (nth t bid 0)
                           (nth t (wind sc) 0) (nth t (price_da sc) 0)
                           (nth t (system sc) 0%Z))).
    + reflexivity.
    + intros a t Ht. apply in_seq in Ht.
      rewrite (getitem_nth bid t 0) by lia. cbn [bind].
      rewrite (getitem_nth (wind sc) t 0) by lia. cbn [bind].
      rewrite (getitem_nth (price_da sc) t 0) by lia. cbn [bind].
      rewrite (getitem_nth (system sc) t 0%Z) by lia. reflexivity.
Qed.

Lemma realized_profit (scheme : string) (bid : list Q) (scs : list scenario)
    (s : nat) :
  Forall Spec.binary scs -> (s < length scs)%nat ->
  Spec.realized scheme bid (nth s scs Spec.no_scenario)
  == Spec.profit scheme scs s (Spec.fixed_bid bid scs).
Proof.
  intros Hbin Hs. unfold Spec.realized, Spec.profit.
  apply sum_map_ext. intros t Ht. apply in_seq in Ht.
  unfold Spec.term. apply hour_revenue_settlement.
  - rewrite Forall_forall in Hbin.
    apply (Hbin (nth s scs Spec.no_scenario)); [now apply nth_In|lia].
  - reflexivity.
  - reflexivity.
  - reflexivity.
Qed.

(** The part of C1 that holds.  At a fixed bid vector, with excess and
    deficit the positive and negative parts of [wind - bid], the value of
    the one-price or two-price objective is the average revenue
    [evaluate_profit] computes. *)
Theorem evaluate_profit_matches_objective (bid : list Q)
    (scs : list scenario) (scheme : string) :
  (24 <= length bid)%nat -> scs <> [] ->
  Forall Spec.well_formed scs -> Forall Spec.binary scs ->
  exists v obj,
    Task13.evaluate_profit bid scs scheme = Ok v /\
    Task13.revenue scheme scs = Ok obj /\
    v == obj (Spec.fixed_bid bid scs).
Proof.
  intros Hbid Hne Hwf Hbin.
  destruct (revenue_expected scheme scs Hne Hwf) as (obj & Hobj & Hval).
  eexists. exists obj. split; [now apply evaluate_profit_mean|].
  split; [exact Hobj|].
  rewrite Hval. unfold Spec.expected_revenue, Spec.mean.
  rewrite length_map. unfold range at 2. rewrite length_seq.
  rewrite <- (map_nth_range (Spec.realized scheme bid) scs Spec.no_scenario).
  apply Qmult_comp; [|reflexivity].
  apply sum_map_ext. intros s Hs. apply in_seq in Hs.
  apply realized_profit; [exact Hbin|lia].
Qed.

Lemma certain_well_formed : Spec.well_formed Samples.certain.
Proof. repeat split; unfold has_hours; simpl; lia. Defined.

Lemma certain_binary : Spec.binary Samples.certain.
Proof.
  intros t Ht.
  do 24 (destruct t as [|t]; [simpl; tauto|]). lia.
Defined.

Lemma population_well_formed : Forall Spec.well_formed Samples.population.
Proof.
  unfold Samples.population. simpl.
  repeat (apply Forall_cons; [exact certain_well_formed|]). apply Forall_nil.
Defined.

Lemma population_binary : Forall Spec.binary Samples.population.
Proof.
  unfold Samples.population. simpl.
  repeat (apply Forall_cons; [exact certain_binary|]). apply Forall_nil.
Defined.

Lemma evaluate_profit_matches_objective_witness :
  exists v obj,
    Task13.evaluate_profit (Samples.flat 100) Samples.population "two"
      = Ok v /\
    Task13.revenue "two" Samples.population = Ok obj /\
    v == obj (Spec.fixed_bid (Samples.flat 100) Samples.population).
Proof.
  apply evaluate_profit_matches_objective.
  - simpl. lia.
  - discriminate.
  - apply population_well_formed.
  - apply population_binary.
Defined.

End EvaluatorClaims.

(* ------------------------------------------------------------------ *)
(** ** The population with certain wind *)
(* ------------------------------------------------------------------ *)

Section CertainWind.

Lemma hour_bound_deficit (b : Q) :
  0 <= b -> b <= 100 ->
  Task13.hour_revenue "one" b 100 50 1 <= 5000.
Proof.
  intros H0 H1. unfold Task13.hour_revenue.
  destruct (Qle_bool 0 (100 - b)) eqn:Hc; simpl.
  - lra.
  - assert (~ 0 <= 100 - b) by (rewrite <- Qle_bool_iff; congruence). lra.
Qed.

Lemma hour_bound_surplus (b : Q) :
  0 <= b -> b <= 100 ->
  Task13.hour_revenue "one" b 100 50 0 <= 6250.
Proof.
  intros H0 H1. unfold Task13.hour_revenue.
  destruct (Qle_bool 0 (100 - b)) eqn:Hc; simpl.
  - lra.
  - assert (~ 0 <= 100 - b) by (rewrite <- Qle_bool_iff; congruence). lra.
Qed.

Lemma within_nth (cap : Q) (bid : list Q) (t : nat) :
  Spec.within cap bid -> (t < 24)%nat ->
  0 <= nth t bid 0 /\ nth t bid 0 <= cap.
Proof.
  intros (Hlen & Hall) Ht. rewrite Forall_forall in Hall.
  apply Hall. apply nth_In. lia.
Qed.

Lemma realized_certain_bound (bid : list Q) :
  Spec.within 100 bid ->
  Spec.realized "one" bid Samples.certain
  <= Py.sum (map (fun t => if Nat.even t then 5000 else 6250) (range 24)).
Proof.
  intros Hbid. unfold Spec.realized. apply sum_map_le.
  intros t Ht. apply in_seq in Ht.
  destruct (within_nth 100 bid t Hbid) as (H0 & H1); [lia|].
  revert H0 H1. generalize (nth t bid 0) as b. intros b H0 H1.
  do 24 (destruct t as [|t];
         [first [now apply hour_bound_deficit
                |now apply hour_bound_surplus]|]).
  lia.
Qed.

Lemma evaluate_profit_population (bid : list Q) :
  Spec.within 100 bid ->
  exists v,
    Task13.evaluate_profit bid Samples.population "one" = Ok v /\
    v == Spec.realized "one" bid Samples.certain.
Proof.
  intros Hbid. eexists. split.
  - apply evaluate_profit_mean.
    + destruct Hbid as (-> & _). lia.
    + discriminate.
    + apply population_well_formed.
  - unfold Samples.population. simpl map. simpl length.
    rewrite !sum_cons, sum_nil. field.
Qed.

Lemma full_bid_value :
  exists v, Task13.evaluate_profit (Samples.flat 100) Samples.population
              "one" = Ok v /\ v == 120000.
Proof.
  eexists. split; [vm_compute; reflexivity|vm_compute; reflexivity].
Qed.

Lemma selective_bid_value :
  exists v, Task13.evaluate_profit Samples.selective Samples.population
              "one" = Ok v /\ v == 135000.
Proof.
  eexists. split; [vm_compute; reflexivity|vm_compute; reflexivity].
Qed.

Lemma selective_within : Spec.within 100 Samples.selective.
Proof.
  split; [reflexivity|].
  unfold Samples.selective, Samples.alternating. simpl.
  repeat (apply Forall_cons; [simpl; lra|]). apply Forall_nil.
Qed.

(** C3, as the code has it.  For the population of four scenarios with
    wind 100, price 50 and alternating system flag: the bid of 100 in every
    hour earns 120000; no bid vector within [0,100] earns more than
    135000; and that value is reached by bidding 100 in the hours with
    flag 1 and 0 in the hours with flag 0. *)
Theorem certain_population_revenue :
  (exists v, Task13.evaluate_profit (Samples.flat 100) Samples.population
               "one" = Ok v /\ v == 120000) /\
  (exists v, Task13.evaluate_profit Samples.selective Samples.population
               "one" = Ok v /\ v == 135000) /\
  Spec.within 100 Samples.selective /\
  (forall bid, Spec.within 100 bid ->
     exists v, Task13.evaluate_profit bid Samples.population "one" = Ok v /\
               v <= 135000).
Proof.
  split; [exact full_bid_value|].
  split; [exact selective_bid_value|].
  split; [exact selective_within|].
  intros bid Hbid.
  destruct (evaluate_profit_population bid Hbid) as (v & Hv & Heq).
  exists v. split; [exact Hv|]. rewrite Heq.
  eapply Qle_trans; [now apply realized_certain_bound|].
  vm_compute. discriminate.
Qed.

Lemma flat_within : Spec.within 100 (Samples.flat 100).
Proof.
  split; [reflexivity|]. unfold Samples.flat. simpl.
  repeat (apply Forall_cons; [lra|]). apply Forall_nil.
Defined.

Lemma certain_population_revenue_witness :
  exists v, Task13.evaluate_profit (Samples.flat 100) Samples.population
              "one" = Ok v /\ v <= 135000.
Proof.
  destruct certain_population_revenue as (_ & _ & _ & H).
  exact (H (Samples.flat 100) flat_within).
Defined.

(** C3, as the specification words it, does not hold: bidding 100 only in
    the hours with flag 1 earns more than bidding 100 in every hour. *)
Lemma full_bid_not_optimal :
  ~ Spec.maximizes_one_price 100 Samples.population (Samples.flat 100).
Proof.
  intros H.
  destruct full_bid_value as (v1 & Hv1 & E1).
  destruct selective_bid_value as (v2 & Hv2 & E2).
  specialize (H Samples.selective v2 v1 selective_within Hv2 Hv1).
  rewrite E1, E2 in H. revert H. vm_compute. intros H. now apply H.
Qed.

End CertainWind.

(* ------------------------------------------------------------------ *)
(** ** The risk-adjusted objective *)
(* ------------------------------------------------------------------ *)

Section RiskAdjusted.

Lemma tail_weight_ok (alpha : Q) :
  alpha < 1 -> Task14.tail_weight alpha = Ok (1 / (1 - alpha)).
Proof.
  intros H. unfold Task14.tail_weight.
  destruct (Qeq_bool (1 - alpha) 0) eqn:He; [|reflexivity].
  apply Qeq_bool_iff in He. lra.
Qed.

Lemma scenario_sum_ok (scheme : string) (scs : list scenario) (s : nat) :
  Forall Spec.well_formed scs -> (s < length scs)%nat ->
  Task14.scenario_sum scheme scs s
  = Ok (sum_expr (map (fun t => Spec.term scheme scs s t) (range 24))).
Proof.
  intros Hwf Hs. unfold Task14.scenario_sum.
  rewrite (comprehension_ok _ (fun t => Spec.term scheme scs s t)).
  - reflexivity.
  - intros t Ht. apply in_seq in Ht. apply term_at_ok; auto; lia.
Qed.

Lemma sum_expr_profit (scheme : string) (scs : list scenario) (s : nat)
    (m : valuation) :
  sum_expr (map (fun t => Spec.term scheme scs s t) (range 24)) m
  = Spec.profit scheme scs s m.
Proof.
  unfold sum_expr, Spec.profit. now rewrite map_map.
Qed.

Lemma Auxiliary_ok (scheme : string) (scs : list scenario) :
  Forall Spec.well_formed scs ->
  Task14.Auxiliary scheme scs
  = Ok (map (fun st : nat * nat =>
               fun m : valuation =>
                 m (auxiliary (fst st))
                 >= m VaR
                    - sum_expr (map (fun t => Spec.term scheme scs (fst st) t)
                                    (range 24)) m)
            (list_prod (range (length scs)) (range 24))).
Proof.
  intros Hwf. unfold Task14.Auxiliary.
  apply comprehension_ok. intros (s, t) Hst.
  apply in_prod_iff in Hst as (Hs & _). apply in_seq in Hs.
  unfold Task14.auxiliary_rule.
  rewrite scenario_sum_ok by (auto; lia). reflexivity.
Qed.

(** C4. For a non-empty sample and [alpha < 1] the objective of the CVaR
    solve is [(1-beta) * mean_s profit(s) + beta * (VaR - 1/(1-alpha) *
    mean_s auxiliary[s])]; the constraint family [Auxiliary] holds exactly
    when [auxiliary[s] >= VaR - profit(s)] for every scenario [s]; and at
    [beta = 0] the objective is the expected revenue of the risk-neutral
    solve. *)
Theorem risk_adjusted_objective (scheme : string) (beta alpha : Q)
    (scs : list scenario) :
  scs <> [] -> Forall Spec.well_formed scs -> alpha < 1 ->
  exists obj aux,
    Task14.revenue scheme beta alpha scs = Ok obj /\
    Task14.Auxiliary scheme scs = Ok aux /\
    (forall m, obj m == Spec.risk_adjusted scheme beta alpha scs m) /\
    (forall m,
       Forall (fun c : constraint => c m) aux <->
       forall s, (s < length scs)%nat ->
         m (auxiliary s) >= m VaR - Spec.profit scheme scs s m) /\
    exists obj0 plain,
      Task14.revenue scheme 0 alpha scs = Ok obj0 /\
      Task13.revenue scheme scs = Ok plain /\
      forall m, obj0 m == plain m.
Proof.
  intros Hne Hwf Halpha.
  assert (Hrev : forall b,
            exists o, Task14.revenue scheme b alpha scs = Ok o /\
                      forall m, o m == Spec.risk_adjusted scheme b alpha scs m).
  { intros b. unfold Task14.revenue.
    rewrite inv_len_ok by now apply nonempty_length.
    rewrite double_sum_ok by exact Hwf.
    rewrite tail_weight_ok by exact Halpha. cbn [bind].
    eexists. split; [reflexivity|].
    intros m. cbv beta. unfold Spec.risk_adjusted.
    rewrite double_sum_profit.
    rewrite (sum_map_scale _ (fun s => m (auxiliary s))).
    unfold Spec.expected_revenue.
    rewrite <- !mean_scale, !length_map. unfold range.
    rewrite !length_seq. reflexivity. }
  destruct (Hrev beta) as (obj & Hobj & Hval).
  exists obj. eexists. split; [exact Hobj|].
  split; [now apply Auxiliary_ok|].
  split; [exact Hval|]. split.
  - intros m. rewrite Forall_map, Forall_forall. split.
    + intros H s Hs.
      specialize (H (s, 0%nat)). cbn [fst] in H.
      rewrite sum_expr_profit in H. apply H.
      apply in_prod_iff. split; apply in_seq; lia.
    + intros H (s, t) Hst. cbn [fst].
      apply in_prod_iff in Hst as (Hs & _). apply in_seq in Hs.
      rewrite sum_expr_profit. apply H. lia.
  - destruct (Hrev 0) as (obj0 & Hobj0 & Hval0).
    destruct (revenue_expected scheme scs Hne Hwf) as (plain & Hplain & Hp).
    exists obj0, plain. split; [exact Hobj0|]. split; [exact Hplain|].
    intros m. rewrite Hval0, Hp. unfold Spec.risk_adjusted. ring.
Qed.

Lemma risk_adjusted_objective_witness :
  exists obj,
    Task14.revenue "one" 0.5 Task14.default_alpha Samples.population
      = Ok obj /\
    forall m, obj m == Spec.risk_adjusted "one" 0.5 Task14.default_alpha
                         Samples.population m.
Proof.
  destruct (risk_adjusted_objective "one" 0.5 Task14.default_alpha
              Samples.population) as (obj & aux & Hobj & _ & Hval & _).
  - discriminate.
  - apply population_well_formed.
  - reflexivity.
  - exists obj. split; [exact Hobj|exact Hval].
Defined.

End RiskAdjusted.

(* ------------------------------------------------------------------ *)
(** ** Traced computations *)
(* ------------------------------------------------------------------ *)

Section Traced.

Lemma returns_extends {A} (c : M A) : returns c -> extends c.
Proof.
  intros H tr. destruct (H tr) as (tr' & a & ->). now exists tr'.
Qed.

Lemma extends_ret {A} (a : A) : extends (ret a).
Proof. intros tr. exists []. simpl. now rewrite app_nil_r. Qed.

Lemma extends_lift {A} (r : result A) : extends (lift r).
Proof. intros tr. exists []. simpl. now rewrite app_nil_r. Qed.

Lemma extends_bind {A B} (c : M A) (k : A -> M B) :
  extends c -> (forall a, extends (k a)) -> extends (bindM c k).
Proof.
  intros Hc Hk tr. unfold bindM. destruct (Hc tr) as (tr1 & H1).
  destruct (c tr) as (tr0, [a|e]); simpl in H1; subst tr0.
  - destruct (Hk a (tr ++ tr1)) as (tr2 & H2).
    exists (tr1 ++ tr2). now rewrite H2, app_assoc.
  - now exists tr1.
Qed.

Lemma extends_value (r : solved) (x : var) : extends (value r x).
Proof.
  intros tr. exists [Read (Var x)]. unfold value, bindM, emit, lift.
  reflexivity.
Qed.

Lemma extends_for_inM {A S} (l : list A) (body : S -> A -> M S) :
  (forall s x, extends (body s x)) -> forall s, extends (for_inM l body s).
Proof.
  intros Hb. induction l as [|x r IH]; intros s; simpl.
  - apply extends_ret.
  - apply extends_bind; auto.
Qed.

Lemma returns_ret {A} (a : A) : returns (ret a).
Proof. intros tr. exists [], a. simpl. now rewrite app_nil_r. Qed.

Lemma returns_lift {A} (a : A) : returns (lift (Ok a)).
Proof. intros tr. exists [], a. simpl. now rewrite app_nil_r. Qed.

Lemma returns_bind {A B} (c : M A) (k : A -> M B) :
  returns c -> (forall a, returns (k a)) -> returns (bindM c k).
Proof.
  intros Hc Hk tr. unfold bindM. destruct (Hc tr) as (tr1 & a & ->).
  destruct (Hk a (tr ++ tr1)) as (tr2 & b & ->).
  exists (tr1 ++ tr2), b. now rewrite app_assoc.
Qed.

Lemma returns_value (r : solved) (v : valuation) (x : var) :
  loaded r = Some v -> returns (value r x).
Proof.
  intros Hv tr. exists [Read (Var x)], (v x).
  unfold value, bindM, emit, lift. now rewrite Hv.
Qed.

Lemma returns_for_inM {A S} (l : list A) (body : S -> A -> M S) :
  (forall s x, In x l -> returns (body s x)) ->
  forall s, returns (for_inM l body s).
Proof.
  induction l as [|x r IH]; intros Hb s; simpl.
  - apply returns_ret.
  - apply returns_bind.
    + apply Hb. now left.
    + intros s'. apply IH. intros s'' y Hy. apply Hb. now right.
Qed.

End Traced.

(* ------------------------------------------------------------------ *)
(** ** Building the model *)
(* ------------------------------------------------------------------ *)

Section Build.

Lemma template_constraints_rows (scs : list scenario) :
  Forall Spec.well_formed scs ->
  template_constraints scs
  = Ok (map (fun st : nat * nat =>
               fun m : valuation =>
                 m (delta (fst st) (snd st))
                 == Spec.wind_at scs (fst st) (snd st)
                    - m (offer_quantity (snd st)))
            (list_prod (range (length scs)) (range 24))
        ++ map delta_decomp_rule
             (list_prod (range (length scs)) (range 24))).
Proof.
  intros Hwf. unfold template_constraints.
  rewrite (comprehension_ok _
             (fun st : nat * nat =>
                fun m : valuation =>
                  m (delta (fst st) (snd st))
                  == Spec.wind_at scs (fst st) (snd st)
                     - m (offer_quantity (snd st)))).
  - reflexivity.
  - intros (s, t) Hst. apply in_prod_iff in Hst as (Hs & Ht).
    apply in_seq in Hs. apply in_seq in Ht.
    destruct (well_formed_nth scs s Hwf) as (Hw & _); [lia|].
    unfold has_hours in Hw. unfold imbalance_def_rule.
    rewrite getitem_scenario by lia. cbn [bind].
    rewrite (getitem_nth _ t 0) by lia. reflexivity.
Qed.

Lemma template_constraints_ok (scs : list scenario) :
  Forall Spec.well_formed scs ->
  exists cs, template_constraints scs = Ok cs.
Proof.
  intros Hwf. rewrite template_constraints_rows by exact Hwf. eauto.
Qed.

Lemma build_ok (scheme : string) (scs : list scenario) :
  scs <> [] -> Forall Spec.well_formed scs ->
  exists m,
    Task13.build scheme scs = Ok m /\
    forall v, objective m v == Spec.expected_revenue scheme scs v.
Proof.
  intros Hne Hwf. unfold Task13.build.
  destruct (template_constraints_ok scs Hwf) as (cs & ->).
  destruct (revenue_expected scheme scs Hne Hwf) as (obj & -> & Hobj).
  cbn [bind]. eexists. split; [reflexivity|]. exact Hobj.
Qed.

(** A bid vector within the capacity, with excess and deficit the positive
    and negative parts of [wind - bid], satisfies the bounds and the two
    constraint families of the model. *)
Lemma fixed_bid_feasible (scheme : string) (scs : list scenario)
    (bid : list Q) (m : model) :
  Forall Spec.well_formed scs ->
  Spec.within max_capacity bid ->
  Task13.build scheme scs = Ok m ->
  feasible m (Spec.fixed_bid bid scs).
Proof.
  intros Hwf Hbid Hb. unfold Task13.build in Hb.
  rewrite template_constraints_rows in Hb by exact Hwf. cbn [bind] in Hb.
  destruct (Task13.revenue scheme scs) as [obj|e]; [|discriminate].
  cbn [bind] in Hb. injection Hb as <-. split; cbn [bounds constraints].
  - split.
    + intros t Ht. cbn [Spec.fixed_bid].
      destruct Hbid as (Hlen & Hall). rewrite Forall_forall in Hall.
      apply Hall. apply nth_In. lia.
    + intros s t _ _. cbn [Spec.fixed_bid]. unfold Spec.excess, Spec.deficit.
      split; apply Q.le_max_r.
  - apply Forall_app. split; apply Forall_map, Forall_forall.
    + intros (s, t) _. cbn [fst snd Spec.fixed_bid]. reflexivity.
    + intros (s, t) _. unfold delta_decomp_rule. cbn [Spec.fixed_bid].
      destruct (excess_deficit_cases (Spec.wind_at scs s t) (nth t bid 0))
        as [(_ & -> & ->)|(_ & -> & ->)]; ring.
Qed.

End Build.

(* ------------------------------------------------------------------ *)
(** ** Non-optimal terminations *)
(* ------------------------------------------------------------------ *)

Section NonOptimal.

Lemma for_inM_cons {A S} (x : A) (r : list A) (body : S -> A -> M S) (s : S) :
  for_inM (x :: r) body s = bindM (body s x) (for_inM r body).
Proof. reflexivity. Qed.

Lemma range_24 : range 24 = 0%nat :: seq 1 23.
Proof. reflexivity. Qed.

(** [Task_1.1_1.2_1.3.py]: after a non-optimal termination the routine
    stops at the first use of the bid vector that was never assigned. *)
Lemma task13_non_optimal gurobi scheme scs solver return_only m tr :
  Task13.build scheme scs = Ok m ->
  is_optimal (gurobi m) = false ->
  Task13.solve_and_extract gurobi scheme scs solver return_only tr
  = (tr ++ [Solve scheme scs], Raise UnboundLocalError).
Proof.
  intros Hb Hn. unfold Task13.solve_and_extract.
  rewrite Hb. unfold bindM at 1. unfold lift at 1.
  unfold bindM at 1. unfold emit at 1. rewrite Hn.
  unfold Task13.collect. rewrite range_24, for_inM_cons.
  reflexivity.
Qed.

Lemma returns_bind_lift {A B} (a : A) (k : A -> M B) :
  returns (k a) -> returns (bindM (lift (Ok a)) k).
Proof. intros H tr. exact (H tr). Qed.

Lemma task1_collect_returns scheme scs r v :
  scs <> [] -> Forall Spec.well_formed scs ->
  loaded r = Some v ->
  returns (Task1.collect scheme scs r).
Proof.
  intros Hne Hwf Hv. unfold Task1.collect.
  apply returns_for_inM. intros data t Ht. apply in_seq in Ht.
  apply returns_bind; [now apply returns_value with (v := v)|]. intros bid.
  apply returns_bind.
  - apply returns_for_inM. intros total s Hs. apply in_seq in Hs.
    destruct (well_formed_nth scs s Hwf) as (_ & Hp & Hy); [lia|].
    unfold has_hours in Hp, Hy.
    rewrite getitem_scenario by lia. apply returns_bind_lift.
    rewrite (getitem_nth _ t 0) by lia. apply returns_bind_lift.
    apply returns_bind; [now apply returns_value with (v := v)|]. intros up.
    apply returns_bind; [now apply returns_value with (v := v)|]. intros down.
    rewrite (getitem_nth _ t 0%Z) by lia. apply returns_bind_lift.
    apply returns_ret.
  - intros total. rewrite div_len_ok by now apply nonempty_length.
    apply returns_bind_lift. apply returns_ret.
Qed.

Create HintDb traced.
#[local] Hint Resolve extends_ret extends_lift extends_value extends_bind
  extends_for_inM : traced.

Lemma bindM_assoc {A B C} (c : M A) (k1 : A -> M B) (k2 : B -> M C) tr :
  bindM (bindM c k1) k2 tr = bindM c (fun a => bindM (k1 a) k2) tr.
Proof.
  unfold bindM. destruct (c tr) as (tr1, [a|e]); reflexivity.
Qed.

Lemma first_read {A} (r : solved) (x : var) (k : Q -> M A) :
  (forall a, extends (k a)) ->
  forall tr, exists tr',
    fst (bindM (value r x) k tr) = tr ++ Read (Var x) :: tr'.
Proof.
  intros Hk tr. unfold bindM at 1, value, bindM, emit, lift.
  destruct (loaded r) as [v|].
  - destruct (Hk (v x) (tr ++ [Read (Var x)])) as (tr2 & ->).
    exists tr2. now rewrite <- app_assoc.
  - now exists [].
Qed.

Lemma task1_collect_first scheme scs r tr :
  exists tr',
    fst (Task1.collect scheme scs r tr)
    = tr ++ Read (Var (offer_quantity 0)) :: tr'.
Proof.
  unfold Task1.collect. rewrite range_24, for_inM_cons, bindM_assoc.
  apply first_read. intros bid. auto 20 with traced.
Qed.

(** [Task_1.py]: after a non-optimal termination the extraction goes on;
    the first thing it does is read the bid of hour 0 from the model, and
    with values loaded it returns the table. *)
Lemma task1_non_optimal gurobi scheme scs solver m tr :
  scs <> [] -> Forall Spec.well_formed scs ->
  Task1.build scheme scs = Ok m ->
  is_optimal (gurobi m) = false ->
  exists tr' r,
    Task1.solve_and_extract gurobi scheme scs solver tr
    = (tr ++ Solve scheme scs :: Read (Var (offer_quantity 0)) :: tr', r) /\
    (loaded (gurobi m) <> None -> exists data, r = Ok data).
Proof.
  intros Hne Hwf Hb Hn. unfold Task1.solve_and_extract.
  rewrite Hb. unfold bindM at 1. unfold lift at 1.
  unfold bindM at 1. unfold emit at 1. rewrite Hn.
  unfold bindM at 1. unfold ret at 1.
  destruct (task1_collect_first scheme scs (gurobi m)
              (tr ++ [Solve scheme scs])) as (tr2 & Hfirst).
  destruct (Task1.collect scheme scs (gurobi m) (tr ++ [Solve scheme scs]))
    as (tr1, r) eqn:Hrun.
  simpl in Hfirst. subst tr1. exists tr2, r. split.
  - now rewrite <- app_assoc.
  - intros Hv. destruct (loaded (gurobi m)) as [v|] eqn:Hl; [|congruence].
    destruct (task1_collect_returns scheme scs (gurobi m) v Hne Hwf Hl
                (tr ++ [Solve scheme scs])) as (tr3 & data & Hret).
    rewrite Hret in Hrun. injection Hrun as _ <-. now exists data.
Qed.

End NonOptimal.

Section NonOptimalClaims.

(** C7, as the code has it.  Neither routine has a solve failure of its own
    or passes the solver's status on.  After a non-optimal termination
    [solve_and_extract] of [Task_1.1_1.2_1.3.py] reads no variable value
    and does not return: it stops with [UnboundLocalError] at the first use
    of the bid vector.  That of [Task_1.py] goes on to the extraction: it
    reads the variables' values from the model, starting with the bid of
    hour 0, and returns the table whenever values are loaded. *)
Theorem non_optimal_termination gurobi scheme scs solver m tr :
  scs <> [] -> Forall Spec.well_formed scs ->
  Task13.build scheme scs = Ok m ->
  is_optimal (gurobi m) = false ->
  (forall return_only,
     Task13.solve_and_extract gurobi scheme scs solver return_only tr
     = (tr ++ [Solve scheme scs], Raise UnboundLocalError)) /\
  exists tr' r,
    Task1.solve_and_extract gurobi scheme scs solver tr
    = (tr ++ Solve scheme scs :: Read (Var (offer_quantity 0)) :: tr', r) /\
    (loaded (gurobi m) <> None -> exists data, r = Ok data).
Proof.
  intros Hne Hwf Hb Hn. split.
  - intros return_only. now apply task13_non_optimal with (m := m).
  - now apply task1_non_optimal.
Qed.

Lemma non_optimal_termination_witness :
  Task13.solve_and_extract Samples.infeasible_run "one" [Samples.certain]
    Samples.infeasible_run true []
  = ([Solve "one" [Samples.certain]], Raise UnboundLocalError).
Proof.
  destruct (build_ok "one" [Samples.certain]) as (m & Hm & _).
  - discriminate.
  - constructor; [exact certain_well_formed|constructor].
  - destruct (non_optimal_termination Samples.infeasible_run "one"
                [Samples.certain] Samples.infeasible_run m [])
      as (H & _).
    + discriminate.
    + constructor; [exact certain_well_formed|constructor].
    + exact Hm.
    + reflexivity.
    + exact (H true).
Defined.

(** C7, as the specification words it, does not hold: when the solver stops
    at its time limit with values loaded, [solve_and_extract] of
    [Task_1.py] returns the table. *)
Lemma timed_out_solve_returns : ~ Spec.non_optimal_fails_unread.
Proof.
  intros H.
  set (g := Samples.timed_out
              (Spec.fixed_bid (Samples.flat 100) [Samples.certain])).
  assert (Hwf : Forall Spec.well_formed [Samples.certain])
    by (constructor; [exact certain_well_formed|constructor]).
  assert (Hne : [Samples.certain] <> []) by discriminate.
  destruct (build_ok "one" [Samples.certain] Hne Hwf) as (m & Hm & _).
  destruct (H g "one"%string [Samples.certain] g m Hm eq_refl)
    as (_ & Hraise & _).
  destruct (task1_non_optimal g "one" [Samples.certain] g m [] Hne Hwf Hm
              eq_refl) as (tr' & r & Hrun & Hok).
  rewrite Hrun in Hraise. simpl in Hraise.
  destruct Hok as (data & ->); [discriminate|]. exact Hraise.
Qed.

End NonOptimalClaims.

(* ------------------------------------------------------------------ *)
(** ** The reporting loop against the evaluator *)
(* ------------------------------------------------------------------ *)

Section Reporting.

(** C1 at a concrete sample.  Two scenarios with the system in deficit and
    one with it in surplus, wind 100, price 50, capacity 500: the solution
    bids 500 in every hour.  The objective value and [evaluate_profit] at
    that bid agree on 128000, but the hourly revenues of the table returned
    by [solve_and_extract] add up to -72000: in the hours with flag 0 the
    loop leaves the day-ahead income [p_da * bid] out. *)
Theorem collect_drops_day_ahead_income :
  let v := Spec.fixed_bid (Samples.flat 500) Samples.mixed in
  exists tr tr' data offer profit evaluated,
    Task13.solve_and_extract (Samples.oracle v) "one" Samples.mixed
      (Samples.oracle v) false [] = (tr, Ok (Frame data)) /\
    Task13.solve_and_extract (Samples.oracle v) "one" Samples.mixed
      (Samples.oracle v) true [] = (tr', Ok (Strategy offer profit)) /\
    offer = Samples.flat 500 /\
    map bid_MW data = Samples.flat 500 /\
    profit == 128000 /\
    Task13.evaluate_profit offer Samples.mixed "one" = Ok evaluated /\
    evaluated == 128000 /\
    Py.sum (map expected_revenue data) == -72000.
Proof.
  intros v. do 6 eexists.
  split; [vm_compute; reflexivity|].
  split; [vm_compute; reflexivity|].
  split; [vm_compute; reflexivity|].
  split; [vm_compute; reflexivity|].
  split; [vm_compute; reflexivity|].
  split; [vm_compute; reflexivity|].
  split; vm_compute; reflexivity.
Qed.

End Reporting.

(* ------------------------------------------------------------------ *)
(** ** Cross-validation: fold sizes above the population size *)
(* ------------------------------------------------------------------ *)

Section Oversize.

Lemma cross_validate_oversize shuffle gurobi all scheme solver f tr :
  (length all < f)%nat ->
  Task13.cross_validate shuffle gurobi all scheme solver f tr
  = (tr, Ok {| Task13.in_sample_size := f;
               Task13.avg_in_sample_profit := Task13.NaN;
               Task13.avg_out_sample_profit := Task13.NaN;
               Task13.generalization_gap := Task13.NaN |}).
Proof.
  intros Hf. unfold Task13.cross_validate, Task13.floordiv.
  destruct f as [|f']; [lia|].
  rewrite (Nat.div_small (length all) (Datatypes.S f')) by lia.
  reflexivity.
Qed.

Lemma for_sizes_oversize shuffle gurobi all scheme solver tr sizes :
  Forall (fun f => (length all < f)%nat) sizes ->
  forall acc,
    for_inM sizes
      (fun results in_sample_size =>
         r <~ Task13.cross_validate shuffle gurobi all scheme solver
                in_sample_size ;;
         ret (results ++ [r]))
      acc tr
    = (tr, Ok (acc ++ map (fun f => {| Task13.in_sample_size := f;
                                       Task13.avg_in_sample_profit := Task13.NaN;
                                       Task13.avg_out_sample_profit := Task13.NaN;
                                       Task13.generalization_gap := Task13.NaN |})
                          sizes)).
Proof.
  induction 1 as [|f r Hf _ IH]; intros acc; simpl.
  - now rewrite app_nil_r.
  - unfold bindM at 1. unfold bindM at 1.
    rewrite cross_validate_oversize by exact Hf.
    unfold ret at 1. rewrite IH, <- app_assoc. reflexivity.
Qed.

(** C8, as the code has it.  For a requested fold size above the
    population size the evaluator raises nothing and attempts no solve: the
    trace is left as it was and the size gets a summary record computed
    from zero folds, whose three aggregates are [nan]; a request made of
    such sizes returns one such record per size. *)
Theorem oversize_folds_summarised shuffle gurobi all scheme solver tr :
  (forall f, (length all < f)%nat ->
     Task13.cross_validate shuffle gurobi all scheme solver f tr
     = (tr, Ok {| Task13.in_sample_size := f;
                  Task13.avg_in_sample_profit := Task13.NaN;
                  Task13.avg_out_sample_profit := Task13.NaN;
                  Task13.generalization_gap := Task13.NaN |})) /\
  (forall sizes, Forall (fun f => (length all < f)%nat) sizes ->
     Task13.run_cross_validation_for_sizes shuffle gurobi all sizes scheme
       solver tr
     = (tr, Ok (map (fun f => {| Task13.in_sample_size := f;
                                 Task13.avg_in_sample_profit := Task13.NaN;
                                 Task13.avg_out_sample_profit := Task13.NaN;
                                 Task13.generalization_gap := Task13.NaN |})
                    sizes))).
Proof.
  split.
  - intros f Hf. now apply cross_validate_oversize.
  - intros sizes Hall. unfold Task13.run_cross_validation_for_sizes.
    now rewrite for_sizes_oversize.
Qed.

Lemma oversize_folds_summarised_witness :
  Task13.run_cross_validation_for_sizes (fun l => l) Samples.infeasible_run
    Samples.population [5%nat; 8%nat] "two" Samples.infeasible_run []
  = ([], Ok [ {| Task13.in_sample_size := 5;
                 Task13.avg_in_sample_profit := Task13.NaN;
                 Task13.avg_out_sample_profit := Task13.NaN;
                 Task13.generalization_gap := Task13.NaN |};
              {| Task13.in_sample_size := 8;
                 Task13.avg_in_sample_profit := Task13.NaN;
                 Task13.avg_out_sample_profit := Task13.NaN;
                 Task13.generalization_gap := Task13.NaN |} ]).
Proof.
  destruct (oversize_folds_summarised (fun l => l) Samples.infeasible_run
              Samples.population "two" Samples.infeasible_run [])
    as (_ & H).
  apply (H [5%nat; 8%nat]).
  repeat constructor.
Defined.

(** C8, as the specification words it, does not hold: a fold size of 5 on
    a population of 4 is not rejected. *)
Lemma oversize_fold_accepted : ~ Spec.oversize_fold_rejected.
Proof.
  intros H.
  specialize (H (fun l => l) Samples.infeasible_run Samples.population
                [5%nat] "two"%string Samples.infeasible_run 5%nat).
  apply H; simpl; [now left|lia].
Qed.

End Oversize.

(* ------------------------------------------------------------------ *)
(** ** Cross-validation: the folds *)
(* ------------------------------------------------------------------ *)

Lemma In_firstn {A} (n : nat) (l : list A) (x : A) :
  In x (firstn n l) -> In x l.
Proof.
  intros H. rewrite <- (firstn_skipn n l). apply in_or_app. now left.
Qed.

Lemma In_skipn {A} (n : nat) (l : list A) (x : A) :
  In x (skipn n l) -> In x l.
Proof.
  intros H. rewrite <- (firstn_skipn n l). apply in_or_app. now right.
Qed.

Section Folds.

Context {A : Type}.

Lemma firstn_skipn_add (a b : nat) (l : list A) :
  firstn a l ++ firstn b (skipn a l) = firstn (a + b) l.
Proof.
  revert l. induction a as [|a IH]; intros l; simpl.
  - reflexivity.
  - destruct l as [|x r]; simpl.
    + now rewrite firstn_nil.
    + now rewrite IH.
Qed.

Lemma slice_block (l : list A) (f i : nat) :
  Task13.slice l (i * f) ((i + 1) * f) = firstn f (skipn (i * f) l).
Proof.
  unfold Task13.slice. f_equal. nia.
Qed.

Lemma make_folds_length (l : list A) (f k : nat) :
  length (Task13.make_folds l f k) = k.
Proof.
  unfold Task13.make_folds, range. now rewrite length_map, length_seq.
Qed.

Lemma make_folds_nth (l : list A) (f k i : nat) :
  (i < k)%nat ->
  nth_error (Task13.make_folds l f k) i = Some (firstn f (skipn (i * f) l)).
Proof.
  intros Hi. unfold Task13.make_folds, range.
  rewrite nth_error_map, nth_error_seq.
  destruct (Nat.ltb_spec i k); [|lia]. simpl. now rewrite slice_block.
Qed.

Lemma make_folds_In (l : list A) (f k : nat) (fold : list A) :
  In fold (Task13.make_folds l f k) ->
  exists i, (i < k)%nat /\ fold = firstn f (skipn (i * f) l).
Proof.
  unfold Task13.make_folds. intros H. apply in_map_iff in H as (i & <- & Hi).
  apply in_seq in Hi. exists i. split; [lia|apply slice_block].
Qed.

Lemma make_folds_sizes (l : list A) (f k : nat) :
  (k * f <= length l)%nat ->
  Forall (fun fold => length fold = f) (Task13.make_folds l f k).
Proof.
  intros Hk. apply Forall_forall. intros fold Hin.
  apply make_folds_In in Hin as (i & Hi & ->).
  rewrite length_firstn, length_skipn. nia.
Qed.

Lemma make_folds_concat (l : list A) (f k : nat) :
  concat (Task13.make_folds l f k) = firstn (k * f) l.
Proof.
  unfold Task13.make_folds, range. induction k as [|k IH].
  - reflexivity.
  - rewrite seq_S, map_app, concat_app, IH. simpl.
    rewrite app_nil_r, slice_block, firstn_skipn_add. f_equal. lia.
Qed.

Lemma make_folds_subset (l : list A) (f k : nat) (fold : list A) (x : A) :
  In fold (Task13.make_folds l f k) -> In x fold -> In x l.
Proof.
  intros Hin Hx. apply make_folds_In in Hin as (i & _ & ->).
  apply In_firstn in Hx. revert Hx. apply In_skipn.
Qed.

Lemma out_of_fold_later (folds : list (list A)) (a i : nat) :
  (i < a)%nat ->
  flat_map (fun jf : nat * list A =>
              if (fst jf =? i)%nat then [] else snd jf)
           (combine (seq a (length folds)) folds)
  = concat folds.
Proof.
  revert a. induction folds as [|x r IH]; intros a Ha; simpl.
  - reflexivity.
  - destruct (Nat.eqb_spec a i); [lia|]. f_equal. apply IH. lia.
Qed.

Lemma out_of_fold_from (folds : list (list A)) (a i : nat) :
  (a <= i)%nat ->
  flat_map (fun jf : nat * list A =>
              if (fst jf =? i)%nat then [] else snd jf)
           (combine (seq a (length folds)) folds)
  = Spec.others folds (i - a).
Proof.
  revert a. induction folds as [|x r IH]; intros a Ha; simpl.
  - unfold Spec.others. now rewrite firstn_nil.
  - destruct (Nat.eqb_spec a i) as [->|Hne].
    + rewrite Nat.sub_diag. unfold Spec.others. simpl.
      apply out_of_fold_later. lia.
    + rewrite IH by lia. unfold Spec.others.
      replace (i - a)%nat with (Datatypes.S (i - Datatypes.S a)) by lia.
      reflexivity.
Qed.

Lemma out_of_fold_others (folds : list (list A)) (i : nat) :
  Task13.out_of_fold folds i = Spec.others folds i.
Proof.
  unfold Task13.out_of_fold. rewrite out_of_fold_from by lia.
  now rewrite Nat.sub_0_r.
Qed.

Lemma others_In (folds : list (list A)) (i : nat) (x : A) :
  In x (Spec.others folds i) -> exists fold, In fold folds /\ In x fold.
Proof.
  unfold Spec.others. intros H. apply in_concat in H as (fold & Hf & Hx).
  exists fold. split; [|exact Hx].
  apply in_app_or in Hf as [Hf|Hf].
  - now apply In_firstn in Hf.
  - revert Hf. apply In_skipn.
Qed.

Lemma others_nonempty (folds : list (list A)) (f i : nat) :
  (1 <= f)%nat -> (2 <= length folds)%nat -> (i < length folds)%nat ->
  Forall (fun fold => length fold = f) folds ->
  Spec.others folds i <> [].
Proof.
  intros Hf Hk Hi Hall Hnil.
  assert (Hlen : length (Spec.others folds i) = ((length folds - 1) * f)%nat).
  { unfold Spec.others. rewrite <- (map_id (firstn i folds ++ _)).
    rewrite <- flat_map_concat_map.
    rewrite (flat_map_uniform_length (fun x => x) f).
    - rewrite length_app, length_firstn, length_skipn. f_equal. lia.
    - intros a Ha. rewrite Forall_forall in Hall. apply Hall.
      apply in_app_or in Ha as [Ha|Ha].
      + now apply In_firstn in Ha.
      + revert Ha. apply In_skipn. }
  rewrite Hnil in Hlen. simpl in Hlen. nia.
Qed.

End Folds.

(* ------------------------------------------------------------------ *)
(** ** Cross-validation: training and scoring *)
(* ------------------------------------------------------------------ *)

Section Training.

Lemma comprehensionM_reads (r : solved) (v : valuation) (l : list nat) :
  loaded r = Some v ->
  forall tr,
    comprehensionM (fun t => value r (offer_quantity t)) l tr
    = (tr ++ map (fun t => Read (Var (offer_quantity t))) l,
       Ok (map (fun t => v (offer_quantity t)) l)).
Proof.
  intros Hv. induction l as [|t l IH]; intros tr; simpl.
  - unfold ret. now rewrite app_nil_r.
  - unfold bindM at 1. unfold value at 1.
    unfold bindM at 1, emit at 1, lift at 1. rewrite Hv.
    unfold bindM at 1. rewrite IH. unfold ret.
    now rewrite <- app_assoc.
Qed.

(** With [return_only] set, an optimal termination returns the bid vector
    read from the model and the objective value. *)
Lemma solve_and_extract_optimal gurobi scheme scs solver m v tr :
  Task13.build scheme scs = Ok m ->
  is_optimal (gurobi m) = true ->
  loaded (gurobi m) = Some v ->
  Task13.solve_and_extract gurobi scheme scs solver true tr
  = (tr ++ Spec.fold_events scheme scs,
     Ok (Strategy (Spec.extracted_bid v) (objective m v))).
Proof.
  intros Hb Ho Hv. unfold Task13.solve_and_extract.
  rewrite Hb. unfold bindM at 1. unfold lift at 1.
  unfold bindM at 1. unfold emit at 1. rewrite Ho.
  unfold bindM at 1. rewrite (comprehensionM_reads _ v) by exact Hv.
  unfold bindM at 1. unfold value_objective.
  unfold bindM at 1, emit at 1, lift at 1. rewrite Hv.
  unfold ret, Spec.fold_events, Spec.extracted_bid.
  rewrite <- !app_assoc. reflexivity.
Qed.

Lemma extracted_bid_length (v : valuation) :
  length (Spec.extracted_bid v) = 24%nat.
Proof. reflexivity. Qed.

Variable gurobi : solver.
Variable solver : Pyomo.solver.
Variable scheme : string.
Variable folds : list (list scenario).

Hypothesis folds_ready :
  forall i fold, nth_error folds i = Some fold ->
    exists m v out,
      Task13.build scheme fold = Ok m /\
      is_optimal (gurobi m) = true /\
      loaded (gurobi m) = Some v /\
      Task13.evaluate_profit (Spec.extracted_bid v) (Spec.others folds i)
        scheme = Ok out.

Lemma fold_loop (idx : list nat) :
  Forall (fun i => (i < length folds)%nat) idx ->
  forall ins outs tr,
    exists ps,
      for_inM idx (Task13.fold_step gurobi scheme solver folds)
        (ins, outs) tr
      = (tr ++ flat_map (fun i => Spec.fold_events scheme (nth i folds []))
                        idx,
         Ok (ins ++ map fst ps, outs ++ map snd ps)) /\
      Forall2 (Spec.trained gurobi scheme folds) idx ps.
Proof.
  induction 1 as [|i idx Hi _ IH]; intros ins outs tr.
  - exists []. simpl. unfold ret. rewrite !app_nil_r. split; constructor.
  - destruct (nth_error folds i) as [fold|] eqn:Hfold;
      [|apply nth_error_None in Hfold; lia].
    destruct (folds_ready i fold Hfold) as (m & v & out & Hb & Ho & Hv & He).
    rewrite for_inM_cons. unfold bindM at 1. unfold Task13.fold_step at 1.
    unfold getitem. rewrite Hfold.
    unfold bindM at 1. unfold lift at 1.
    unfold bindM at 1.
    rewrite (solve_and_extract_optimal gurobi scheme fold solver m v)
      by assumption.
    unfold bindM at 1. unfold lift at 1. cbn [Task13.unpack].
    unfold bindM at 1. unfold lift at 1. cbn [fst snd].
    rewrite out_of_fold_others, He. unfold ret at 1.
    destruct (IH (ins ++ [objective m v]) (outs ++ [out])
                 (tr ++ Spec.fold_events scheme fold)) as (ps & Hrun & Hps).
    exists ((objective m v, out) :: ps). split.
    + rewrite Hrun. cbn [flat_map map fst snd].
      rewrite (nth_error_nth _ _ [] Hfold), <- !app_assoc. reflexivity.
    + constructor; [|exact Hps].
      exists fold, m, v. repeat split; assumption.
Qed.

End Training.

Section CrossValidation.

Lemma flat_map_nth_range {A B} (g : A -> list B) (l : list A) (d : A) :
  flat_map (fun i => g (nth i l d)) (range (length l)) = flat_map g l.
Proof.
  rewrite !flat_map_concat_map. f_equal. apply map_nth_range.
Qed.

Lemma np_mean_nonempty (l : list Q) :
  l <> [] -> Task13.np_mean l = Task13.Num (Spec.mean l).
Proof. destruct l; [congruence|reflexivity]. Qed.

Lemma NoDup_firstn {A} (n : nat) (l : list A) : NoDup l -> NoDup (firstn n l).
Proof.
  intros H. rewrite <- (firstn_skipn n l) in H.
  now apply NoDup_app_remove_r in H.
Qed.

(** C9, as the code has it.  For a fold size [f >= 1] that leaves at least
    two folds ([2 f <= N]), with every solve ending optimally: the shuffled
    copy is cut into [k = N / f] consecutive blocks of [f] scenarios each,
    which together are its first [k f] entries (the rest is dropped; the
    blocks are pairwise disjoint when the population has no repeated
    record); fold [i] alone is handed to the solver, its bid vector is
    evaluated by [evaluate_profit] on the concatenation of the other folds,
    and the summary holds the mean in-sample profit, the mean out-of-sample
    profit and their difference. *)
Theorem cross_validation_folds shuffle gurobi all f scheme solver tr :
  let k := (length all / f)%nat in
  let folds := Task13.make_folds (shuffle all) f k in
  Permutation (shuffle all) all ->
  (1 <= f)%nat -> (2 * f <= length all)%nat ->
  Forall Spec.well_formed all ->
  (forall fold m, In fold folds -> Task13.build scheme fold = Ok m ->
     is_optimal (gurobi m) = true /\ loaded (gurobi m) <> None) ->
  length folds = k /\
  Forall (fun fold => length fold = f) folds /\
  concat folds = firstn (k * f) (shuffle all) /\
  (NoDup all -> NoDup (concat folds)) /\
  exists ps,
    Task13.run_cross_validation_for_sizes shuffle gurobi all [f] scheme
      solver tr
    = (tr ++ flat_map (Spec.fold_events scheme) folds,
       Ok [ {| Task13.in_sample_size := f;
               Task13.avg_in_sample_profit :=
                 Task13.Num (Spec.mean (map fst ps));
               Task13.avg_out_sample_profit :=
                 Task13.Num (Spec.mean (map snd ps));
               Task13.generalization_gap :=
                 Task13.Num (Spec.mean (map fst ps)
                             - Spec.mean (map snd ps)) |} ]) /\
    Forall2 (Spec.trained gurobi scheme folds) (range k) ps.
Proof.
  intros k folds Hperm Hf Hk Hwf Hsolver.
  assert (Hlen : length (shuffle all) = length all)
    by now apply Permutation_length.
  assert (Hkf : (k * f <= length all)%nat).
  { unfold k. rewrite Nat.mul_comm. apply Nat.Div0.mul_div_le. }
  assert (Hk2 : (2 <= k)%nat).
  { unfold k. apply Nat.div_le_lower_bound; lia. }
  assert (Hfl : length folds = k) by apply make_folds_length.
  assert (Hsz : Forall (fun fold => length fold = f) folds).
  { apply make_folds_sizes. lia. }
  assert (Hwfold : forall fold, In fold folds -> Forall Spec.well_formed fold).
  { intros fold Hin. apply Forall_forall. intros sc Hsc.
    rewrite Forall_forall in Hwf. apply Hwf.
    apply (Permutation_in _ Hperm).
    eapply make_folds_subset; eauto. }
  split; [exact Hfl|]. split; [exact Hsz|].
  split; [apply make_folds_concat|].
  split.
  { intros Hnd. unfold folds. rewrite make_folds_concat.
    apply NoDup_firstn.
    apply (Permutation_NoDup (Permutation_sym Hperm) Hnd). }
  assert (Hready : forall i fold, nth_error folds i = Some fold ->
            exists m v out,
              Task13.build scheme fold = Ok m /\
              is_optimal (gurobi m) = true /\
              loaded (gurobi m) = Some v /\
              Task13.evaluate_profit (Spec.extracted_bid v)
                (Spec.others folds i) scheme = Ok out).
  { intros i fold Hi.
    assert (Hin : In fold folds) by (eapply nth_error_In; eauto).
    assert (Hil : (i < length folds)%nat)
      by (apply nth_error_Some; congruence).
    assert (Hne : fold <> []).
    { rewrite Forall_forall in Hsz. specialize (Hsz fold Hin).
      intros ->. simpl in Hsz. lia. }
    destruct (build_ok scheme fold Hne (Hwfold fold Hin)) as (m & Hm & _).
    destruct (Hsolver fold m Hin Hm) as (Ho & Hv).
    destruct (loaded (gurobi m)) as [v|] eqn:Hl; [|congruence].
    exists m, v. eexists. repeat split; try assumption.
    apply evaluate_profit_mean.
    - rewrite extracted_bid_length. lia.
    - apply (others_nonempty folds f i); try assumption; lia.
    - apply Forall_forall. intros sc Hsc.
      apply others_In in Hsc as (fold' & Hf' & Hsc).
      specialize (Hwfold fold' Hf'). rewrite Forall_forall in Hwfold.
      now apply Hwfold. }
  destruct (fold_loop gurobi solver scheme folds Hready (range k))
    with (ins := @nil Q) (outs := @nil Q) (tr := tr) as (ps & Hrun & Hps).
  { apply Forall_forall. intros i Hi. apply in_seq in Hi. lia. }
  exists ps. split; [|exact Hps].
  unfold Task13.run_cross_validation_for_sizes.
  rewrite for_inM_cons. unfold bindM at 1. unfold bindM at 1.
  unfold Task13.cross_validate. unfold bindM at 1. unfold lift at 1.
  unfold Task13.floordiv. destruct f as [|f']; [lia|].
  unfold bindM at 1. fold k. fold folds. rewrite Hrun.
  cbn [fst snd app]. unfold ret at 1. cbn [for_inM]. unfold ret.
  assert (Hpn : ps <> []).
  { apply Forall2_length in Hps. unfold range in Hps.
    rewrite length_seq in Hps. destruct ps; [simpl in Hps; lia|discriminate]. }
  rewrite !np_mean_nonempty
    by (destruct ps; [congruence|discriminate]).
  cbn [Task13.np_sub].
  rewrite <- Hfl at 1. rewrite flat_map_nth_range. reflexivity.
Qed.

End CrossValidation.

Section CrossValidationCases.

Lemma cross_validation_folds_witness :
  exists ps,
    Task13.run_cross_validation_for_sizes (@rev scenario)
      (Samples.oracle (Spec.fixed_bid Samples.selective Samples.population))
      Samples.population [2%nat] "one" Samples.infeasible_run []
    = ([] ++ flat_map (Spec.fold_events "one")
               (Task13.make_folds (rev Samples.population) 2
                  (length Samples.population / 2)),
       Ok [ {| Task13.in_sample_size := 2;
               Task13.avg_in_sample_profit :=
                 Task13.Num (Spec.mean (map fst ps));
               Task13.avg_out_sample_profit :=
                 Task13.Num (Spec.mean (map snd ps));
               Task13.generalization_gap :=
                 Task13.Num (Spec.mean (map fst ps)
                             - Spec.mean (map snd ps)) |} ]) /\
    Forall2 (Spec.trained
               (Samples.oracle
                  (Spec.fixed_bid Samples.selective Samples.population))
               "one"
               (Task13.make_folds (rev Samples.population) 2
                  (length Samples.population / 2)))
            (range (length Samples.population / 2)) ps.
Proof.
  destruct (cross_validation_folds (@rev scenario)
              (Samples.oracle
                 (Spec.fixed_bid Samples.selective Samples.population))
              Samples.population 2 "one" Samples.infeasible_run [])
    as (_ & _ & _ & _ & H).
  - apply Permutation_sym, Permutation_rev.
  - lia.
  - simpl. lia.
  - apply population_well_formed.
  - intros fold m _ _. split; [reflexivity|discriminate].
  - exact H.
Defined.

(** C9, as the specification words it, does not hold for a fold size that
    leaves a single fold: no other fold is left to evaluate on, and
    [evaluate_profit] divides by the length of the empty list. *)
Lemma single_fold_not_reported : ~ Spec.every_fold_size_reported.
Proof.
  intros H.
  destruct (H (fun l => l)
              (Samples.oracle
                 (Spec.fixed_bid (Samples.flat 100) [Samples.certain]))
              [Samples.certain] 1%nat "one"%string Samples.infeasible_run)
    as (tr & rows & Hrun).
  - apply Permutation_refl.
  - lia.
  - simpl. lia.
  - constructor; [exact certain_well_formed|constructor].
  - intros m. split; [reflexivity|discriminate].
  - vm_compute in Hrun. discriminate Hrun.
Qed.

(** With a single fold the run stops after its only solve. *)
Lemma single_fold_divides_by_zero :
  exists tr,
    Task13.run_cross_validation_for_sizes (fun l => l)
      (Samples.oracle (Spec.fixed_bid (Samples.flat 100) [Samples.certain]))
      [Samples.certain] [1%nat] "one" Samples.infeasible_run []
    = (tr, Raise ZeroDivisionError).
Proof. eexists. vm_compute. reflexivity. Qed.

End CrossValidationCases.

(* ================================================================== *)
(** * Further properties of the code *)
(* ================================================================== *)

(* ------------------------------------------------------------------ *)
(** ** The evaluator on its own *)
(* ------------------------------------------------------------------ *)

Section EvaluatorEdges.

Lemma for_in_ext {A S} (body body' : S -> A -> result S) (l : list A) :
  (forall s x, In x l -> body s x = body' s x) ->
  forall s, for_in l body s = for_in l body' s.
Proof.
  induction l as [|x r IH]; intros H s; simpl.
  - reflexivity.
  - rewrite (H s x (or_introl eq_refl)).
    destruct (body' s x) as [s'|e]; simpl; [|reflexivity].
    apply IH. intros s0 y Hy. apply H. now right.
Qed.

Lemma for_in_cons {A S} (x : A) (r : list A) (body : S -> A -> result S)
    (s : S) :
  for_in (x :: r) body s = bind (body s x) (for_in r body).
Proof. reflexivity. Qed.

Lemma getitem_exn {A} (l : list A) (t : nat) (e : exn) :
  getitem l t = Raise e -> e = IndexError.
Proof.
  unfold getitem. destruct (nth_error l t); [discriminate|].
  intros H. now injection H.
Qed.

Lemma hours_loop_exn offer sc scheme acc e :
  for_in (range 24)
    (fun scenario_profit t =>
       bid <- getitem offer t ;;
       wind <- getitem (wind sc) t ;;
       p_da <- getitem (price_da sc) t ;;
       system_flag <- getitem (system sc) t ;;
       Ok (scenario_profit
           + Task13.hour_revenue scheme bid wind p_da system_flag))
    acc = Raise e ->
  e = IndexError.
Proof.
  apply (for_in_exn (fun e => e = IndexError)). intros s t e0.
  destruct (getitem offer t) eqn:H1; simpl;
    [|intros H; injection H as <-; eapply getitem_exn; eauto].
  destruct (getitem (wind sc) t) eqn:H2; simpl;
    [|intros H; injection H as <-; eapply getitem_exn; eauto].
  destruct (getitem (price_da sc) t) eqn:H3; simpl;
    [|intros H; injection H as <-; eapply getitem_exn; eauto].
  destruct (getitem (system sc) t) eqn:H4; simpl;
    [discriminate|intros H; injection H as <-; eapply getitem_exn; eauto].
Qed.

Lemma hours_loop_short offer sc scheme acc :
  (length offer < 24)%nat ->
  raises
    (for_in (range 24)
       (fun scenario_profit t =>
          bid <- getitem offer t ;;
          wind <- getitem (wind sc) t ;;
          p_da <- getitem (price_da sc) t ;;
          system_flag <- getitem (system sc) t ;;
          Ok (scenario_profit
              + Task13.hour_revenue scheme bid wind p_da system_flag))
       acc).
Proof.
  intros Hshort. apply (for_in_raises _ (range 24) (length offer)).
  - apply in_seq. lia.
  - intros s. unfold getitem at 1.
    assert (Hn : nth_error offer (length offer) = None)
      by (apply nth_error_None; lia).
    rewrite Hn. exact I.
Qed.

(** X1. [evaluate_profit] on inputs it cannot score: an empty scenario list
    gives [ZeroDivisionError]; with a scenario to score, a bid vector of
    fewer than 24 entries gives [IndexError]; no other exception is ever
    raised; and entries of the bid vector beyond the 24th are ignored. *)
Theorem evaluate_profit_edges (bid : list Q) (scs : list scenario)
    (scheme : string) :
  Task13.evaluate_profit bid [] scheme = Raise ZeroDivisionError /\
  (scs <> [] -> (length bid < 24)%nat ->
   Task13.evaluate_profit bid scs scheme = Raise IndexError) /\
  (forall e, Task13.evaluate_profit bid scs scheme = Raise e ->
             e = IndexError \/ e = ZeroDivisionError) /\
  Task13.evaluate_profit (firstn 24 bid) scs scheme
  = Task13.evaluate_profit bid scs scheme.
Proof.
  split; [reflexivity|]. split; [|split].
  - intros Hne Hshort. destruct scs as [|sc rest]; [congruence|].
    unfold Task13.evaluate_profit. rewrite for_in_cons.
    pose proof (hours_loop_short bid sc scheme 0 Hshort) as Hr.
    destruct (for_in (range 24) _ 0) as [x|e] eqn:Hloop; [destruct Hr|].
    apply hours_loop_exn in Hloop. subst e. reflexivity.
  - intros e. unfold Task13.evaluate_profit.
    destruct (for_in scs _ 0) as [total|e0] eqn:Hloop; simpl.
    + unfold div_len. destruct (length scs); [|discriminate].
      intros H. injection H as <-. now right.
    + intros H. injection H as <-. left. revert Hloop.
      apply (for_in_exn (fun e => e = IndexError)). intros s sc e1.
      destruct (for_in (range 24) _ 0) as [x|e2] eqn:Hin; simpl;
        [discriminate|].
      intros H. injection H as <-. eapply hours_loop_exn; eauto.
  - unfold Task13.evaluate_profit. f_equal.
    apply for_in_ext. intros total sc _. f_equal.
    apply for_in_ext. intros acc t Ht. apply in_seq in Ht.
    unfold getitem at 1 5. rewrite nth_error_firstn.
    destruct (Nat.ltb_spec t 24); [reflexivity|lia].
Qed.

Lemma evaluate_profit_edges_witness :
  Task13.evaluate_profit [50; 50] Samples.population "two" = Raise IndexError.
Proof.
  destruct (evaluate_profit_edges [50; 50] Samples.population "two")
    as (_ & H & _).
  apply H; [discriminate|simpl; lia].
Defined.

End EvaluatorEdges.

(* ------------------------------------------------------------------ *)
(** ** What the two schemes pay *)
(* ------------------------------------------------------------------ *)

Section Schemes.

Lemma hour_cases (b w : Q) :
  (Qle_bool 0 (w - b) = true /\ 0 <= w - b) \/
  (Qle_bool 0 (w - b) = false /\ w - b < 0).
Proof.
  destruct (Qle_bool 0 (w - b)) eqn:Hc.
  - left. split; [reflexivity|now apply Qle_bool_iff].
  - right. split; [reflexivity|].
    apply Qnot_le_lt. intros H. apply Qle_bool_iff in H. congruence.
Qed.

Lemma hour_one_linear (b w p : Q) (f : Z) :
  Task13.hour_revenue "one" b w p f
  == p * b + Spec.one_price_multiplier f * p * (w - b).
Proof.
  unfold Task13.hour_revenue, Spec.one_price_multiplier.
  destruct (hour_cases b w) as [(-> & _)|(-> & _)];
    destruct (f =? 1)%Z; simpl; ring.
Qed.

Lemma hour_two_le_one (b w p : Q) (f : Z) :
  0 <= p ->
  Task13.hour_revenue "two" b w p f <= Task13.hour_revenue "one" b w p f.
Proof.
  intros Hp. unfold Task13.hour_revenue.
  destruct (hour_cases b w) as [(-> & H)|(-> & H)];
    destruct (f =? 1)%Z; simpl; nra.
Qed.

Lemma hour_two_le_forecast (b w p : Q) (f : Z) :
  0 <= p -> Task13.hour_revenue "two" b w p f <= p * w.
Proof.
  intros Hp. unfold Task13.hour_revenue.
  destruct (hour_cases b w) as [(-> & H)|(-> & H)];
    destruct (f =? 1)%Z; simpl; nra.
Qed.

Lemma hour_two_exact (w p : Q) (f : Z) :
  Task13.hour_revenue "two" w w p f == p * w.
Proof.
  unfold Task13.hour_revenue.
  destruct (hour_cases w w) as [(-> & H)|(-> & H)];
    destruct (f =? 1)%Z; simpl; ring.
Qed.

Lemma mean_map {A} (f : A -> Q) (l : list A) :
  Spec.mean (map f l)
  = Py.sum (map f l) / inject_Z (Z.of_nat (length l)).
Proof. unfold Spec.mean. now rewrite length_map. Qed.

Lemma mean_map_ext {A} (f g : A -> Q) (l : list A) :
  (forall x, In x l -> f x == g x) ->
  Spec.mean (map f l) == Spec.mean (map g l).
Proof.
  intros H. rewrite !mean_map. apply Qmult_comp; [|reflexivity].
  now apply sum_map_ext.
Qed.

Lemma mean_map_le {A} (f g : A -> Q) (l : list A) :
  (forall x, In x l -> f x <= g x) ->
  Spec.mean (map f l) <= Spec.mean (map g l).
Proof.
  intros H. rewrite !mean_map. unfold Qdiv.
  apply Qmult_le_compat_r; [now apply sum_map_le|].
  apply Qinv_le_0_compat. change 0 with (inject_Z 0).
  rewrite <- Zle_Qle. lia.
Qed.

Lemma evaluate_profit_realized (bid : list Q) (scs : list scenario)
    (scheme : string) :
  (24 <= length bid)%nat -> scs <> [] -> Forall Spec.well_formed scs ->
  Task13.evaluate_profit bid scs scheme
  = Ok (Spec.mean (map (Spec.realized scheme bid) scs)).
Proof.
  intros. rewrite mean_map. now apply evaluate_profit_mean.
Qed.

(** X2. Under the one-price scheme the average revenue does not depend on
    which side of the bid the wind falls: it is the mean over the
    scenarios of the sum over the hours of
    [p_da * bid + m * p_da * (wind - bid)], with [m] = 0.85 for flag 1
    and 1.25 otherwise; so it is affine in every hour's bid. *)
Theorem one_price_is_linear (bid : list Q) (scs : list scenario) :
  (24 <= length bid)%nat -> scs <> [] -> Forall Spec.well_formed scs ->
  exists v,
    Task13.evaluate_profit bid scs "one" = Ok v /\
    v == Spec.mean (map (Spec.one_price_linear bid) scs).
Proof.
  intros Hb Hne Hwf. eexists.
  split; [now apply evaluate_profit_realized|].
  apply mean_map_ext. intros sc _.
  unfold Spec.realized, Spec.one_price_linear.
  apply sum_map_ext. intros t _. cbv zeta. apply hour_one_linear.
Qed.

Lemma one_price_is_linear_witness :
  exists v,
    Task13.evaluate_profit Samples.selective Samples.population "one"
      = Ok v /\
    v == Spec.mean (map (Spec.one_price_linear Samples.selective)
                        Samples.population).
Proof.
  apply one_price_is_linear.
  - simpl. lia.
  - discriminate.
  - apply population_well_formed.
Defined.

(** X3. With day-ahead prices that are not negative, a bid vector never
    earns more under the two-price scheme than under the one-price scheme
    on the same scenarios. *)
Theorem two_price_at_most_one_price (bid : list Q) (scs : list scenario) :
  (24 <= length bid)%nat -> scs <> [] -> Forall Spec.well_formed scs ->
  Forall Spec.nonneg_prices scs ->
  exists v2 v1,
    Task13.evaluate_profit bid scs "two" = Ok v2 /\
    Task13.evaluate_profit bid scs "one" = Ok v1 /\
    v2 <= v1.
Proof.
  intros Hb Hne Hwf Hp. do 2 eexists.
  split; [now apply evaluate_profit_realized|].
  split; [now apply evaluate_profit_realized|].
  apply mean_map_le. intros sc Hsc. unfold Spec.realized.
  apply sum_map_le. intros t Ht. apply in_seq in Ht.
  apply hour_two_le_one. rewrite Forall_forall in Hp.
  apply (Hp sc Hsc). lia.
Qed.

Lemma certain_nonneg : Spec.nonneg_prices Samples.certain.
Proof.
  intros t Ht.
  do 24 (destruct t as [|t]; [simpl; lra|]). lia.
Defined.

Lemma population_nonneg : Forall Spec.nonneg_prices Samples.population.
Proof.
  unfold Samples.population. simpl.
  repeat (apply Forall_cons; [exact certain_nonneg|]). apply Forall_nil.
Defined.

Lemma two_price_at_most_one_price_witness :
  exists v2 v1,
    Task13.evaluate_profit (Samples.flat 60) Samples.population "two"
      = Ok v2 /\
    Task13.evaluate_profit (Samples.flat 60) Samples.population "one"
      = Ok v1 /\
    v2 <= v1.
Proof.
  apply two_price_at_most_one_price.
  - simpl. lia.
  - discriminate.
  - apply population_well_formed.
  - apply population_nonneg.
Defined.

(** X4. With day-ahead prices that are not negative, no bid vector earns
    more under the two-price scheme than selling every scenario's wind
    day-ahead would; bidding a scenario's own wind earns exactly that on
    this scenario. *)
Theorem two_price_at_most_forecast (bid : list Q) (scs : list scenario) :
  (24 <= length bid)%nat -> scs <> [] -> Forall Spec.well_formed scs ->
  Forall Spec.nonneg_prices scs ->
  (exists v,
     Task13.evaluate_profit bid scs "two" = Ok v /\
     v <= Spec.mean (map Spec.forecast_revenue scs)) /\
  (forall sc, In sc scs ->
     exists v,
       Task13.evaluate_profit (wind sc) [sc] "two" = Ok v /\
       v == Spec.forecast_revenue sc).
Proof.
  intros Hb Hne Hwf Hp. split.
  - eexists. split; [now apply evaluate_profit_realized|].
    apply mean_map_le. intros sc Hsc.
    unfold Spec.realized, Spec.forecast_revenue.
    apply sum_map_le. intros t Ht. apply in_seq in Ht.
    apply hour_two_le_forecast. rewrite Forall_forall in Hp.
    apply (Hp sc Hsc). lia.
  - intros sc Hsc. rewrite Forall_forall in Hwf.
    pose proof (Hwf sc Hsc) as Hsc_wf. eexists. split.
    + apply evaluate_profit_realized.
      * destruct Hsc_wf as (Hw & _). exact Hw.
      * discriminate.
      * constructor; [exact Hsc_wf|constructor].
    + unfold Spec.mean. simpl map. simpl length.
      rewrite sum_cons, sum_nil.
      assert (Heq : Spec.realized "two" (wind sc) sc
                    == Spec.forecast_revenue sc).
      { unfold Spec.realized, Spec.forecast_revenue.
        apply sum_map_ext. intros t _. apply hour_two_exact. }
      rewrite Heq. field.
Qed.

Lemma two_price_at_most_forecast_witness :
  exists v,
    Task13.evaluate_profit (Samples.flat 60) Samples.population "two"
      = Ok v /\
    v <= Spec.mean (map Spec.forecast_revenue Samples.population).
Proof.
  destruct (two_price_at_most_forecast (Samples.flat 60) Samples.population)
    as (H & _).
  - simpl. lia.
  - discriminate.
  - apply population_well_formed.
  - apply population_nonneg.
  - exact H.
Defined.

End Schemes.

(* ------------------------------------------------------------------ *)
(** ** The model against the evaluator *)
(* ------------------------------------------------------------------ *)

Section ModelAndEvaluator.

(** X5. For a non-empty sample of scenarios with their 24 hourly entries,
    the model is built, and every bid vector within [0, max_capacity]
    extends to a feasible point of it: with the imbalance [wind - bid],
    its positive part as excess and its negative part as deficit, the
    bounds and both constraint families hold. *)
Theorem fixed_bid_is_feasible (scheme : string) (scs : list scenario)
    (bid : list Q) :
  scs <> [] -> Forall Spec.well_formed scs ->
  Spec.within max_capacity bid ->
  exists m,
    Task13.build scheme scs = Ok m /\
    feasible m (Spec.fixed_bid bid scs).
Proof.
  intros Hne Hwf Hbid.
  destruct (build_ok scheme scs Hne Hwf) as (m & Hm & _).
  exists m. split; [exact Hm|].
  now apply fixed_bid_feasible with (scheme := scheme).
Qed.

Lemma selective_within_capacity : Spec.within max_capacity Samples.selective.
Proof.
  split; [reflexivity|].
  unfold Samples.selective, Samples.alternating, max_capacity. simpl.
  repeat (apply Forall_cons; [simpl; lra|]). apply Forall_nil.
Defined.

Lemma fixed_bid_is_feasible_witness :
  exists m,
    Task13.build "two" Samples.population = Ok m /\
    feasible m (Spec.fixed_bid Samples.selective Samples.population).
Proof.
  apply fixed_bid_is_feasible.
  - discriminate.
  - apply population_well_formed.
  - apply selective_within_capacity.
Defined.

(** What feasibility says hour by hour. *)
Lemma feasible_rows (scheme : string) (scs : list scenario) (m : model)
    (v : valuation) (s t : nat) :
  Forall Spec.well_formed scs ->
  Task13.build scheme scs = Ok m -> feasible m v ->
  (s < length scs)%nat -> (t < 24)%nat ->
  v (delta s t) == Spec.wind_at scs s t - v (offer_quantity t) /\
  v (delta s t) == v (delta_exc s t) - v (delta_def s t) /\
  0 <= v (delta_exc s t) /\ 0 <= v (delta_def s t) /\
  0 <= v (offer_quantity t) /\ v (offer_quantity t) <= max_capacity.
Proof.
  intros Hwf Hb (Hbounds & Hcs) Hs Ht. unfold Task13.build in Hb.
  rewrite template_constraints_rows in Hb by exact Hwf. cbn [bind] in Hb.
  destruct (Task13.revenue scheme scs) as [obj|e]; [|discriminate].
  cbn [bind] in Hb. injection Hb as <-.
  cbn [bounds constraints] in Hbounds, Hcs.
  apply Forall_app in Hcs as (Himb & Hdec).
  rewrite Forall_map, Forall_forall in Himb, Hdec.
  assert (Hin : In (s, t) (list_prod (range (length scs)) (range 24)))
    by (apply in_prod_iff; split; apply in_seq; lia).
  specialize (Himb (s, t) Hin). specialize (Hdec (s, t) Hin).
  cbn [fst snd] in Himb. unfold delta_decomp_rule in Hdec.
  destruct Hbounds as (Hoffer & Hparts).
  destruct (Hoffer t Ht) as (H0 & H1).
  destruct (Hparts s t Hs Ht) as (He & Hd).
  repeat split; assumption.
Qed.

Lemma nth_extracted_bid (v : valuation) (t : nat) :
  (t < 24)%nat -> nth t (Spec.extracted_bid v) 0 = v (offer_quantity t).
Proof.
  intros Ht. unfold Spec.extracted_bid.
  do 24 (destruct t as [|t]; [reflexivity|]). lia.
Qed.

(** Moving excess and deficit down to the positive and negative parts of
    the imbalance never lowers the settlement term. *)
Lemma settlement_term_parts (scheme : string) (p : Q) (flag : Z)
    (s t : nat) (v v' : valuation) (w : Q) :
  0 <= p -> flag = 0%Z \/ flag = 1%Z ->
  v (delta_exc s t) - v (delta_def s t) == w - v (offer_quantity t) ->
  0 <= v (delta_exc s t) -> 0 <= v (delta_def s t) ->
  v' (offer_quantity t) == v (offer_quantity t) ->
  v' (delta_exc s t) == Spec.excess w (v (offer_quantity t)) ->
  v' (delta_def s t) == Spec.deficit w (v (offer_quantity t)) ->
  settlement_term scheme p flag s t v <= settlement_term scheme p flag s t v'.
Proof.
  intros Hp Hflag Hbal He Hd Ho' He' Hd'. unfold settlement_term.
  set (E := v (delta_exc s t)) in *. set (D := v (delta_def s t)) in *.
  set (b := v (offer_quantity t)) in *.
  assert (Hshift : exists d, 0 <= d /\ E == v' (delta_exc s t) + d /\
                             D == v' (delta_def s t) + d).
  { destruct (excess_deficit_cases w b) as [(_ & H1 & H2)|(_ & H1 & H2)].
    - exists D. rewrite He', Hd', H1, H2. repeat split; lra.
    - exists E. rewrite He', Hd', H1, H2. repeat split; lra. }
  destruct Hshift as (d & Hd0 & HE & HD).
  assert (Hpd : 0 <= p * d) by now apply Qmult_le_0_compat.
  clearbody E D b.
  destruct (scheme =? "one")%string; destruct Hflag as [-> | ->];
    change (inject_Z 0) with 0; change (inject_Z 1) with 1;
    rewrite Ho', HE, HD; lra.
Qed.

Lemma objective_le_realized (scheme : string) (scs : list scenario)
    (m : model) (v : valuation) :
  scs <> [] -> Forall Spec.well_formed scs -> Forall Spec.binary scs ->
  Forall Spec.nonneg_prices scs ->
  Task13.build scheme scs = Ok m -> feasible m v ->
  objective m v
  <= Spec.mean (map (Spec.realized scheme (Spec.extracted_bid v)) scs).
Proof.
  intros Hne Hwf Hbin Hpos Hb Hfeas.
  destruct (build_ok scheme scs Hne Hwf) as (m' & Hm' & Hobj).
  rewrite Hb in Hm'. injection Hm' as <-.
  rewrite Hobj. unfold Spec.expected_revenue.
  rewrite <- (map_nth_range (Spec.realized scheme (Spec.extracted_bid v))
                scs Spec.no_scenario).
  apply mean_map_le. intros s Hs. apply in_seq in Hs.
  rewrite realized_profit by (auto; lia).
  unfold Spec.profit. apply sum_map_le. intros t Ht. apply in_seq in Ht.
  destruct (feasible_rows scheme scs m v s t Hwf Hb Hfeas)
    as (Himb & Hdec & He & Hd & _); [lia|lia|].
  unfold Spec.term. rewrite Forall_forall in Hbin, Hpos.
  assert (Hsc : In (nth s scs Spec.no_scenario) scs)
    by (apply nth_In; lia).
  apply settlement_term_parts with (w := Spec.wind_at scs s t).
  - apply (Hpos _ Hsc). lia.
  - apply (Hbin _ Hsc). lia.
  - rewrite <- Hdec. exact Himb.
  - exact He.
  - exact Hd.
  - cbn [Spec.fixed_bid]. now rewrite nth_extracted_bid by lia.
  - cbn [Spec.fixed_bid]. now rewrite nth_extracted_bid by lia.
  - cbn [Spec.fixed_bid]. now rewrite nth_extracted_bid by lia.
Qed.

(** X6. With binary system flags and day-ahead prices that are not
    negative, the objective at any feasible point of the model is at most
    the average revenue [evaluate_profit] computes for that point's bid
    vector: nothing is gained by carrying excess and deficit at once. *)
Theorem objective_at_most_evaluator (scheme : string) (scs : list scenario)
    (m : model) (v : valuation) :
  scs <> [] -> Forall Spec.well_formed scs -> Forall Spec.binary scs ->
  Forall Spec.nonneg_prices scs ->
  Task13.build scheme scs = Ok m -> feasible m v ->
  exists r,
    Task13.evaluate_profit (Spec.extracted_bid v) scs scheme = Ok r /\
    objective m v <= r.
Proof.
  intros Hne Hwf Hbin Hpos Hb Hfeas.
  eexists. split.
  - apply evaluate_profit_realized; [|exact Hne|exact Hwf].
    rewrite extracted_bid_length. lia.
  - now apply objective_le_realized.
Qed.

Lemma objective_at_most_evaluator_witness :
  exists m r,
    Task13.build "two" Samples.population = Ok m /\
    Task13.evaluate_profit
      (Spec.extracted_bid
         (Spec.fixed_bid Samples.selective Samples.population))
      Samples.population "two" = Ok r /\
    objective m (Spec.fixed_bid Samples.selective Samples.population) <= r.
Proof.
  destruct (build_ok "two" Samples.population) as (m & Hm & _).
  - discriminate.
  - apply population_well_formed.
  - destruct (objective_at_most_evaluator "two" Samples.population m
                (Spec.fixed_bid Samples.selective Samples.population))
      as (r & Hr & Hle).
    + discriminate.
    + apply population_well_formed.
    + apply population_binary.
    + apply population_nonneg.
    + exact Hm.
    + apply fixed_bid_feasible with (scheme := "two"%string).
      * apply population_well_formed.
      * apply selective_within_capacity.
      * exact Hm.
    + exists m, r. repeat split; assumption.
Defined.

End ModelAndEvaluator.

(* ------------------------------------------------------------------ *)
(** ** Samples the model cannot be built from *)
(* ------------------------------------------------------------------ *)

Section BuildFailures.

Lemma comprehension_exn {A B} (P : exn -> Prop) (f : A -> result B)
    (l : list A) :
  (forall x e, f x = Raise e -> P e) ->
  forall e, comprehension f l = Raise e -> P e.
Proof.
  intros Hf. induction l as [|x r IH]; simpl; intros e H.
  - discriminate.
  - destruct (f x) as [y|e1] eqn:Hx; simpl in H.
    + destruct (comprehension f r) as [ys|e2]; simpl in H; [discriminate|].
      injection H as <-. now apply IH.
    + injection H as <-. eapply Hf; eauto.
Qed.

Lemma comprehension_raises {A B} (f : A -> result B) (l : list A) (x : A) :
  In x l -> raises (f x) -> raises (comprehension f l).
Proof.
  intros Hin Hx. induction l as [|y r IH]; simpl.
  - destruct Hin.
  - destruct (f y) as [b|e] eqn:Hy; simpl; [|exact I].
    destruct Hin as [->|Hin].
    + rewrite Hy in Hx. destruct Hx.
    + specialize (IH Hin).
      destruct (comprehension f r); [destruct IH|exact I].
Qed.

Lemma raises_index {A} (r : result A) :
  raises r -> (forall e, r = Raise e -> e = IndexError) ->
  r = Raise IndexError.
Proof.
  intros Hr He. destruct r as [a|e]; [destruct Hr|].
  now rewrite (He e eq_refl).
Qed.

Lemma imbalance_def_rule_exn scs st e :
  imbalance_def_rule scs st = Raise e -> e = IndexError.
Proof.
  destruct st as (s, t). unfold imbalance_def_rule.
  destruct (getitem scs s) as [sc|e1] eqn:H1; simpl;
    [|intros H; injection H as <-; eapply getitem_exn; eauto].
  destruct (getitem (wind sc) t) as [w|e2] eqn:H2; simpl;
    [discriminate|intros H; injection H as <-; eapply getitem_exn; eauto].
Qed.

Lemma term_at_exn scheme scs s t e :
  term_at scheme scs s t = Raise e -> e = IndexError.
Proof.
  unfold term_at.
  destruct (getitem scs s) as [sc|e1] eqn:H1; simpl;
    [|intros H; injection H as <-; eapply getitem_exn; eauto].
  destruct (getitem (price_da sc) t) as [p|e2] eqn:H2; simpl;
    [|intros H; injection H as <-; eapply getitem_exn; eauto].
  destruct (getitem (system sc) t) as [f|e3] eqn:H3; simpl;
    [discriminate|intros H; injection H as <-; eapply getitem_exn; eauto].
Qed.

Lemma getitem_length {A} (l : list A) : getitem l (length l) = Raise IndexError.
Proof.
  unfold getitem.
  assert (H : nth_error l (length l) = None) by (apply nth_error_None; lia).
  now rewrite H.
Qed.

Lemma template_constraints_exn scs e :
  template_constraints scs = Raise e -> e = IndexError.
Proof.
  unfold template_constraints.
  destruct (comprehension (imbalance_def_rule scs) _) as [imb|e1] eqn:H;
    simpl; [discriminate|].
  intros H1. injection H1 as <-. revert H.
  apply (comprehension_exn (fun e => e = IndexError)).
  intros st e0. apply imbalance_def_rule_exn.
Qed.

Lemma template_constraints_short scs s sc :
  nth_error scs s = Some sc -> (length (wind sc) < 24)%nat ->
  template_constraints scs = Raise IndexError.
Proof.
  intros Hs Hshort. apply raises_index; [|apply template_constraints_exn].
  unfold template_constraints.
  assert (Hr : raises (comprehension (imbalance_def_rule scs)
                         (list_prod (range (length scs)) (range 24)))).
  { apply (comprehension_raises _ _ (s, length (wind sc))).
    - apply in_prod_iff. split; apply in_seq; [|lia].
      assert (s < length scs)%nat by (apply nth_error_Some; congruence). lia.
    - unfold imbalance_def_rule, getitem at 1. rewrite Hs. cbn [bind].
      now rewrite getitem_length. }
  destruct (comprehension _ _); [destruct Hr|exact I].
Qed.

Lemma double_sum_exn scheme scs e :
  double_sum scheme scs = Raise e -> e = IndexError.
Proof.
  unfold double_sum.
  destruct (comprehension _ (range 24)) as [rows|e1] eqn:H; simpl;
    [discriminate|].
  intros H1. injection H1 as <-. revert H.
  apply (comprehension_exn (fun e => e = IndexError)). intros t e0.
  destruct (comprehension _ (range (length scs))) as [row|e2] eqn:H2; simpl;
    [discriminate|].
  intros H3. injection H3 as <-. revert H2.
  apply (comprehension_exn (fun e => e = IndexError)).
  intros s e3. apply term_at_exn.
Qed.

Lemma term_at_short scheme scs s sc t :
  nth_error scs s = Some sc ->
  t = length (price_da sc) \/
  ((length (price_da sc) > t)%nat /\ t = length (system sc)) ->
  raises (term_at scheme scs s t).
Proof.
  intros Hs Ht. unfold term_at, getitem at 1. rewrite Hs. cbn [bind].
  destruct Ht as [->|(Hp & ->)].
  - now rewrite getitem_length.
  - rewrite (getitem_nth _ _ 0) by lia. cbn [bind].
    now rewrite getitem_length.
Qed.

Lemma double_sum_short scheme scs s sc :
  nth_error scs s = Some sc ->
  (length (price_da sc) < 24)%nat \/ (length (system sc) < 24)%nat ->
  double_sum scheme scs = Raise IndexError.
Proof.
  intros Hs Hshort. apply raises_index; [|apply double_sum_exn].
  assert (Hlt : (s < length scs)%nat)
    by (apply nth_error_Some; congruence).
  assert (Ht : exists t, (t < 24)%nat /\ raises (term_at scheme scs s t)).
  { destruct (Nat.lt_ge_cases (length (price_da sc)) 24) as [Hp|Hp].
    - exists (length (price_da sc)). split; [exact Hp|].
      eapply term_at_short; eauto.
    - destruct Hshort as [?|Hy]; [lia|].
      exists (length (system sc)). split; [exact Hy|].
      eapply term_at_short; eauto. right. split; [lia|reflexivity]. }
  destruct Ht as (t & Ht & Hr). unfold double_sum.
  assert (Hrows : raises
            (comprehension
               (fun t => row <- comprehension
                                  (fun s => term_at scheme scs s t)
                                  (range (length scs)) ;;
                         Ok (sum_expr row))
               (range 24))).
  { apply (comprehension_raises _ _ t); [apply in_seq; lia|].
    assert (Hrow : raises (comprehension (fun s => term_at scheme scs s t)
                             (range (length scs)))).
    { apply (comprehension_raises _ _ s); [apply in_seq; lia|exact Hr]. }
    destruct (comprehension _ (range (length scs))); [destruct Hrow|exact I]. }
  destruct (comprehension _ (range 24)); [destruct Hrows|exact I].
Qed.

(** X7. An empty sample: [create_model_template] builds its model without
    a constraint, the objective rule divides by the length of the sample,
    and every [solve_and_extract] stops with [ZeroDivisionError] before
    the solver is called. *)
Theorem empty_sample_raises gurobi scheme solver return_only beta alpha tr :
  template_constraints [] = Ok [] /\
  Task13.solve_and_extract gurobi scheme [] solver return_only tr
  = (tr, Raise ZeroDivisionError) /\
  Task1.solve_and_extract gurobi scheme [] solver tr
  = (tr, Raise ZeroDivisionError) /\
  Task14.solve_and_extract gurobi scheme beta [] solver return_only alpha tr
  = (tr, Raise ZeroDivisionError).
Proof. repeat split; reflexivity. Qed.

(** X8. A sample holding a scenario that lacks one of its 24 hourly
    entries of wind, price or system flag: the model is not built, and
    the [solve_and_extract] of [Task_1.1_1.2_1.3.py] and of [Task_1.py]
    stop with [IndexError] before the solver is called. *)
Theorem short_scenario_raises gurobi scheme scs solver return_only tr :
  Exists (fun sc => (length (wind sc) < 24)%nat \/
                    (length (price_da sc) < 24)%nat \/
                    (length (system sc) < 24)%nat) scs ->
  Task13.build scheme scs = Raise IndexError /\
  Task13.solve_and_extract gurobi scheme scs solver return_only tr
  = (tr, Raise IndexError) /\
  Task1.solve_and_extract gurobi scheme scs solver tr
  = (tr, Raise IndexError).
Proof.
  intros Hex. apply Exists_exists in Hex as (sc & Hin & Hshort).
  apply In_nth_error in Hin as (s & Hs).
  assert (Hb : Task13.build scheme scs = Raise IndexError).
  { unfold Task13.build.
    destruct (template_constraints scs) as [cs|e] eqn:Ht.
    - cbn [bind]. destruct Hshort as [Hw|Hps].
      + rewrite (template_constraints_short scs s sc Hs Hw) in Ht.
        discriminate.
      + unfold Task13.revenue. rewrite inv_len_ok.
        * cbn [bind]. now rewrite (double_sum_short scheme scs s sc Hs Hps).
        * assert (s < length scs)%nat by (apply nth_error_Some; congruence).
          lia.
    - apply template_constraints_exn in Ht. now subst e. }
  split; [exact Hb|]. split.
  - unfold Task13.solve_and_extract. now rewrite Hb.
  - unfold Task1.solve_and_extract, Task1.build. now rewrite Hb.
Qed.

Lemma short_scenario_raises_witness :
  Task13.solve_and_extract Samples.infeasible_run "one"
    [Samples.certain; {| wind := [100]; price_da := Samples.flat 50;
                         price_bal := []; system := Samples.alternating |}]
    Samples.infeasible_run false []
  = ([], Raise IndexError).
Proof.
  destruct (short_scenario_raises Samples.infeasible_run "one"
              [Samples.certain;
               {| wind := [100]; price_da := Samples.flat 50;
                  price_bal := []; system := Samples.alternating |}]
              Samples.infeasible_run false []) as (_ & H & _).
  - apply Exists_cons_tl. apply Exists_cons_hd. left. simpl. lia.
  - exact H.
Defined.

End BuildFailures.

(* ------------------------------------------------------------------ *)
(** ** Extraction after an optimal termination *)
(* ------------------------------------------------------------------ *)

Section Extraction.

Lemma computes_ret {A} (a : A) : computes (ret a) a.
Proof. intros tr. exists []. unfold ret. now rewrite app_nil_r. Qed.

Lemma computes_bind {A B} (c : M A) (k : A -> M B) (a : A) (b : B) :
  computes c a -> computes (k a) b -> computes (bindM c k) b.
Proof.
  intros Hc Hk tr. unfold bindM. destruct (Hc tr) as (tr1 & ->).
  destruct (Hk (tr ++ tr1)) as (tr2 & ->).
  exists (tr1 ++ tr2). now rewrite app_assoc.
Qed.

Lemma computes_lift {A} (a : A) : computes (lift (Ok a)) a.
Proof. intros tr. exists []. unfold lift. now rewrite app_nil_r. Qed.

Lemma computes_value (r : solved) (v : valuation) (x : var) :
  loaded r = Some v -> computes (value r x) (v x).
Proof.
  intros Hv tr. exists [Read (Var x)].
  unfold value, bindM, emit, lift. now rewrite Hv.
Qed.

Lemma computes_for_inM_sum {A} (body : Q -> A -> M Q) (h : A -> Q)
    (l : list A) :
  (forall acc x, In x l -> computes (body acc x) (acc + h x)) ->
  forall acc, computes (for_inM l body acc) (fold_left Qplus (map h l) acc).
Proof.
  induction l as [|x r IH]; intros H acc; simpl.
  - apply computes_ret.
  - eapply computes_bind; [apply H; now left|].
    apply IH. intros a y Hy. apply H. now right.
Qed.

Lemma computes_for_inM_append {A B} (body : list B -> A -> M (list B))
    (g : A -> B) (l : list A) :
  (forall acc x, In x l -> computes (body acc x) (acc ++ [g x])) ->
  forall acc, computes (for_inM l body acc) (acc ++ map g l).
Proof.
  induction l as [|x r IH]; intros H acc; simpl.
  - rewrite app_nil_r. apply computes_ret.
  - eapply computes_bind; [apply H; now left|].
    replace (acc ++ g x :: map g r) with ((acc ++ [g x]) ++ map g r)
      by now rewrite <- app_assoc.
    apply IH. intros a y Hy. apply H. now right.
Qed.

Lemma computes_unique {A} (c : M A) (a b : A) :
  computes c a -> computes c b -> a = b.
Proof.
  intros Ha Hb. destruct (Ha []) as (t1 & H1). destruct (Hb []) as (t2 & H2).
  rewrite H1 in H2. now injection H2.
Qed.

(** The inner loop of the reporting loops, for one hour. *)
Lemma computes_hour_total scheme scs r v t bid :
  Forall Spec.well_formed scs -> loaded r = Some v -> (t < 24)%nat ->
  computes
    (for_inM (range (length scs))
       (fun total_revenue s =>
          sc <~ lift (getitem scs s) ;;
          p_da <~ lift (getitem (price_da sc) t) ;;
          delta_up <~ value r (delta_exc s t) ;;
          delta_down <~ value r (delta_def s t) ;;
          system_flag <~ lift (getitem (system sc) t) ;;
          ret (total_revenue
               + reported_revenue scheme p_da bid delta_up delta_down
                   system_flag))
       0)
    (Py.sum (map (fun s =>
                    reported_revenue scheme (Spec.price_at scs s t) bid
                      (v (delta_exc s t)) (v (delta_def s t))
                      (Spec.system_at scs s t))
                 (range (length scs)))).
Proof.
  intros Hwf Hv Ht. unfold Py.sum.
  apply (computes_for_inM_sum _
           (fun s => reported_revenue scheme (Spec.price_at scs s t) bid
                       (v (delta_exc s t)) (v (delta_def s t))
                       (Spec.system_at scs s t))).
  intros acc s Hs. apply in_seq in Hs.
  destruct (well_formed_nth scs s Hwf) as (_ & Hp & Hy); [lia|].
  unfold has_hours in Hp, Hy.
  rewrite getitem_scenario by lia.
  eapply computes_bind; [apply computes_lift|].
  rewrite (getitem_nth _ t 0) by lia.
  eapply computes_bind; [apply computes_lift|].
  eapply computes_bind; [apply (computes_value _ v _ Hv)|].
  eapply computes_bind; [apply (computes_value _ v _ Hv)|].
  rewrite (getitem_nth _ t 0%Z) by lia.
  eapply computes_bind; [apply computes_lift|].
  apply computes_ret.
Qed.

Lemma task13_collect_table scheme scs r v :
  scs <> [] -> Forall Spec.well_formed scs -> loaded r = Some v ->
  computes (Task13.collect scheme scs r (Some (Spec.extracted_bid v)))
           (Spec.table scheme scs v).
Proof.
  intros Hne Hwf Hv. unfold Task13.collect, Spec.table.
  apply (computes_for_inM_append _
           (fun t => {| hour := t; bid_MW := v (offer_quantity t);
                        expected_revenue := Spec.reported_hour scheme scs v t;
                        scheme_label := label scheme |})).
  intros data t Ht. apply in_seq in Ht.
  assert (Ht' : (t < 24)%nat) by lia.
  cbn [Task13.local bind].
  rewrite (getitem_nth _ t 0) by (rewrite extracted_bid_length; lia).
  rewrite nth_extracted_bid by lia.
  eapply computes_bind; [apply computes_lift|].
  eapply computes_bind; [apply (computes_hour_total scheme scs r v t _ Hwf Hv Ht')|].
  rewrite div_len_ok by now apply nonempty_length.
  eapply computes_bind; [apply computes_lift|].
  apply computes_ret.
Qed.

Lemma task1_collect_table scheme scs r v :
  scs <> [] -> Forall Spec.well_formed scs -> loaded r = Some v ->
  computes (Task1.collect scheme scs r) (Spec.table scheme scs v).
Proof.
  intros Hne Hwf Hv. unfold Task1.collect, Spec.table.
  apply (computes_for_inM_append _
           (fun t => {| hour := t; bid_MW := v (offer_quantity t);
                        expected_revenue := Spec.reported_hour scheme scs v t;
                        scheme_label := label scheme |})).
  intros data t Ht. apply in_seq in Ht.
  assert (Ht' : (t < 24)%nat) by lia.
  eapply computes_bind; [apply (computes_value _ v _ Hv)|].
  eapply computes_bind; [apply (computes_hour_total scheme scs r v t _ Hwf Hv Ht')|].
  rewrite div_len_ok by now apply nonempty_length.
  eapply computes_bind; [apply computes_lift|].
  apply computes_ret.
Qed.

Lemma computes_reads (r : solved) (v : valuation) (l : list nat) :
  loaded r = Some v ->
  computes (for_inM l (fun _ t => _ <~ value r (offer_quantity t) ;; ret tt)
              tt) tt.
Proof.
  intros Hv. induction l as [|t l IH]; simpl.
  - apply computes_ret.
  - eapply computes_bind; [|exact IH].
    eapply computes_bind; [apply (computes_value _ v _ Hv)|apply computes_ret].
Qed.

End Extraction.

Section ExtractionResults.

Lemma computes_emit (ev : event) : computes (emit ev) tt.
Proof. intros tr. now exists [ev]. Qed.

Lemma computes_offer_quantities (r : solved) (v : valuation) :
  loaded r = Some v ->
  computes (comprehensionM (fun t => value r (offer_quantity t)) (range 24))
           (Spec.extracted_bid v).
Proof.
  intros Hv tr. eexists. now apply comprehensionM_reads.
Qed.

Lemma computes_objective (m : model) (r : solved) (v : valuation) :
  loaded r = Some v -> computes (value_objective m r) (objective m v).
Proof.
  intros Hv tr. exists [Read ExpectedRevenue].
  unfold value_objective, bindM, emit, lift. now rewrite Hv.
Qed.

Lemma task13_extract_table gurobi scheme scs solver m v :
  scs <> [] -> Forall Spec.well_formed scs ->
  Task13.build scheme scs = Ok m ->
  is_optimal (gurobi m) = true -> loaded (gurobi m) = Some v ->
  computes (Task13.solve_and_extract gurobi scheme scs solver false)
           (Frame (Spec.table scheme scs v)).
Proof.
  intros Hne Hwf Hb Ho Hv. unfold Task13.solve_and_extract. rewrite Hb.
  eapply computes_bind; [apply computes_lift|].
  eapply computes_bind; [apply computes_emit|].
  cbv zeta. rewrite Ho.
  eapply computes_bind; [apply (computes_offer_quantities _ v Hv)|].
  eapply computes_bind; [apply (computes_objective _ _ v Hv)|].
  eapply computes_bind; [apply (computes_reads _ v _ Hv)|].
  eapply computes_bind; [apply (task13_collect_table scheme scs _ v Hne Hwf Hv)|].
  apply computes_ret.
Qed.

Lemma task1_extract_table gurobi scheme scs solver m v :
  scs <> [] -> Forall Spec.well_formed scs ->
  Task1.build scheme scs = Ok m ->
  is_optimal (gurobi m) = true -> loaded (gurobi m) = Some v ->
  computes (Task1.solve_and_extract gurobi scheme scs solver)
           (Spec.table scheme scs v).
Proof.
  intros Hne Hwf Hb Ho Hv. unfold Task1.solve_and_extract. rewrite Hb.
  eapply computes_bind; [apply computes_lift|].
  eapply computes_bind; [apply computes_emit|].
  cbv zeta. rewrite Ho.
  eapply computes_bind; [|apply (task1_collect_table scheme scs _ v Hne Hwf Hv)].
  eapply computes_bind; [apply (computes_reads _ v _ Hv)|].
  eapply computes_bind; [apply (computes_objective _ _ v Hv)|].
  apply computes_ret.
Qed.

(** X9. After an optimal termination with [return_only] set,
    [solve_and_extract] calls the solver once, reads the 24 bids and the
    objective, and returns them: the bid vector has 24 entries, the
    profit is the mean over the scenarios of their settlement sums at the
    solution, and when the solution is feasible for the model every bid
    lies within [0, max_capacity]. *)
Theorem optimal_strategy gurobi scheme scs solver m v tr :
  scs <> [] -> Forall Spec.well_formed scs ->
  Task13.build scheme scs = Ok m ->
  is_optimal (gurobi m) = true -> loaded (gurobi m) = Some v ->
  exists offer profit,
    Task13.solve_and_extract gurobi scheme scs solver true tr
    = (tr ++ Spec.fold_events scheme scs, Ok (Strategy offer profit)) /\
    length offer = 24%nat /\
    (forall t, (t < 24)%nat -> nth t offer 0 = v (offer_quantity t)) /\
    profit == Spec.expected_revenue scheme scs v /\
    (feasible m v -> Spec.within max_capacity offer).
Proof.
  intros Hne Hwf Hb Ho Hv.
  exists (Spec.extracted_bid v), (objective m v).
  split; [now apply solve_and_extract_optimal|].
  split; [apply extracted_bid_length|].
  split; [intros t Ht; now apply nth_extracted_bid|].
  split.
  - destruct (build_ok scheme scs Hne Hwf) as (m' & Hm' & Hobj).
    rewrite Hb in Hm'. injection Hm' as <-. apply Hobj.
  - intros Hfeas. split; [apply extracted_bid_length|].
    unfold Spec.extracted_bid. apply Forall_map, Forall_forall.
    intros t Ht. apply in_seq in Ht.
    destruct (feasible_rows scheme scs m v 0 t Hwf Hb Hfeas)
      as (_ & _ & _ & _ & H0 & H1); [now apply nonempty_length|lia|].
    split; assumption.
Qed.

Lemma optimal_strategy_witness :
  exists offer profit,
    Task13.solve_and_extract
      (Samples.oracle (Spec.fixed_bid Samples.selective Samples.population))
      "two" Samples.population Samples.infeasible_run true []
    = ([] ++ Spec.fold_events "two" Samples.population,
       Ok (Strategy offer profit)) /\
    length offer = 24%nat.
Proof.
  destruct (build_ok "two" Samples.population) as (m & Hm & _).
  - discriminate.
  - apply population_well_formed.
  - destruct (optimal_strategy
                (Samples.oracle
                   (Spec.fixed_bid Samples.selective Samples.population))
                "two" Samples.population Samples.infeasible_run m
                (Spec.fixed_bid Samples.selective Samples.population) [])
      as (offer & profit & Hrun & Hlen & _).
    + discriminate.
    + apply population_well_formed.
    + exact Hm.
    + reflexivity.
    + reflexivity.
    + exists offer, profit. split; assumption.
Defined.

(** X10. After an optimal termination the [solve_and_extract] of
    [Task_1.1_1.2_1.3.py] (without [return_only]) and that of [Task_1.py]
    return the same table: 24 rows, row [t] for hour [t] with the
    solution's bid of that hour and the label of the scheme
    ("One-Price" for "one", "Two-Price" for anything else). *)
Theorem optimal_tables_agree gurobi scheme scs solver m v tr :
  scs <> [] -> Forall Spec.well_formed scs ->
  Task13.build scheme scs = Ok m ->
  is_optimal (gurobi m) = true -> loaded (gurobi m) = Some v ->
  exists tr1 tr2 data,
    Task13.solve_and_extract gurobi scheme scs solver false tr
    = (tr ++ tr1, Ok (Frame data)) /\
    Task1.solve_and_extract gurobi scheme scs solver tr
    = (tr ++ tr2, Ok data) /\
    length data = 24%nat /\
    forall t, (t < 24)%nat ->
      exists row,
        nth_error data t = Some row /\
        hour row = t /\ bid_MW row = v (offer_quantity t) /\
        scheme_label row
        = (if (scheme =? "one")%string then "One-Price"
           else "Two-Price")%string.
Proof.
  intros Hne Hwf Hb Ho Hv.
  destruct (task13_extract_table gurobi scheme scs solver m v
              Hne Hwf Hb Ho Hv tr) as (tr1 & H1).
  destruct (task1_extract_table gurobi scheme scs solver m v
              Hne Hwf Hb Ho Hv tr) as (tr2 & H2).
  exists tr1, tr2, (Spec.table scheme scs v).
  split; [exact H1|]. split; [exact H2|].
  split; [reflexivity|].
  intros t Ht. eexists. split.
  - unfold Spec.table. rewrite nth_error_map. unfold range.
    rewrite nth_error_seq.
    destruct (Nat.ltb_spec t 24); [reflexivity|lia].
  - repeat split.
Qed.

Lemma optimal_tables_agree_witness :
  exists tr1 tr2 data,
    Task13.solve_and_extract
      (Samples.oracle (Spec.fixed_bid Samples.selective Samples.population))
      "two" Samples.population Samples.infeasible_run false []
    = ([] ++ tr1, Ok (Frame data)) /\
    Task1.solve_and_extract
      (Samples.oracle (Spec.fixed_bid Samples.selective Samples.population))
      "two" Samples.population Samples.infeasible_run []
    = ([] ++ tr2, Ok data) /\
    length data = 24%nat.
Proof.
  destruct (build_ok "two" Samples.population) as (m & Hm & _).
  - discriminate.
  - apply population_well_formed.
  - destruct (optimal_tables_agree
                (Samples.oracle
                   (Spec.fixed_bid Samples.selective Samples.population))
                "two" Samples.population Samples.infeasible_run m
                (Spec.fixed_bid Samples.selective Samples.population) [])
      as (tr1 & tr2 & data & H1 & H2 & Hlen & _).
    + discriminate.
    + apply population_well_formed.
    + exact Hm.
    + reflexivity.
    + reflexivity.
    + exists tr1, tr2, data. repeat split; assumption.
Defined.

End ExtractionResults.

Section TableRevenue.

Lemma sum_map_sub {A} (f g : A -> Q) (l : list A) :
  Py.sum (map (fun x => f x - g x) l)
  == Py.sum (map f l) - Py.sum (map g l).
Proof.
  induction l as [|x r IH]; simpl.
  - unfold Py.sum. simpl. ring.
  - rewrite !sum_cons, IH. ring.
Qed.

Lemma length_range (n : nat) : length (range n) = n.
Proof. apply length_seq. Qed.

(** For a binary flag the reported revenue is the settlement term less
    the day-ahead income of an hour whose flag is not 1. *)
Lemma reported_revenue_term (scheme : string) (p : Q) (flag : Z)
    (s t : nat) (v : valuation) :
  flag = 0%Z \/ flag = 1%Z ->
  reported_revenue scheme p (v (offer_quantity t)) (v (delta_exc s t))
    (v (delta_def s t)) flag
  == settlement_term scheme p flag s t v
     - (if (flag =? 1)%Z then 0 else p * v (offer_quantity t)).
Proof.
  intros Hflag. unfold reported_revenue, settlement_term.
  destruct (scheme =? "one")%string; destruct Hflag as [-> | ->];
    change (inject_Z 0) with 0; change (inject_Z 1) with 1; simpl; ring.
Qed.

Lemma table_revenue (scheme : string) (scs : list scenario) (v : valuation) :
  Forall Spec.binary scs ->
  Py.sum (map expected_revenue (Spec.table scheme scs v))
  == Spec.expected_revenue scheme scs v
     - Spec.mean (map (Spec.surplus_income (Spec.extracted_bid v)) scs).
Proof.
  intros Hbin. unfold Spec.table. rewrite map_map. cbn [expected_revenue].
  set (n := inject_Z (Z.of_nat (length scs))).
  set (g := fun s t =>
              if (Spec.system_at scs s t =? 1)%Z then 0
              else Spec.price_at scs s t * v (offer_quantity t)).
  rewrite (sum_map_ext _
             (fun t => / n * Py.sum (map (fun s => Spec.term scheme scs s t v
                                                   - g s t)
                                         (range (length scs))))).
  2:{ intros t Ht. apply in_seq in Ht. unfold Spec.reported_hour. fold n.
      unfold Qdiv. rewrite Qmult_comm. apply Qmult_comp; [reflexivity|].
      apply sum_map_ext. intros s Hs. apply in_seq in Hs.
      unfold Spec.term, g. apply reported_revenue_term.
      rewrite Forall_forall in Hbin.
      apply (Hbin (nth s scs Spec.no_scenario)); [apply nth_In|]; lia. }
  rewrite (sum_map_scale (/ n)
             (fun t => Py.sum (map (fun s => Spec.term scheme scs s t v
                                             - g s t)
                                   (range (length scs))))).
  rewrite (sum_swap (fun t s => Spec.term scheme scs s t v - g s t)).
  rewrite (sum_map_ext _
             (fun s => Spec.profit scheme scs s v
                       - Spec.surplus_income (Spec.extracted_bid v)
                           (nth s scs Spec.no_scenario))).
  2:{ intros s _. rewrite sum_map_sub. unfold Spec.profit.
      apply Qplus_comp; [reflexivity|]. apply Qopp_comp.
      unfold Spec.surplus_income. apply sum_map_ext. intros t Ht.
      apply in_seq in Ht. unfold g, Spec.system_at, Spec.price_at.
      now rewrite nth_extracted_bid by lia. }
  rewrite sum_map_sub. unfold Spec.expected_revenue.
  rewrite (mean_map (Spec.surplus_income (Spec.extracted_bid v))).
  rewrite mean_map, length_range. fold n.
  rewrite (map_nth_range (Spec.surplus_income (Spec.extracted_bid v)) scs
             Spec.no_scenario).
  unfold Qdiv. ring.
Qed.

(** X11. After an optimal termination, with binary system flags, the
    hourly revenues of the table [solve_and_extract] returns add up to the
    objective value at the solution less the average over the scenarios
    of the day-ahead income [p_da * bid] of the hours whose flag is 0. *)
Theorem table_revenue_total gurobi scheme scs solver m v tr :
  scs <> [] -> Forall Spec.well_formed scs -> Forall Spec.binary scs ->
  Task13.build scheme scs = Ok m ->
  is_optimal (gurobi m) = true -> loaded (gurobi m) = Some v ->
  exists tr' data,
    Task13.solve_and_extract gurobi scheme scs solver false tr
    = (tr ++ tr', Ok (Frame data)) /\
    Py.sum (map expected_revenue data)
    == objective m v
       - Spec.mean (map (Spec.surplus_income (Spec.extracted_bid v)) scs).
Proof.
  intros Hne Hwf Hbin Hb Ho Hv.
  destruct (task13_extract_table gurobi scheme scs solver m v
              Hne Hwf Hb Ho Hv tr) as (tr' & Hrun).
  exists tr', (Spec.table scheme scs v). split; [exact Hrun|].
  destruct (build_ok scheme scs Hne Hwf) as (m' & Hm' & Hobj).
  rewrite Hb in Hm'. injection Hm' as <-.
  rewrite Hobj. now apply table_revenue.
Qed.

Lemma table_revenue_total_witness :
  exists m tr' data,
    Task13.build "one" Samples.population = Ok m /\
    Task13.solve_and_extract
      (Samples.oracle (Spec.fixed_bid Samples.selective Samples.population))
      "one" Samples.population Samples.infeasible_run false []
    = ([] ++ tr', Ok (Frame data)) /\
    Py.sum (map expected_revenue data)
    == objective m (Spec.fixed_bid Samples.selective Samples.population)
       - Spec.mean
           (map (Spec.surplus_income
                   (Spec.extracted_bid
                      (Spec.fixed_bid Samples.selective Samples.population)))
                Samples.population).
Proof.
  destruct (build_ok "one" Samples.population) as (m & Hm & _).
  - discriminate.
  - apply population_well_formed.
  - destruct (table_revenue_total
                (Samples.oracle
                   (Spec.fixed_bid Samples.selective Samples.population))
                "one" Samples.population Samples.infeasible_run m
                (Spec.fixed_bid Samples.selective Samples.population) [])
      as (tr' & data & Hrun & Hsum).
    + discriminate.
    + apply population_well_formed.
    + apply population_binary.
    + exact Hm.
    + reflexivity.
    + reflexivity.
    + exists m, tr', data. repeat split; assumption.
Defined.

End TableRevenue.

(* ------------------------------------------------------------------ *)
(** ** Cross-validation: a solve that fails *)
(* ------------------------------------------------------------------ *)

Section FailedFold.

(** X12. When the solve on the first fold of a requested size does not end
    optimally, the whole cross-validation run stops there with
    [UnboundLocalError]: the solver has been called once, no summary is
    returned, and the sizes requested after it are not reached. *)
Theorem failed_solve_aborts shuffle gurobi all f rest scheme solver tr :
  (1 <= f)%nat -> (f <= length all)%nat ->
  Permutation (shuffle all) all -> Forall Spec.well_formed all ->
  (forall m, Task13.build scheme (firstn f (shuffle all)) = Ok m ->
             is_optimal (gurobi m) = false) ->
  Task13.run_cross_validation_for_sizes shuffle gurobi all (f :: rest)
    scheme solver tr
  = (tr ++ [Solve scheme (firstn f (shuffle all))],
     Raise UnboundLocalError).
Proof.
  intros Hf HfN Hperm Hwf Hfail.
  assert (Hlen : length (shuffle all) = length all)
    by now apply Permutation_length.
  set (fold := firstn f (shuffle all)).
  assert (Hne : fold <> []).
  { intros Hnil. assert (Hl : length fold = f).
    { unfold fold. rewrite length_firstn. lia. }
    rewrite Hnil in Hl. simpl in Hl. lia. }
  assert (Hfw : Forall Spec.well_formed fold).
  { apply Forall_forall. intros sc Hsc. rewrite Forall_forall in Hwf.
    apply Hwf. apply (Permutation_in _ Hperm).
    now apply In_firstn in Hsc. }
  destruct (build_ok scheme fold Hne Hfw) as (m & Hm & _).
  assert (Hk : exists k, (length all / f)%nat = Datatypes.S k).
  { destruct (length all / f)%nat as [|k] eqn:Hd; [|eauto].
    apply Nat.div_small_iff in Hd; lia. }
  destruct Hk as (k & Hk).
  unfold Task13.run_cross_validation_for_sizes.
  rewrite for_inM_cons. unfold bindM at 1. unfold bindM at 1.
  unfold Task13.cross_validate. unfold bindM at 1. unfold lift at 1.
  unfold Task13.floordiv. destruct f as [|f']; [lia|].
  unfold bindM at 1. rewrite Hk.
  change (range (Datatypes.S k)) with (0%nat :: seq 1 k).
  rewrite for_inM_cons. unfold bindM at 1.
  unfold Task13.fold_step at 1.
  unfold bindM at 1. unfold lift at 1.
  assert (Hget : getitem (Task13.make_folds (shuffle all) (Datatypes.S f')
                            (Datatypes.S k)) 0 = Ok fold).
  { unfold getitem. rewrite make_folds_nth by lia. reflexivity. }
  rewrite Hget. unfold bindM at 1.
  rewrite (task13_non_optimal gurobi scheme fold solver true m tr Hm
             (Hfail m Hm)).
  reflexivity.
Qed.

Lemma failed_solve_aborts_witness :
  Task13.run_cross_validation_for_sizes (fun l => l) Samples.infeasible_run
    Samples.population [2%nat; 1%nat] "two" Samples.infeasible_run []
  = ([] ++ [Solve "two" (firstn 2 Samples.population)],
     Raise UnboundLocalError).
Proof.
  apply (failed_solve_aborts (fun l => l) Samples.infeasible_run
           Samples.population 2 [1%nat] "two" Samples.infeasible_run []).
  - lia.
  - simpl. lia.
  - apply Permutation_refl.
  - apply population_well_formed.
  - intros m _. reflexivity.
Defined.

End FailedFold.

(* ------------------------------------------------------------------ *)
(** ** The risk-adjusted solve *)
(* ------------------------------------------------------------------ *)

Section RiskReport.

Lemma task14_revenue_ok (scheme : string) (beta alpha : Q)
    (scs : list scenario) :
  scs <> [] -> Forall Spec.well_formed scs -> alpha < 1 ->
  exists obj,
    Task14.revenue scheme beta alpha scs = Ok obj /\
    forall v, obj v == Spec.risk_adjusted scheme beta alpha scs v.
Proof.
  intros Hne Hwf Halpha. unfold Task14.revenue.
  rewrite inv_len_ok by now apply nonempty_length.
  rewrite double_sum_ok by exact Hwf.
  rewrite tail_weight_ok by exact Halpha. cbn [bind].
  eexists. split; [reflexivity|].
  intros v. cbv beta. unfold Spec.risk_adjusted.
  rewrite double_sum_profit.
  rewrite (sum_map_scale _ (fun s => v (auxiliary s))).
  unfold Spec.expected_revenue.
  rewrite <- !mean_scale, !length_map, !length_range. reflexivity.
Qed.

Lemma task14_build_inv (scheme : string) (beta alpha : Q)
    (scs : list scenario) (m : model) :
  scs <> [] -> Forall Spec.well_formed scs -> alpha < 1 ->
  Task14.build scheme beta alpha scs = Ok m ->
  bounds m = Task14.template_bounds (length scs) /\
  (forall v, Forall (fun c : constraint => c v) (constraints m) ->
     forall s, (s < length scs)%nat ->
       v (auxiliary s) >= v VaR - Spec.profit scheme scs s v) /\
  (forall v, objective m v == Spec.risk_adjusted scheme beta alpha scs v).
Proof.
  intros Hne Hwf Halpha Hb. unfold Task14.build in Hb.
  rewrite template_constraints_rows in Hb by exact Hwf. cbn [bind] in Hb.
  rewrite Auxiliary_ok in Hb by exact Hwf. cbn [bind] in Hb.
  destruct (task14_revenue_ok scheme beta alpha scs Hne Hwf Halpha)
    as (obj & Hobj & Hval).
  rewrite Hobj in Hb. cbn [bind] in Hb. injection Hb as <-.
  cbn [bounds constraints objective]. split; [reflexivity|]. split.
  - intros v Hcs s Hs. apply Forall_app in Hcs as (_ & Haux).
    rewrite Forall_map, Forall_forall in Haux.
    assert (Hin : In (s, 0%nat) (list_prod (range (length scs)) (range 24)))
      by (apply in_prod_iff; split; apply in_seq; lia).
    specialize (Haux (s, 0%nat) Hin).
    change (v (auxiliary s)
            >= v VaR
               - sum_expr (map (fun t => Spec.term scheme scs s t)
                               (range 24)) v) in Haux.
    now rewrite sum_expr_profit in Haux.
  - exact Hval.
Qed.

Lemma mean_nonneg (l : list Q) :
  Forall (fun x => 0 <= x) l -> 0 <= Spec.mean l.
Proof.
  intros H. unfold Spec.mean, Qdiv. apply Qmult_le_0_compat.
  - induction H as [|x r Hx _ IH]; [apply Qle_refl|].
    rewrite sum_cons. lra.
  - apply Qinv_le_0_compat. change 0 with (inject_Z 0).
    rewrite <- Zle_Qle. lia.
Qed.

Lemma mean_const {A} (c : Q) (l : list A) :
  l <> [] -> Spec.mean (map (fun _ => c) l) == c.
Proof.
  intros Hne. rewrite mean_map, sum_const.
  assert (Hpos : 0 < inject_Z (Z.of_nat (length l))).
  { change 0 with (inject_Z 0). rewrite <- Zlt_Qlt.
    apply nonempty_length in Hne. lia. }
  field. lra.
Qed.

Lemma mean_map_sub {A} (f g : A -> Q) (l : list A) :
  Spec.mean (map (fun x => f x - g x) l)
  == Spec.mean (map f l) - Spec.mean (map g l).
Proof.
  rewrite !mean_map, sum_map_sub. unfold Qdiv. ring.
Qed.

(** X13. At every feasible point of the risk-adjusted model, with
    [0 <= alpha < 1], the CVaR term [VaR - 1/(1-alpha) * mean_s
    auxiliary[s]] is at most the expected revenue; hence, for
    [0 <= beta <= 1], so is the objective. *)
Theorem cvar_at_most_expected (scheme : string) (beta alpha : Q)
    (scs : list scenario) (m : model) (v : valuation) :
  scs <> [] -> Forall Spec.well_formed scs ->
  0 <= alpha -> alpha < 1 ->
  Task14.build scheme beta alpha scs = Ok m -> feasible m v ->
  Spec.cvar alpha scs v <= Spec.expected_revenue scheme scs v /\
  (0 <= beta -> beta <= 1 ->
   objective m v <= Spec.expected_revenue scheme scs v).
Proof.
  intros Hne Hwf Ha0 Ha1 Hb (Hbounds & Hcs).
  destruct (task14_build_inv scheme beta alpha scs m Hne Hwf Ha1 Hb)
    as (Hbd & Haux & Hobj).
  rewrite Hbd in Hbounds. destruct Hbounds as (_ & _ & Hpos).
  specialize (Haux v Hcs).
  set (A := Spec.mean (map (fun s => v (auxiliary s)) (range (length scs)))).
  set (E := Spec.expected_revenue scheme scs v).
  assert (HA0 : 0 <= A).
  { apply mean_nonneg. apply Forall_map, Forall_forall.
    intros s Hs. apply in_seq in Hs. apply Hpos. lia. }
  assert (HAE : v VaR - E <= A).
  { unfold A, E, Spec.expected_revenue.
    rewrite <- (mean_const (v VaR) (range (length scs))).
    - rewrite <- mean_map_sub. apply mean_map_le.
      intros s Hs. apply in_seq in Hs. apply Haux. lia.
    - apply nonempty_length in Hne. unfold range.
      destruct (length scs); [lia|discriminate]. }
  assert (Hw : 1 <= 1 / (1 - alpha)).
  { apply Qle_shift_div_l; lra. }
  assert (HwA : A <= 1 / (1 - alpha) * A).
  { assert (0 <= (1 / (1 - alpha) - 1) * A)
      by (apply Qmult_le_0_compat; lra).
    lra. }
  assert (Hcvar : Spec.cvar alpha scs v <= E).
  { unfold Spec.cvar. fold A. lra. }
  split; [exact Hcvar|].
  intros Hb0 Hb1. rewrite Hobj. unfold Spec.risk_adjusted.
  fold E. fold A. unfold Spec.cvar in Hcvar. fold A in Hcvar.
  assert (0 <= beta * (E - (v VaR - 1 / (1 - alpha) * A)))
    by (apply Qmult_le_0_compat; lra).
  lra.
Qed.

End RiskReport.

Section RiskFeasible.

Lemma risk_point_feasible (scheme : string) (beta alpha : Q)
    (scs : list scenario) (bid : list Q) (var : Q) (m : model) :
  scs <> [] -> Forall Spec.well_formed scs -> alpha < 1 ->
  Spec.within max_capacity bid -> 0 <= var ->
  Task14.build scheme beta alpha scs = Ok m ->
  feasible m (Spec.risk_point scheme bid scs var).
Proof.
  intros Hne Hwf Halpha Hbid Hvar Hb. unfold Task14.build in Hb.
  rewrite template_constraints_rows in Hb by exact Hwf. cbn [bind] in Hb.
  rewrite Auxiliary_ok in Hb by exact Hwf. cbn [bind] in Hb.
  destruct (task14_revenue_ok scheme beta alpha scs Hne Hwf Halpha)
    as (obj & Hobj & _).
  rewrite Hobj in Hb. cbn [bind] in Hb. injection Hb as <-.
  split; cbn [bounds constraints].
  - split; [|split].
    + split.
      * intros t Ht. cbn [Spec.risk_point Spec.fixed_bid].
        destruct Hbid as (Hlen & Hall). rewrite Forall_forall in Hall.
        apply Hall. apply nth_In. lia.
      * intros s t _ _. cbn [Spec.risk_point Spec.fixed_bid].
        unfold Spec.excess, Spec.deficit. split; apply Q.le_max_r.
    + exact Hvar.
    + intros s _. cbn [Spec.risk_point]. apply Q.le_max_r.
  - apply Forall_app. split; [apply Forall_app; split|];
      apply Forall_map, Forall_forall.
    + intros (s, t) _. cbn [fst snd Spec.risk_point Spec.fixed_bid].
      reflexivity.
    + intros (s, t) _. unfold delta_decomp_rule.
      cbn [Spec.risk_point Spec.fixed_bid].
      destruct (excess_deficit_cases (Spec.wind_at scs s t) (nth t bid 0))
        as [(_ & -> & ->)|(_ & -> & ->)]; ring.
    + intros (s, t) _.
      change (Spec.risk_point scheme bid scs var (auxiliary s)
              >= Spec.risk_point scheme bid scs var VaR
                 - sum_expr (map (fun t => Spec.term scheme scs s t)
                                 (range 24))
                     (Spec.risk_point scheme bid scs var)).
      rewrite sum_expr_profit. cbn [Spec.risk_point].
      change (Spec.profit scheme scs s (Spec.risk_point scheme bid scs var))
        with (Spec.profit scheme scs s (Spec.fixed_bid bid scs)).
      apply Q.le_max_l.
Qed.

Lemma task14_build_ok (scheme : string) (beta alpha : Q)
    (scs : list scenario) :
  scs <> [] -> Forall Spec.well_formed scs -> alpha < 1 ->
  exists m, Task14.build scheme beta alpha scs = Ok m.
Proof.
  intros Hne Hwf Halpha. unfold Task14.build.
  rewrite template_constraints_rows by exact Hwf. cbn [bind].
  rewrite Auxiliary_ok by exact Hwf. cbn [bind].
  destruct (task14_revenue_ok scheme beta alpha scs Hne Hwf Halpha)
    as (obj & -> & _).
  cbn [bind]. eauto.
Qed.

(** X14. The risk-adjusted model of a non-empty sample of scenarios with
    their 24 hourly entries is built whenever [alpha < 1], and it is
    feasible: every bid vector within [0, max_capacity] and every
    threshold [VaR >= 0] extend to a point satisfying the bounds, the two
    imbalance families and the [Auxiliary] family. *)
Theorem risk_model_feasible (scheme : string) (beta alpha : Q)
    (scs : list scenario) (bid : list Q) (var : Q) :
  scs <> [] -> Forall Spec.well_formed scs -> alpha < 1 ->
  Spec.within max_capacity bid -> 0 <= var ->
  exists m,
    Task14.build scheme beta alpha scs = Ok m /\
    feasible m (Spec.risk_point scheme bid scs var).
Proof.
  intros Hne Hwf Halpha Hbid Hvar.
  destruct (task14_build_ok scheme beta alpha scs Hne Hwf Halpha)
    as (m & Hm).
  exists m. split; [exact Hm|].
  now apply risk_point_feasible with (beta := beta) (alpha := alpha).
Qed.

Lemma risk_model_feasible_witness :
  exists m,
    Task14.build "two" 0.5 Task14.default_alpha Samples.population = Ok m /\
    feasible m (Spec.risk_point "two" Samples.selective Samples.population
                  1000).
Proof.
  apply risk_model_feasible.
  - discriminate.
  - apply population_well_formed.
  - reflexivity.
  - apply selective_within_capacity.
  - discriminate.
Defined.

Lemma cvar_at_most_expected_witness :
  Spec.cvar Task14.default_alpha Samples.population
    (Spec.risk_point "two" Samples.selective Samples.population 1000)
  <= Spec.expected_revenue "two" Samples.population
       (Spec.risk_point "two" Samples.selective Samples.population 1000).
Proof.
  destruct (task14_build_ok "two" 0.5 Task14.default_alpha
              Samples.population) as (m & Hm).
  - discriminate.
  - apply population_well_formed.
  - reflexivity.
  - destruct (cvar_at_most_expected "two" 0.5 Task14.default_alpha
                Samples.population m
                (Spec.risk_point "two" Samples.selective Samples.population
                   1000)) as (H & _).
    + discriminate.
    + apply population_well_formed.
    + discriminate.
    + reflexivity.
    + exact Hm.
    + apply risk_point_feasible with (beta := 0.5)
                                     (alpha := Task14.default_alpha).
      * discriminate.
      * apply population_well_formed.
      * reflexivity.
      * apply selective_within_capacity.
      * discriminate.
      * exact Hm.
    + exact H.
Defined.

End RiskFeasible.

Section RiskExtraction.

Variables (scheme : string) (scs : list scenario) (r : solved)
          (v : valuation).
Hypothesis nonempty : scs <> [].
Hypothesis hours : Forall Spec.well_formed scs.
Hypothesis values : loaded r = Some v.

Lemma computes_cvar_value (alpha : Q) :
  alpha < 1 ->
  exists c,
    computes (Task14.cvar_value alpha scs r) c /\
    c == Spec.cvar alpha scs v.
Proof.
  intros Halpha. eexists. split.
  - unfold Task14.cvar_value.
    eapply computes_bind; [apply (computes_value _ v _ values)|].
    rewrite tail_weight_ok by exact Halpha.
    eapply computes_bind; [apply computes_lift|].
    eapply computes_bind; [|apply computes_ret].
    apply (computes_for_inM_sum _
             (fun s => 1 / inject_Z (Z.of_nat (length scs))
                       * v (auxiliary s))).
    intros acc s _. rewrite inv_len_ok by now apply nonempty_length.
    eapply computes_bind; [apply computes_lift|].
    eapply computes_bind; [apply (computes_value _ v _ values)|].
    apply computes_ret.
  - unfold Spec.cvar.
    change (fold_left Qplus ?l 0) with (Py.sum l).
    rewrite (sum_map_scale _ (fun s => v (auxiliary s))).
    rewrite <- mean_scale, length_map, length_range. ring.
Qed.

Lemma computes_term_value (s t : nat) :
  (s < length scs)%nat -> (t < 24)%nat ->
  computes (Task14.term_value scheme scs r s t)
           (Spec.term scheme scs s t v).
Proof.
  intros Hs Ht. unfold Task14.term_value.
  destruct (well_formed_nth scs s hours Hs) as (_ & Hp & Hy).
  unfold has_hours in Hp, Hy.
  rewrite getitem_scenario by lia.
  eapply computes_bind; [apply computes_lift|].
  rewrite (getitem_nth _ t 0) by lia.
  eapply computes_bind; [apply computes_lift|].
  eapply computes_bind; [apply (computes_value _ v _ values)|].
  eapply computes_bind; [apply (computes_value _ v _ values)|].
  eapply computes_bind; [apply (computes_value _ v _ values)|].
  rewrite (getitem_nth _ t 0%Z) by lia.
  eapply computes_bind; [apply computes_lift|].
  eapply computes_bind; [apply (computes_value _ v _ values)|].
  eapply computes_bind; [apply (computes_value _ v _ values)|].
  apply computes_ret.
Qed.

Lemma computes_expected_revenue_value :
  exists e,
    computes (Task14.expected_revenue_value scheme scs r) e /\
    e == Spec.expected_revenue scheme scs v.
Proof.
  eexists. split.
  - unfold Task14.expected_revenue_value.
    rewrite inv_len_ok by now apply nonempty_length.
    eapply computes_bind; [apply computes_lift|].
    eapply computes_bind; [|apply computes_ret].
    apply (computes_for_inM_sum _ (fun s => Spec.profit scheme scs s v)).
    intros acc s Hs. apply in_seq in Hs.
    eapply computes_bind; [|apply computes_ret].
    unfold Spec.profit, Py.sum.
    apply (computes_for_inM_sum _ (fun t => Spec.term scheme scs s t v)).
    intros acc' t Ht. apply in_seq in Ht.
    eapply computes_bind; [apply computes_term_value; lia|].
    apply computes_ret.
  - unfold Spec.expected_revenue.
    change (fold_left Qplus ?l 0) with (Py.sum l).
    rewrite <- mean_scale, length_map, length_range. reflexivity.
Qed.

Lemma computes_profits_loop :
  computes (Task14.profits_loop scheme scs r)
           (map (Spec.scenario_profit scheme scs v) (range (length scs))).
Proof.
  unfold Task14.profits_loop.
  apply (computes_for_inM_append _ (Spec.scenario_profit scheme scs v)).
  intros acc s Hs. apply in_seq in Hs.
  eapply computes_bind; [|apply computes_ret].
  unfold Spec.scenario_profit, Py.sum.
  apply (computes_for_inM_sum _
           (fun t => Task14.scenario_hour scheme (Spec.price_at scs s t)
                       (v (offer_quantity t)) (v (delta_exc s t))
                       (v (delta_def s t)) (Spec.system_at scs s t))).
  intros acc' t Ht. apply in_seq in Ht.
  destruct (well_formed_nth scs s hours) as (_ & Hp & Hy); [lia|].
  unfold has_hours in Hp, Hy.
  rewrite getitem_scenario by lia.
  eapply computes_bind; [apply computes_lift|].
  rewrite (getitem_nth _ t 0) by lia.
  eapply computes_bind; [apply computes_lift|].
  eapply computes_bind; [apply (computes_value _ v _ values)|].
  eapply computes_bind; [apply (computes_value _ v _ values)|].
  eapply computes_bind; [apply (computes_value _ v _ values)|].
  rewrite (getitem_nth _ t 0%Z) by lia.
  eapply computes_bind; [apply computes_lift|].
  apply computes_ret.
Qed.

Lemma scenario_profit_settlement (s : nat) :
  Forall Spec.binary scs -> (s < length scs)%nat ->
  Spec.scenario_profit scheme scs v s == Spec.profit scheme scs s v.
Proof.
  intros Hbin Hs. unfold Spec.scenario_profit, Spec.profit.
  apply sum_map_ext. intros t Ht. apply in_seq in Ht.
  unfold Spec.term, Task14.scenario_hour, settlement_term.
  rewrite Forall_forall in Hbin.
  destruct (Hbin (nth s scs Spec.no_scenario)) with (t := t) as [H|H];
    [now apply nth_In|lia| |];
    unfold Spec.system_at; rewrite H;
    destruct (scheme =? "one")%string;
    change (inject_Z 0) with 0; change (inject_Z 1) with 1; simpl; ring.
Qed.

End RiskExtraction.

Section RiskReportResults.

(** X15. After an optimal termination of the risk-adjusted solve, without
    [return_only], [solve_and_extract] returns the table of the 24 hours,
    the expected revenue (the mean of the scenarios' settlement sums at
    the solution), the CVaR term and one profit per scenario; the
    objective value is [(1-beta) * expected revenue + beta * CVaR], and
    with binary system flags the expected revenue is the mean of the
    returned profits. *)
Theorem risk_report gurobi scheme beta scs solver alpha m v tr :
  scs <> [] -> Forall Spec.well_formed scs -> alpha < 1 ->
  Task14.build scheme beta alpha scs = Ok m ->
  is_optimal (gurobi m) = true -> loaded (gurobi m) = Some v ->
  exists tr' data er cv profits,
    Task14.solve_and_extract gurobi scheme beta scs solver false alpha tr
    = (tr ++ tr', Ok (Task14.Report data er cv profits)) /\
    length data = 24%nat /\
    er == Spec.expected_revenue scheme scs v /\
    cv == Spec.cvar alpha scs v /\
    objective m v == (1 - beta) * er + beta * cv /\
    length profits = length scs /\
    (Forall Spec.binary scs -> er == Spec.mean profits).
Proof.
  intros Hne Hwf Halpha Hb Ho Hv.
  destruct (computes_cvar_value scs (gurobi m) v Hne Hv alpha Halpha)
    as (cv & Hcv & Ecv).
  destruct (computes_expected_revenue_value scheme scs (gurobi m) v
              Hne Hwf Hv) as (er & Her & Eer).
  assert (Hrun : computes
            (Task14.solve_and_extract gurobi scheme beta scs solver false
               alpha)
            (Task14.Report (Spec.table scheme scs v) er cv
               (map (Spec.scenario_profit scheme scs v)
                    (range (length scs))))).
  { unfold Task14.solve_and_extract. rewrite Hb.
    eapply computes_bind; [apply computes_lift|].
    eapply computes_bind; [apply computes_emit|].
    cbv zeta. rewrite Ho.
    eapply computes_bind.
    - eapply computes_bind; [apply (computes_offer_quantities _ v Hv)|].
      eapply computes_bind; [apply (computes_objective _ _ v Hv)|].
      apply computes_ret.
    - cbv iota beta. cbn [option_map fst].
      eapply computes_bind;
        [apply (task13_collect_table scheme scs _ v Hne Hwf Hv)|].
      eapply computes_bind; [exact Hcv|].
      eapply computes_bind; [exact Her|].
      eapply computes_bind;
        [apply (computes_profits_loop scheme scs _ v Hwf Hv)|].
      apply computes_ret. }
  destruct (Hrun tr) as (tr' & Htr).
  exists tr', (Spec.table scheme scs v), er, cv,
    (map (Spec.scenario_profit scheme scs v) (range (length scs))).
  split; [exact Htr|]. split; [reflexivity|].
  split; [exact Eer|]. split; [exact Ecv|]. split; [|split].
  - destruct (task14_build_inv scheme beta alpha scs m Hne Hwf Halpha Hb)
      as (_ & _ & Hobj).
    rewrite Hobj, Eer, Ecv. unfold Spec.risk_adjusted, Spec.cvar.
    reflexivity.
  - now rewrite length_map, length_range.
  - intros Hbin. rewrite Eer. unfold Spec.expected_revenue.
    apply mean_map_ext. intros s Hs. apply in_seq in Hs.
    symmetry. apply scenario_profit_settlement; auto. lia.
Qed.

Lemma risk_report_witness :
  exists tr' data er cv profits,
    Task14.solve_and_extract
      (Samples.oracle
         (Spec.risk_point "two" Samples.selective Samples.population 1000))
      "two" 0.5 Samples.population Samples.infeasible_run false
      Task14.default_alpha []
    = ([] ++ tr', Ok (Task14.Report data er cv profits)) /\
    length profits = length Samples.population.
Proof.
  destruct (task14_build_ok "two" 0.5 Task14.default_alpha
              Samples.population) as (m & Hm).
  - discriminate.
  - apply population_well_formed.
  - reflexivity.
  - destruct (risk_report
                (Samples.oracle
                   (Spec.risk_point "two" Samples.selective
                      Samples.population 1000))
                "two" 0.5 Samples.population Samples.infeasible_run
                Task14.default_alpha m
                (Spec.risk_point "two" Samples.selective Samples.population
                   1000) [])
      as (tr' & data & er & cv & profits & Hrun & _ & _ & _ & _ & Hlen & _).
    + discriminate.
    + apply population_well_formed.
    + reflexivity.
    + exact Hm.
    + reflexivity.
    + reflexivity.
    + exists tr', data, er, cv, profits. split; assumption.
Defined.

(** X16. The risk-adjusted [solve_and_extract] on its two other paths:
    after a non-optimal termination it stops with [UnboundLocalError]
    right after the solve, whatever [return_only]; after an optimal one
    with [return_only] set it returns the 24 bids read from the model and
    the objective value, which is the risk-adjusted objective at the
    solution. *)
Theorem risk_solve_paths gurobi scheme beta scs solver alpha m tr :
  scs <> [] -> Forall Spec.well_formed scs -> alpha < 1 ->
  Task14.build scheme beta alpha scs = Ok m ->
  (is_optimal (gurobi m) = false ->
   forall return_only,
     Task14.solve_and_extract gurobi scheme beta scs solver return_only
       alpha tr
     = (tr ++ [Solve scheme scs], Raise UnboundLocalError)) /\
  (is_optimal (gurobi m) = true ->
   forall v, loaded (gurobi m) = Some v ->
     Task14.solve_and_extract gurobi scheme beta scs solver true alpha tr
     = (tr ++ Spec.fold_events scheme scs,
        Ok (Task14.Strategy (Spec.extracted_bid v) (objective m v))) /\
     objective m v == Spec.risk_adjusted scheme beta alpha scs v).
Proof.
  intros Hne Hwf Halpha Hb. split.
  - intros Hn return_only. unfold Task14.solve_and_extract.
    rewrite Hb. unfold bindM at 1. unfold lift at 1.
    unfold bindM at 1. unfold emit at 1. rewrite Hn.
    unfold bindM at 1. unfold ret at 1. cbn [option_map].
    unfold Task14.collect, Task13.collect.
    rewrite range_24, for_inM_cons. reflexivity.
  - intros Ho v Hv. split.
    + unfold Task14.solve_and_extract.
      rewrite Hb. unfold bindM at 1. unfold lift at 1.
      unfold bindM at 1. unfold emit at 1. rewrite Ho.
      unfold bindM at 1. unfold bindM at 1.
      rewrite (comprehensionM_reads _ v) by exact Hv.
      unfold bindM at 1. unfold value_objective.
      unfold bindM at 1, emit at 1, lift at 1. rewrite Hv.
      unfold ret, Spec.fold_events, Spec.extracted_bid.
      rewrite <- !app_assoc. reflexivity.
    + destruct (task14_build_inv scheme beta alpha scs m Hne Hwf Halpha Hb)
        as (_ & _ & Hobj).
      apply Hobj.
Qed.

Lemma risk_solve_paths_witness :
  Task14.solve_and_extract Samples.infeasible_run "one" 0.5
    Samples.population Samples.infeasible_run true Task14.default_alpha []
  = ([] ++ [Solve "one" Samples.population], Raise UnboundLocalError).
Proof.
  destruct (task14_build_ok "one" 0.5 Task14.default_alpha
              Samples.population) as (m & Hm).
  - discriminate.
  - apply population_well_formed.
  - reflexivity.
  - destruct (risk_solve_paths Samples.infeasible_run "one" 0.5
                Samples.population Samples.infeasible_run
                Task14.default_alpha m []) as (H & _).
    + discriminate.
    + apply population_well_formed.
    + reflexivity.
    + exact Hm.
    + apply H. reflexivity.
Defined.

End RiskReportResults.

(* ------------------------------------------------------------------ *)
(** ** From the sheets to the scenarios *)
(* ------------------------------------------------------------------ *)

Section Ingest.

Lemma product_In ps ws ks cap sc :
  In sc (product ps ws ks cap) ->
  exists p w k, In p ps /\ In w ws /\ In k ks /\ sc = combine_one cap p w k.
Proof.
  unfold product. intros H.
  apply in_flat_map in H as (p & Hp & H).
  apply in_flat_map in H as (w & Hw & H).
  apply in_map_iff in H as (k & <- & Hk).
  exists p, w, k. auto.
Qed.

Lemma binary_flags (k : list Z) (t : nat) :
  Forall (fun f => f = 0%Z \/ f = 1%Z) k -> (t < length k)%nat ->
  nth t k 0%Z = 0%Z \/ nth t k 0%Z = 1%Z.
Proof.
  intros H Ht. rewrite Forall_forall in H. apply H. now apply nth_In.
Qed.

Lemma product_invariants ps ws ks cap sc :
  Forall (fun p => length p = 24%nat) ps ->
  Forall (fun w => length w = 24%nat) ws ->
  Forall (fun k => length k = 24%nat /\
                   Forall (fun f => f = 0%Z \/ f = 1%Z) k) ks ->
  In sc (product ps ws ks cap) ->
  Spec.well_formed sc /\ Spec.binary sc /\ length (price_bal sc) = 24%nat.
Proof.
  intros Hps Hws Hks Hin.
  apply product_In in Hin as (p & w & k & Hp & Hw & Hk & ->).
  rewrite Forall_forall in Hps, Hws, Hks.
  specialize (Hps p Hp). specialize (Hws w Hw).
  destruct (Hks k Hk) as (Hlen & Hbin).
  split; [|split].
  - unfold Spec.well_formed, has_hours. cbn [wind price_da system combine_one].
    rewrite length_map. lia.
  - intros t Ht. cbn [system combine_one]. apply binary_flags; [exact Hbin|lia].
  - reflexivity.
Qed.

(** X17. From price, wind and system-state series of 24 entries each, the
    flags being 0 or 1, the generator produces only scenarios with 24
    entries of wind, day-ahead price, balancing price and system flag and
    with binary flags; so, when any are produced, [evaluate_profit] scores
    every bid vector of 24 entries on them without raising. *)
Theorem generated_scenarios_usable ps ws ks cap :
  Forall (fun p => length p = 24%nat) ps ->
  Forall (fun w => length w = 24%nat) ws ->
  Forall (fun k => length k = 24%nat /\
                   Forall (fun f => f = 0%Z \/ f = 1%Z) k) ks ->
  exists scs,
    create_combined_scenarios ps ws ks cap = Ok scs /\
    Forall (fun sc => Spec.well_formed sc /\ Spec.binary sc /\
                      length (price_bal sc) = 24%nat) scs /\
    forall bid scheme,
      length bid = 24%nat -> scs <> [] ->
      exists v, Task13.evaluate_profit bid scs scheme = Ok v.
Proof.
  intros Hps Hws Hks. exists (product ps ws ks cap).
  assert (Hinv : Forall (fun sc => Spec.well_formed sc /\ Spec.binary sc /\
                                   length (price_bal sc) = 24%nat)
                   (product ps ws ks cap)).
  { apply Forall_forall. intros sc Hsc.
    now apply (product_invariants ps ws ks cap). }
  split; [|split; [exact Hinv|]].
  - apply create_combined_scenarios_ok.
    + eapply Forall_impl; [|exact Hps]. intros p Hp. cbv beta in Hp.
      unfold has_hours. lia.
    + eapply Forall_impl; [|exact Hks]. intros k (Hk & _).
      unfold has_hours. lia.
  - intros bid scheme Hbid Hne. eexists.
    apply evaluate_profit_mean; [lia|exact Hne|].
    eapply Forall_impl; [|exact Hinv]. intros sc (H & _). exact H.
Qed.

Lemma generated_scenarios_usable_witness :
  exists scs,
    create_combined_scenarios [Samples.flat 50] [Samples.fifth]
      [Samples.alternating] default_wind_capacity = Ok scs /\
    Forall (fun sc => Spec.well_formed sc /\ Spec.binary sc /\
                      length (price_bal sc) = 24%nat) scs.
Proof.
  destruct (generated_scenarios_usable [Samples.flat 50] [Samples.fifth]
              [Samples.alternating] default_wind_capacity)
    as (scs & Hrun & Hinv & _).
  - repeat constructor.
  - repeat constructor.
  - constructor; [|constructor]. split; [reflexivity|].
    unfold Samples.alternating. simpl.
    repeat (apply Forall_cons; [auto|]). apply Forall_nil.
  - exists scs. split; assumption.
Defined.

Lemma fold_min_same (c : nat) (l : list nat) :
  Forall (fun n => n = c) l -> fold_left Nat.min l c = c.
Proof.
  induction 1 as [|n r -> _ IH]; simpl; [reflexivity|].
  now rewrite Nat.min_id.
Qed.

Lemma shortest_rectangular (rows : list (list Q)) (c : nat) :
  rows <> [] -> Forall (fun r => length r = c) rows ->
  shortest rows = c.
Proof.
  intros Hne Hall. destruct rows as [|r rs]; [congruence|].
  apply Forall_cons_iff in Hall as (Hr & Hrs). simpl. rewrite Hr.
  apply fold_min_same. apply Forall_map.
  eapply Forall_impl; [|exact Hrs]. auto.
Qed.

Lemma tl_length {A} (r : list A) (c : nat) :
  length r = Datatypes.S c -> length (tl r) = c.
Proof. destruct r; simpl; [discriminate|]. intros H. now injection H. Qed.

Lemma read_data_layout (R C : nat) (sheet : list (list Q)) :
  Spec.rectangular R (Datatypes.S C) sheet -> (1 <= R)%nat ->
  read_data sheet
  = map (fun j => map (fun r => nth (Datatypes.S j) r 0) sheet) (range C).
Proof.
  intros (Hlen & Hall) HR. unfold read_data, zip_star.
  rewrite (shortest_rectangular _ C).
  - apply map_ext. intros j. rewrite map_map. apply map_ext_in.
    intros r _. destruct r; [now destruct j|reflexivity].
  - destruct sheet; [simpl in Hlen; lia|discriminate].
  - apply Forall_map. eapply Forall_impl; [|exact Hall].
    intros r Hr. now apply tl_length.
Qed.

(** X18. [read_data] on a sheet of [R >= 1] rows of [1 + C] values drops
    the first column and transposes: it returns [C] lists of [R] values,
    the [i]-th value of list [j] being the value of row [i] in column
    [j + 1]; on a sheet without rows it returns no list. *)
Theorem read_data_columns (R C : nat) (sheet : list (list Q)) :
  Spec.rectangular R (Datatypes.S C) sheet -> (1 <= R)%nat ->
  length (read_data sheet) = C /\
  Forall (fun col => length col = R) (read_data sheet) /\
  (forall i j, (i < R)%nat -> (j < C)%nat ->
     nth i (nth j (read_data sheet) []) 0
     = nth (Datatypes.S j) (nth i sheet []) 0) /\
  read_data [] = [].
Proof.
  intros Hrect HR. rewrite (read_data_layout R C sheet Hrect HR).
  destruct Hrect as (Hlen & Hall). split; [|split; [|split]].
  - now rewrite length_map, length_range.
  - apply Forall_map, Forall_forall. intros j _. now rewrite length_map.
  - intros i j Hi Hj.
    rewrite (nth_indep _ [] (map (fun r => nth (Datatypes.S 0) r 0) sheet))
      by (rewrite length_map, length_range; lia).
    rewrite (map_nth (fun j => map (fun r => nth (Datatypes.S j) r 0) sheet)
               (range C) 0%nat j).
    unfold range. rewrite seq_nth by lia. simpl plus.
    rewrite (nth_indep _ 0 (nth (Datatypes.S j) [] 0))
      by (rewrite length_map; lia).
    apply (map_nth (fun r => nth (Datatypes.S j) r 0)).
  - reflexivity.
Qed.

Lemma read_data_columns_witness :
  length (read_data [[0; 1; 2]; [1; 3; 4]]) = 2%nat.
Proof.
  destruct (read_data_columns 2 2 [[0; 1; 2]; [1; 3; 4]]) as (H & _).
  - split; [reflexivity|]. repeat constructor.
  - lia.
  - exact H.
Defined.

End Ingest.

Section Main.

Lemma read_data_shape (R C : nat) (sheet : list (list Q)) :
  Spec.rectangular R (Datatypes.S C) sheet -> (1 <= R)%nat ->
  length (read_data sheet) = C /\
  Forall (fun col => length col = R) (read_data sheet).
Proof.
  intros Hrect HR. rewrite (read_data_layout R C sheet Hrect HR).
  destruct Hrect as (Hlen & Hall). split.
  - now rewrite length_map, length_range.
  - apply Forall_map, Forall_forall. intros j _. now rewrite length_map.
Qed.

Lemma create_raises_short_price ps ws ks cap :
  ws <> [] -> ks <> [] ->
  Exists (fun p => (length p < 24)%nat) ps ->
  create_combined_scenarios ps ws ks cap = Raise IndexError.
Proof.
  intros Hws Hks Hex. apply raises_index.
  - apply Exists_exists in Hex as (p & Hin & Hshort).
    unfold create_combined_scenarios.
    apply (for_in_raises _ ps p Hin). intros acc.
    destruct ws as [|w ws']; [congruence|].
    destruct ks as [|k ks']; [congruence|]. simpl.
    pose proof (append_scenario_short cap p w acc k (or_introl Hshort)) as Hr.
    destruct (append_scenario cap p w acc k); [destruct Hr|exact I].
  - intros e. apply create_combined_scenarios_exn.
Qed.

(** X19. [main] on a wind sheet and a price sheet of 24 rows, with [1 + W]
    and [1 + P] values per row, and a binomial draw of the shape numpy
    gives it: it returns [P * W * 4] scenarios, each with its 24 hourly
    entries and binary flags.  With a price sheet of fewer than 24 rows
    (and at least one price and one wind column) it stops with
    [IndexError]. *)
Theorem main_scenarios (W P : nat) (wind_sheet price_sheet : list (list Q))
    (binomial : nat -> nat -> list (list Z)) :
  Spec.binomial_shape binomial ->
  (Spec.rectangular 24 (Datatypes.S W) wind_sheet ->
   Spec.rectangular 24 (Datatypes.S P) price_sheet ->
   exists scs,
     main wind_sheet price_sheet binomial = Ok scs /\
     length scs = (P * W * 4)%nat /\
     Forall (fun sc => Spec.well_formed sc /\ Spec.binary sc) scs) /\
  (forall R R',
     (1 <= R)%nat -> (R < 24)%nat -> (1 <= R')%nat ->
     (1 <= W)%nat -> (1 <= P)%nat ->
     Spec.rectangular R' (Datatypes.S W) wind_sheet ->
     Spec.rectangular R (Datatypes.S P) price_sheet ->
     main wind_sheet price_sheet binomial = Raise IndexError).
Proof.
  intros Hdraw. destruct (Hdraw 4%nat 24%nat) as (Hk & Hrows). split.
  - intros Hwind Hprice. unfold main, generate_power_scenarios.
    destruct (read_data_shape 24 W wind_sheet Hwind) as (HW & Hwcols); [lia|].
    destruct (read_data_shape 24 P price_sheet Hprice) as (HP & Hpcols);
      [lia|].
    exists (product (read_data price_sheet) (read_data wind_sheet)
              (binomial 4%nat 24%nat) default_wind_capacity).
    split; [|split].
    + apply create_combined_scenarios_ok.
      * eapply Forall_impl; [|exact Hpcols]. intros p Hp. cbv beta in Hp.
        unfold has_hours. lia.
      * eapply Forall_impl; [|exact Hrows]. intros k (Hlen & _).
        unfold has_hours. lia.
    + rewrite product_length, HW, HP, Hk. lia.
    + apply Forall_forall. intros sc Hsc.
      destruct (product_invariants _ _ _ _ sc Hpcols Hwcols Hrows Hsc)
        as (H1 & H2 & _).
      split; assumption.
  - intros R R' HR HR24 HR' HW1 HP1 Hwind Hprice.
    unfold main, generate_power_scenarios.
    destruct (read_data_shape R' W wind_sheet Hwind HR') as (HW & _).
    destruct (read_data_shape R P price_sheet Hprice HR) as (HP & Hpcols).
    apply create_raises_short_price.
    + intros Hnil. rewrite Hnil in HW. simpl in HW. lia.
    + intros Hnil. rewrite Hnil in Hk. simpl in Hk. lia.
    + destruct (read_data price_sheet) as [|p rest]; [simpl in HP; lia|].
      apply Exists_cons_hd. apply Forall_cons_iff in Hpcols as (Hp & _).
      lia.
Qed.

Lemma main_scenarios_witness :
  exists scs,
    main (repeat [0; 0.2; 0.4] 24) (repeat [0; 50] 24)
      (fun n k => repeat (repeat 1%Z k) n) = Ok scs /\
    length scs = (1 * 2 * 4)%nat.
Proof.
  destruct (main_scenarios 2 1 (repeat [0; 0.2; 0.4] 24) (repeat [0; 50] 24)
              (fun n k => repeat (repeat 1%Z k) n)) as (H & _).
  - intros n k. split; [apply repeat_length|].
    apply Forall_forall. intros r Hr. apply repeat_spec in Hr. subst r.
    split; [apply repeat_length|].
    apply Forall_forall. intros f Hf. apply repeat_spec in Hf. now right.
  - destruct H as (scs & Hrun & Hlen & _).
    + split; [reflexivity|]. apply Forall_forall. intros r Hr.
      apply repeat_spec in Hr. now subst r.
    + split; [reflexivity|]. apply Forall_forall. intros r Hr.
      apply repeat_spec in Hr. now subst r.
    + exists scs. split; assumption.
Defined.

End Main.

(* ------------------------------------------------------------------ *)
(** ** The best one-price bid *)
(* ------------------------------------------------------------------ *)

Section AllOrNothing.

Lemma sum_map_nonneg {A} (f : A -> Q) (l : list A) :
  (forall x, In x l -> 0 <= f x) -> 0 <= Py.sum (map f l).
Proof.
  intros H. rewrite <- (sum_map_zero l). now apply sum_map_le.
Qed.

Lemma nth_all_or_nothing (cap : Q) (scs : list scenario) (t : nat) :
  (t < 24)%nat ->
  nth t (Spec.all_or_nothing cap scs) 0
  = if Qle_bool 0 (Spec.hour_slope scs t) then cap else 0.
Proof.
  intros Ht. unfold Spec.all_or_nothing.
  do 24 (destruct t as [|t]; [reflexivity|]). lia.
Qed.

Lemma all_or_nothing_within (cap : Q) (scs : list scenario) :
  0 <= cap -> Spec.within cap (Spec.all_or_nothing cap scs).
Proof.
  intros Hcap. split; [reflexivity|].
  unfold Spec.all_or_nothing. apply Forall_map, Forall_forall.
  intros t _. destruct (Qle_bool 0 (Spec.hour_slope scs t)); lra.
Qed.

Lemma one_price_linear_gain (cap : Q) (bid : list Q) (scs : list scenario) :
  Spec.within cap bid ->
  Py.sum (map (Spec.one_price_linear bid) scs)
  <= Py.sum (map (Spec.one_price_linear (Spec.all_or_nothing cap scs)) scs).
Proof.
  intros Hbid.
  set (best := Spec.all_or_nothing cap scs).
  set (c := fun (sc : scenario) (t : nat) =>
              nth t (price_da sc) 0
              * (1 - Spec.one_price_multiplier (nth t (system sc) 0%Z))).
  assert (Hdiff : forall sc,
            Spec.one_price_linear best sc - Spec.one_price_linear bid sc
            == Py.sum (map (fun t => (nth t best 0 - nth t bid 0) * c sc t)
                           (range 24))).
  { intros sc. unfold Spec.one_price_linear. rewrite <- sum_map_sub.
    apply sum_map_ext. intros t _. unfold c. cbv zeta. ring. }
  assert (Hgain : 0 <= Py.sum (map (fun sc => Spec.one_price_linear best sc
                                              - Spec.one_price_linear bid sc)
                                   scs)).
  { rewrite (sum_map_ext _
               (fun sc => Py.sum (map (fun t => (nth t best 0 - nth t bid 0)
                                                * c sc t) (range 24))))
      by (intros sc _; apply Hdiff).
    rewrite (sum_swap (fun sc t => (nth t best 0 - nth t bid 0) * c sc t)).
    apply sum_map_nonneg. intros t Ht. apply in_seq in Ht.
    rewrite (sum_map_scale (nth t best 0 - nth t bid 0)
               (fun sc => c sc t)).
    change (Py.sum (map (fun sc => c sc t) scs))
      with (Spec.hour_slope scs t).
    destruct (within_nth cap bid t Hbid) as (H0 & H1); [lia|].
    unfold best. rewrite nth_all_or_nothing by lia.
    destruct (Qle_bool 0 (Spec.hour_slope scs t)) eqn:Hs.
    - apply Qle_bool_iff in Hs. apply Qmult_le_0_compat; lra.
    - assert (Hneg : Spec.hour_slope scs t < 0).
      { apply Qnot_le_lt. intros H. apply Qle_bool_iff in H. congruence. }
      assert (0 <= nth t bid 0 * - Spec.hour_slope scs t)
        by (apply Qmult_le_0_compat; lra).
      lra. }
  rewrite sum_map_sub in Hgain. lra.
Qed.

Lemma one_price_mean_gain (cap : Q) (bid : list Q) (scs : list scenario) :
  Spec.within cap bid ->
  Spec.mean (map (Spec.realized "one" bid) scs)
  <= Spec.mean (map (Spec.realized "one" (Spec.all_or_nothing cap scs)) scs).
Proof.
  intros Hbid.
  assert (Hlin : forall b,
            Spec.mean (map (Spec.realized "one" b) scs)
            == Spec.mean (map (Spec.one_price_linear b) scs)).
  { intros b. apply mean_map_ext. intros sc _.
    unfold Spec.realized, Spec.one_price_linear.
    apply sum_map_ext. intros t _. cbv zeta. apply hour_one_linear. }
  rewrite !Hlin, !mean_map. unfold Qdiv.
  apply Qmult_le_compat_r; [now apply one_price_linear_gain|].
  apply Qinv_le_0_compat. change 0 with (inject_Z 0).
  rewrite <- Zle_Qle. lia.
Qed.

(** X20. Under the one-price scheme no bid vector within [0, cap] earns
    more on a sample than the all-or-nothing vector that bids [cap] in
    the hours where the summed factor [p_da * (1 - m)] of the scenarios
    is not negative and 0 in the others. *)
Theorem one_price_all_or_nothing (cap : Q) (bid : list Q)
    (scs : list scenario) :
  0 <= cap -> Spec.within cap bid ->
  scs <> [] -> Forall Spec.well_formed scs ->
  Spec.within cap (Spec.all_or_nothing cap scs) /\
  exists v best,
    Task13.evaluate_profit bid scs "one" = Ok v /\
    Task13.evaluate_profit (Spec.all_or_nothing cap scs) scs "one"
    = Ok best /\
    v <= best.
Proof.
  intros Hcap Hbid Hne Hwf. split; [now apply all_or_nothing_within|].
  do 2 eexists. split; [|split].
  - apply evaluate_profit_realized; [|exact Hne|exact Hwf].
    destruct Hbid as (-> & _). lia.
  - apply evaluate_profit_realized; [|exact Hne|exact Hwf]. simpl. lia.
  - now apply one_price_mean_gain.
Qed.

Lemma one_price_all_or_nothing_witness :
  exists v best,
    Task13.evaluate_profit (Samples.flat 100) Samples.population "one"
      = Ok v /\
    Task13.evaluate_profit (Spec.all_or_nothing 100 Samples.population)
      Samples.population "one" = Ok best /\
    v <= best.
Proof.
  destruct (one_price_all_or_nothing 100 (Samples.flat 100)
              Samples.population) as (_ & H).
  - discriminate.
  - exact flat_within.
  - discriminate.
  - apply population_well_formed.
  - exact H.
Defined.

End AllOrNothing.

Section OnePriceOptimum.

(** X21. The one-price linear program solved in closed form.  With binary
    system flags and day-ahead prices that are not negative, the point
    that bids [max_capacity] in the hours where the summed factor
    [p_da * (1 - m)] is not negative and 0 in the others (excess and
    deficit being the parts of the imbalance) is feasible, and no
    feasible point has a larger objective value. *)
Theorem one_price_optimum (scs : list scenario) (m : model) :
  scs <> [] -> Forall Spec.well_formed scs -> Forall Spec.binary scs ->
  Forall Spec.nonneg_prices scs ->
  Task13.build "one" scs = Ok m ->
  feasible m (Spec.fixed_bid (Spec.all_or_nothing max_capacity scs) scs) /\
  forall v, feasible m v ->
    objective m v
    <= objective m (Spec.fixed_bid (Spec.all_or_nothing max_capacity scs)
                      scs).
Proof.
  intros Hne Hwf Hbin Hpos Hb.
  assert (Hcap : 0 <= max_capacity) by (unfold max_capacity; lra).
  split.
  - apply fixed_bid_feasible with (scheme := "one"%string);
      [exact Hwf|now apply all_or_nothing_within|exact Hb].
  - intros v Hfeas.
    eapply Qle_trans;
      [apply (objective_le_realized "one" scs m v Hne Hwf Hbin Hpos Hb
                Hfeas)|].
    assert (Hin : Spec.within max_capacity (Spec.extracted_bid v)).
    { split; [apply extracted_bid_length|].
      unfold Spec.extracted_bid. apply Forall_map, Forall_forall.
      intros t Ht. apply in_seq in Ht.
      destruct (feasible_rows "one" scs m v 0 t Hwf Hb Hfeas)
        as (_ & _ & _ & _ & H0 & H1); [now apply nonempty_length|lia|].
      split; assumption. }
    eapply Qle_trans;
      [apply (one_price_mean_gain max_capacity _ scs Hin)|].
    destruct (build_ok "one" scs Hne Hwf) as (m' & Hm' & Hobj).
    rewrite Hb in Hm'. injection Hm' as <-.
    rewrite Hobj. unfold Spec.expected_revenue.
    rewrite <- (map_nth_range
                  (Spec.realized "one"
                     (Spec.all_or_nothing max_capacity scs))
                  scs Spec.no_scenario).
    apply Qle_lteq. right. apply mean_map_ext.
    intros s Hs. apply in_seq in Hs.
    apply realized_profit; [exact Hbin|lia].
Qed.

Lemma one_price_optimum_witness :
  exists m,
    Task13.build "one" Samples.population = Ok m /\
    objective m (Spec.fixed_bid Samples.selective Samples.population)
    <= objective m
         (Spec.fixed_bid
            (Spec.all_or_nothing max_capacity Samples.population)
            Samples.population).
Proof.
  destruct (build_ok "one" Samples.population) as (m & Hm & _).
  - discriminate.
  - apply population_well_formed.
  - destruct (one_price_optimum Samples.population m) as (_ & H).
    + discriminate.
    + apply population_well_formed.
    + apply population_binary.
    + apply population_nonneg.
    + exact Hm.
    + exists m. split; [exact Hm|]. apply H.
      apply fixed_bid_feasible with (scheme := "one"%string).
      * apply population_well_formed.
      * apply selective_within_capacity.
      * exact Hm.
Defined.

End OnePriceOptimum.
